(** * wifisocket: a shallow embedding of the protocol engine

    The module [wifisocket.py] drives Wi-Fi mains sockets over UDP.  This
    development embeds its command framing, its send/retry loop, device
    discovery and the timer codec, and states the properties of the
    specification over that embedding.

    Conventions.
    - Python [bytes] are lists of [Byte.byte]; a byte read by indexing is
      the integer [byte_val b].
    - Python [str] is [string].
    - A Python exception that leaves a function is the result [Raise e];
      the effects performed before it are kept in the world.
    - The sockets, the network, the clock and [time.sleep] live in an
      explicit [world] that every effectful function threads. *)

From Stdlib Require Import ZArith List String Ascii Bool Lia.
From Stdlib Require Import Init.Byte.
Import ListNotations.

Local Open Scope string_scope.
Local Open Scope Z_scope.

(* ------------------------------------------------------------------ *)
(** ** Exceptions and results *)

Inductive exc : Type :=
| IndexError
| UnboundLocalError
| ValueError
| OverflowError
| TypeError
| SocketTimeout
| OSError (msg : string).

(** [socket.timeout] is a subclass of [OSError]. *)
Definition is_OSError (e : exc) : bool :=
  match e with
  | SocketTimeout | OSError _ => true
  | _ => false
  end.

Inductive result (A : Type) : Type :=
| Ok (a : A)
| Raise (e : exc).

Arguments Ok {A} a.
Arguments Raise {A} e.

Definition rbind {A B} (r : result A) (k : A -> result B) : result B :=
  match r with
  | Ok a => k a
  | Raise e => Raise e
  end.

Definition of_option {A} (e : exc) (o : option A) : result A :=
  match o with
  | Some a => Ok a
  | None => Raise e
  end.

Notation "'let!' x ':=' r 'in' k" := (rbind r (fun x => k))
  (at level 10, x name, r at level 100, k at level 200).

(* ------------------------------------------------------------------ *)
(** ** Bytes *)

Definition bytes := list byte.

Definition byte_val (b : byte) : Z := Z.of_N (Byte.to_N b).

Definition byte_of_Z (z : Z) : option byte :=
  if z <? 0 then None else Byte.of_N (Z.to_N z).

(** [b[i]]: indexing raises [IndexError] out of range (the embedding only
    uses non-negative indices, as the source does for [bytes]). *)
Definition index (b : bytes) (i : nat) : result Z :=
  match nth_error b i with
  | Some x => Ok (byte_val x)
  | None => Raise IndexError
  end.

(** [b[i:]] and [b[i:j]]: slices never raise. *)
Definition slice_from (b : bytes) (i : nat) : bytes := skipn i b.
Definition slice (b : bytes) (i j : nat) : bytes := firstn (j - i) (skipn i b).

(* ------------------------------------------------------------------ *)
(** ** Strings and number formatting *)

Fixpoint string_rev (s : string) : string :=
  match s with
  | EmptyString => EmptyString
  | String c s' => string_rev s' ++ String c EmptyString
  end.

(** Digit [d] (0..35) as Python prints it: lowercase. *)
Definition digit_char (d : Z) : ascii :=
  if d <? 10 then ascii_of_N (Z.to_N (48 + d)) else ascii_of_N (Z.to_N (87 + d)).

(** The [n] low digits of [v] in base [base], most significant first. *)
Fixpoint digits_fixed (base : Z) (n : nat) (v : Z) : string :=
  match n with
  | O => EmptyString
  | S k => digits_fixed base k (v / base) ++ String (digit_char (v mod base)) EmptyString
  end.

Fixpoint ndigits_aux (fuel : nat) (base v : Z) : nat :=
  match fuel with
  | O => 1
  | S f => if v <? base then 1%nat else S (ndigits_aux f base (v / base))
  end.

(** Number of digits of [v >= 0] in base [base >= 2]. *)
Definition ndigits (base v : Z) : nat :=
  ndigits_aux (S (Z.to_nat (Z.log2 v))) base v.

(** [f'{v:0{width}x}'], [f'{v:0{width}b}'], [f'{v:0{width}d}'] for base 16,
    2, 10: zero padded to [width] characters, the sign counted in the width,
    never truncated. *)
Definition format_int (base : Z) (width : nat) (v : Z) : string :=
  if v <? 0
  then String "-" (digits_fixed base (Nat.max (width - 1) (ndigits base (- v))) (- v))
  else digits_fixed base (Nat.max width (ndigits base v)) v.

(** [str(v)] for an integer. *)
Definition str_int (v : Z) : string := format_int 10 0 v.

(** The blanks that [int()] strips at both ends of its argument: the
    ASCII whitespace and, among the characters up to code 255, the next
    line and the no-break space. *)
Definition is_int_blank (c : ascii) : bool :=
  let n := N_of_ascii c in
  (N.eqb n 32 || (N.leb 9 n && N.leb n 13) || N.eqb n 133
   || N.eqb n 160)%bool.

Fixpoint lstrip (s : string) : string :=
  match s with
  | EmptyString => EmptyString
  | String c s' => if is_int_blank c then lstrip s' else s
  end.

Definition strip (s : string) : string :=
  string_rev (lstrip (string_rev (lstrip s))).

Definition bit_val (c : ascii) : option Z :=
  match c with
  | "0"%char => Some 0
  | "1"%char => Some 1
  | _ => None
  end.

Definition dec_val (c : ascii) : option Z :=
  let n := Z.of_N (N_of_ascii c) in
  if (48 <=? n) && (n <=? 57) then Some (n - 48) else None.

(** The digits of an integer literal: at least one digit, single
    underscores between digits ([underscore_ok]: an underscore may come
    next; [complete]: the literal may end here). *)
Fixpoint int_digits (base : Z) (digit : ascii -> option Z) (s : string)
         (acc : Z) (underscore_ok complete : bool) : option Z :=
  match s with
  | EmptyString => if complete then Some acc else None
  | String c s' =>
    if Ascii.eqb c "_"
    then if underscore_ok
         then int_digits base digit s' acc false false
         else None
    else match digit c with
         | Some d => int_digits base digit s' (base * acc + d) true true
         | None => None
         end
  end.

(** The literal after the blanks are stripped: an optional sign, then
    [body]. *)
Definition int_signed (body : string -> option Z) (s : string) : option Z :=
  match strip s with
  | String "-" s' => option_map Z.opp (body s')
  | String "+" s' => body s'
  | s' => body s'
  end.

(** [int(s, 2)]: a base-2 literal, with an optional prefix [0b] or [0B]
    after which an underscore may come; [None] is [ValueError]. *)
Definition int_base2 (s : string) : option Z :=
  int_signed
    (fun body =>
       match body with
       | String "0" (String "b" digits)
       | String "0" (String "B" digits) =>
         int_digits 2 bit_val digits 0 true false
       | _ => int_digits 2 bit_val body 0 false false
       end) s.

(** [int(s)]: a decimal literal; [None] is [ValueError]. *)
Definition int_dec (s : string) : option Z :=
  int_signed (fun body => int_digits 10 dec_val body 0 false false) s.

(** [s.split(sep)] for a one-character separator. *)
Fixpoint split_on (sep : ascii) (s : string) : list string :=
  match s with
  | EmptyString => [EmptyString]
  | String c s' =>
    if Ascii.eqb c sep then EmptyString :: split_on sep s'
    else match split_on sep s' with
         | w :: ws => String c w :: ws
         | [] => [String c EmptyString]
         end
  end.

(** ASCII whitespace, as [bytes.fromhex] and [str.split()] skip it. *)
Definition is_space (c : ascii) : bool :=
  let n := N_of_ascii c in
  (N.eqb n 32 || (N.leb 9 n && N.leb n 13))%bool.

(** [s.split()]: split on runs of whitespace, no empty words. *)
Fixpoint split_ws_aux (s : string) (cur : string) : list string :=
  match s with
  | EmptyString => match cur with EmptyString => [] | _ => [string_rev cur] end
  | String c s' =>
    if is_space c
    then match cur with
         | EmptyString => split_ws_aux s' EmptyString
         | _ => string_rev cur :: split_ws_aux s' EmptyString
         end
    else split_ws_aux s' (String c cur)
  end.

Definition split_ws (s : string) : list string := split_ws_aux s EmptyString.

(* ------------------------------------------------------------------ *)
(** ** Hexadecimal text: [bytes.hex()] and [bytes.fromhex()] *)

Definition hexval (c : ascii) : option Z :=
  let n := Z.of_N (N_of_ascii c) in
  if (48 <=? n) && (n <=? 57) then Some (n - 48)
  else if (97 <=? n) && (n <=? 102) then Some (n - 87)
  else if (65 <=? n) && (n <=? 70) then Some (n - 55)
  else None.

(** [b.hex()]: two lowercase digits per byte. *)
Fixpoint hex (b : bytes) : string :=
  match b with
  | [] => EmptyString
  | x :: r =>
    String (digit_char (byte_val x / 16))
      (String (digit_char (byte_val x mod 16)) (hex r))
  end.

(** [bytes.fromhex(s)]: whitespace is skipped between bytes, every byte is
    two adjacent hexadecimal digits; [None] is [ValueError]. *)
Fixpoint fromhex (s : string) : option bytes :=
  match s with
  | EmptyString => Some []
  | String c s1 =>
    if is_space c then fromhex s1
    else
      match s1 with
      | EmptyString => None
      | String d s2 =>
        match hexval c, hexval d with
        | Some h, Some l =>
          match byte_of_Z (16 * h + l), fromhex s2 with
          | Some x, Some r => Some (x :: r)
          | _, _ => None
          end
        | _, _ => None
        end
      end
  end.

(* ------------------------------------------------------------------ *)
(** ** The timer's packed active/repeat byte *)

(** [set_timer], the first statement after unpacking the socket:
    [repeat = f'{int(("1" if active else "0") + repeat[::-1], 2):02x}']. *)
Definition encode_repeat (active : bool) (repeat : string) : result string :=
  match int_base2 ((if active then "1" else "0") ++ string_rev repeat) with
  | Some v => Ok (format_int 16 2 v)
  | None => Raise ValueError
  end.

(** [timer_query]: [True if f'{m[n + 1]:08b}'[0] == '1' else False]. *)
Definition decode_active (b : Z) : bool :=
  match String.get 0 (format_int 2 8 b) with
  | Some c => Ascii.eqb c "1"
  | None => false
  end.

(** [s[-1:0:-1]]: from the last character down to index 1. *)
Definition slice_last_down_to_1 (s : string) : string :=
  match s with
  | EmptyString => EmptyString
  | String _ s' => string_rev s'
  end.

(** [timer_query]: [repeat = f'{m[n + 1]:08b}'[-1:0:-1]]. *)
Definition decode_repeat (b : Z) : string :=
  slice_last_down_to_1 (format_int 2 8 b).

(** A repeat mask of the data model: seven characters, each 0 or 1. *)
Fixpoint all_bits (s : string) : bool :=
  match s with
  | EmptyString => true
  | String c s' => (Ascii.eqb c "0" || Ascii.eqb c "1") && all_bits s'
  end.

Definition is_mask (s : string) : bool :=
  (Nat.eqb (String.length s) 7 && all_bits s)%bool.

(* ------------------------------------------------------------------ *)
(** ** Values handed back to the caller *)

(** An integer or a string, for arguments and fields that take both
    (a timer number or ['Countdown'], the selector [which]). *)
Inductive atom : Type :=
| AInt (z : Z)
| AStr (s : string).

(** Python [==] between two such values. *)
Definition atom_eqb (a b : atom) : bool :=
  match a, b with
  | AInt x, AInt y => x =? y
  | AStr x, AStr y => String.eqb x y
  | _, _ => false
  end.

(** [namedtuple('Timer', 'number active repeat time switch',
    defaults=('', '', ''))]; [t_active] is [None] for an empty slot. *)
Record Timer : Type := mkTimer {
  t_number : atom;
  t_active : option bool;
  t_repeat : string;
  t_time : string;
  t_switch : string
}.

(** What the lists of the engine hold: [Socket(mac, ip)] in
    [find_sockets]; [Timer(...)] or a bare slot number in [timer_query]. *)
Inductive item : Type :=
| ISocket (mac ip : string)
| ITimer (t : Timer)
| INumber (a : atom).

Inductive value : Type :=
| VNone
| VBool (b : bool)
| VStr (s : string)
| VExc (e : exc)
| VItem (i : item)
| VAbsence (active : bool) (from_ to_ : option string)
| VList (l : list item).

(** The pair [(success, message)] that [send] returns: [(True, payload)]
    with the bytes after the 9-byte reply header, or [(False, message)]
    with the recorded error. *)
Inductive reply : Type :=
| Success (payload : bytes)
| Failure (message : value).

(** [if success: return success / else: return message], the tail of every
    command that only needs a receipt. *)
Definition receipt (r : reply) : value :=
  match r with
  | Success _ => VBool true
  | Failure message => message
  end.

(* ------------------------------------------------------------------ *)
(** ** The world: sockets, network, sleep and clock *)

(** What one call of [s.recv] meets: nothing arrives while the socket
    waits, a datagram arrives, or the operating system reports an error. *)
Inductive recv_outcome : Type :=
| RecvTimeout
| RecvData (d : bytes)
| RecvError (msg : string).

(** Why the host of an address is turned down.  [BadHostText]: the text
    cannot name a host, it holds a NUL character or the idna codec rejects
    it, and Python raises [TypeError] before any lookup.  [NetError msg]:
    the lookup of the name or the system call fails, an [OSError]. *)
Inductive net_failure : Type :=
| BadHostText
| NetError (msg : string).

Record world : Type := mkWorld {
  (** [socket.gethostname()] when the module was loaded: the value that
      [create_socket] keeps as the default of [my_ip] *)
  hostname : string;
  (** what [s.bind] meets when it reads a host name: the [TypeError] of a
      text that cannot name a host, or the [socket.gaierror] of a name
      that does not resolve *)
  resolve_error : string -> option net_failure;
  (** the [OSError] that the bind of a resolved host and a port raises, if
      that address cannot be bound *)
  bind_error : string -> Z -> option string;
  (** what the successive calls of [s.sendto] meet: [None] the datagram
      leaves, [Some (NetError e)] the call raises [OSError e],
      [Some BadHostText] it raises [TypeError]; past the end of the list
      every send succeeds *)
  send_errors : list (option net_failure);
  (** what the successive calls of [s.recv] meet; past the end of the list
      nothing arrives any more *)
  inbox : list recv_outcome;
  (** datagrams handed to the network with their destination, oldest first *)
  sent : list (bytes * (string * Z));
  (** handles of the sockets created and not closed *)
  open_sockets : list nat;
  next_socket : nat;
  (** total of [time.sleep], in milliseconds *)
  slept : Z;
  (** [datetime.datetime.now()], in seconds since 0001-01-01 00:00 *)
  now : Z;
  (** [time.timezone] *)
  timezone : Z
}.

Definition set_send_errors (l : list (option net_failure)) (w : world)
  : world :=
  mkWorld (hostname w) (resolve_error w) (bind_error w)
          l (inbox w) (sent w) (open_sockets w)
          (next_socket w) (slept w) (now w) (timezone w).

Definition set_inbox (l : list recv_outcome) (w : world) : world :=
  mkWorld (hostname w) (resolve_error w) (bind_error w)
          (send_errors w) l (sent w) (open_sockets w)
          (next_socket w) (slept w) (now w) (timezone w).

Definition set_sent (l : list (bytes * (string * Z))) (w : world) : world :=
  mkWorld (hostname w) (resolve_error w) (bind_error w)
          (send_errors w) (inbox w) l (open_sockets w)
          (next_socket w) (slept w) (now w) (timezone w).

Definition set_sockets (l : list nat) (n : nat) (w : world) : world :=
  mkWorld (hostname w) (resolve_error w) (bind_error w)
          (send_errors w) (inbox w) (sent w) l
          n (slept w) (now w) (timezone w).

Definition set_slept (z : Z) (w : world) : world :=
  mkWorld (hostname w) (resolve_error w) (bind_error w)
          (send_errors w) (inbox w) (sent w) (open_sockets w)
          (next_socket w) z (now w) (timezone w).

(** The module's defaults that the engine reads ([device], [packet],
    [udp_port], [timeout], [repeat]); the caller may rebind them.
    [timeout], in seconds, is what [create_socket] hands to
    [s.settimeout]; on a socket with a positive timeout it is the delay
    after which [recv] meets [RecvTimeout]. *)
Record config : Type := mkConfig {
  device : string;
  packet : string;
  udp_port : Z;
  timeout : Z;
  repeat : Z
}.

Definition SWS_A1 : string := "C1 11 71 50".
Definition DIS_120 : string := "C2 11 92 DD".
Definition U_DEVICE : string := "CA A1 88 98".

Definition defaults : config := mkConfig SWS_A1 "FF FF" 8530 2 3.

(** *** A state and exception monad over the world *)

Definition M (A : Type) : Type := world -> result A * world.

Definition ret {A} (a : A) : M A := fun w => (Ok a, w).

Definition raise {A} (e : exc) : M A := fun w => (Raise e, w).

Definition bind {A B} (m : M A) (k : A -> M B) : M B :=
  fun w =>
    match m w with
    | (Ok a, w') => k a w'
    | (Raise e, w') => (Raise e, w')
    end.

Definition lift {A} (r : result A) : M A := fun w => (r, w).

(** [try: m / except <handled> as e: h e / else: k]: [h e] is [None] when
    the clause does not catch [e]. *)
Definition try_except {A B} (m : M A) (h : exc -> option (M B)) (k : A -> M B)
  : M B :=
  fun w =>
    match m w with
    | (Ok a, w') => k a w'
    | (Raise e, w') =>
      match h e with
      | Some handler => handler w'
      | None => (Raise e, w')
      end
    end.

Declare Scope m_scope.
Delimit Scope m_scope with m.
Notation "x <- m ;; k" := (bind m (fun x => k))
  (at level 61, m at next level, right associativity) : m_scope.
Notation "m ;;; k" := (bind m (fun _ => k))
  (at level 61, right associativity) : m_scope.
Local Open Scope m_scope.

(** *** Socket primitives *)

(** The largest number of seconds that CPython turns into its 64-bit
    count of nanoseconds. *)
Definition max_seconds : Z := 9223372036.

(** What [create_socket(my_ip, broadcast)] raises once the socket object
    exists, [None] when it returns the socket; [my_ip = None] is the
    default, the host name of the machine.
    - [s.settimeout(timeout)] raises [OverflowError] on a timeout that does
      not fit the count of nanoseconds, then [ValueError] on a negative
      timeout;
    - [s.bind((my_ip, udp_port))] raises [TypeError] on a text that cannot
      name a host; then [OverflowError] on a port that does not fit a C
      [int]; then the [socket.gaierror], an [OSError], of a host name that
      does not resolve; then [OverflowError] on a port outside 0..65535;
      then the [OSError] of the bind itself. *)
Definition socket_error (g : config) (my_ip : option string) (w : world)
  : option exc :=
  let host := match my_ip with Some h => h | None => hostname w end in
  let port := udp_port g in
  if (timeout g <? - max_seconds) || (max_seconds <? timeout g)
  then Some OverflowError
  else if timeout g <? 0 then Some ValueError
  else match resolve_error w host with
       | Some BadHostText => Some TypeError
       | Some (NetError e) =>
         if (port <? - 2 ^ 31) || (2 ^ 31 <=? port) then Some OverflowError
         else Some (OSError e)
       | None =>
         if (port <? 0) || (65535 <? port) then Some OverflowError
         else match bind_error w host port with
              | Some e => Some (OSError e)
              | None => None
              end
       end.

(** [create_socket]: a UDP socket is created, given the timeout and bound;
    when [settimeout] or [bind] raises, the socket object already exists.
    [SO_BROADCAST] changes nothing that the engine observes. *)
Definition create_socket (g : config) (my_ip : option string)
           (broadcast : bool) : M nat :=
  fun w =>
    let s := next_socket w in
    let w' := set_sockets (s :: open_sockets w) (S s) w in
    match socket_error g my_ip w with
    | Some e => (Raise e, w')
    | None => (Ok s, w')
    end.

Definition close (s : nat) : M unit :=
  fun w =>
    (Ok tt,
     set_sockets (filter (fun h => negb (Nat.eqb h s)) (open_sockets w))
                 (next_socket w) w).

(** [s.sendto(data, address)]: the head of [send_errors] decides. *)
Definition sendto (s : nat) (data : bytes) (address : string * Z) : M unit :=
  fun w =>
    let w' := set_send_errors (tl (send_errors w)) w in
    match send_errors w with
    | Some BadHostText :: _ => (Raise TypeError, w')
    | Some (NetError e) :: _ => (Raise (OSError e), w')
    | _ => (Ok tt, set_sent (sent w ++ [(data, address)]) w')
    end.

(** [s.recv(bufsize)] on a socket that was given the timeout of [g]: the
    head of [inbox] decides; a datagram longer than the buffer is cut.
    When nothing arrives, a socket with a positive timeout raises
    [socket.timeout]; with the timeout 0 the socket does not wait and the
    call raises [BlockingIOError], an [OSError], at once. *)
Definition recv (g : config) (s : nat) (bufsize : nat) : M bytes :=
  fun w =>
    let w' := set_inbox (tl (inbox w)) w in
    match inbox w with
    | RecvData d :: _ => (Ok (firstn bufsize d), w')
    | RecvError e :: _ => (Raise (OSError e), w')
    | _ =>
      if timeout g =? 0
      then (Raise (OSError "Resource temporarily unavailable"), w')
      else (Raise SocketTimeout, w')
    end.

Definition sleep (ms : Z) : M unit :=
  fun w => (Ok tt, set_slept (slept w + ms) w).

Definition datetime_now : M Z := fun w => (Ok (now w), w).

Definition time_timezone : M Z := fun w => (Ok (timezone w), w).

(* ------------------------------------------------------------------ *)
(** ** Naive datetimes *)

(** A [datetime] without time zone is the number of seconds since
    0001-01-01 00:00:00; the microseconds never reach the hour and minute
    that the engine reads.  [datetime.max] is the last second before
    [datetime_end]. *)
Definition datetime_end : Z := 3652059 * 86400.

(** [datetime.datetime(1, 1, 2, hour, minute)]. *)
Definition datetime_1_1_2 (hour minute : Z) : result Z :=
  if (0 <=? hour) && (hour <? 24) && (0 <=? minute) && (minute <? 60)
  then Ok (86400 + 3600 * hour + 60 * minute)
  else Raise ValueError.

(** [t + datetime.timedelta(seconds=delta)]. *)
Definition datetime_add (t delta : Z) : result Z :=
  let r := t + delta in
  if (0 <=? r) && (r <? datetime_end) then Ok r else Raise OverflowError.

Definition dt_hour (t : Z) : Z := (t / 3600) mod 24.
Definition dt_minute (t : Z) : Z := (t / 60) mod 60.

(** [if not delta_time: delta_time = time.timezone]: [None] and [0] are
    both falsy. *)
Definition default_delta (delta_time : option Z) : M Z :=
  match delta_time with
  | None => time_timezone
  | Some d => if d =? 0 then time_timezone else ret d
  end.

(* ------------------------------------------------------------------ *)
(** ** Command templates *)

Definition PASSKEY : bytes := list_byte_of_string "0123456789abcdef".
Definition INITIALIZATION_VECTOR : bytes := PASSKEY.

Definition CMD_INIT (mac : string) : string := "01 40 " ++ mac ++ " ".
Definition CMD_HEADER (packet device : string) : string :=
  "00 " ++ packet ++ " " ++ device ++ " ".

Definition CMD_SEARCH (mac : string) : string := "23 " ++ mac ++ " 02 02".

Definition CMD_SWITCH (switch : string) : string :=
  "01 " ++ switch ++ " 04 04 04 04".
Definition CMD_GET_STATE : string := "02 00 00 00 00 04 04 04 04".

Definition CMD_TIMER_QUERY : string := "04 00 00 06 06 06 06 06 06".
Definition CMD_SET_TIMER (timer repeat hour minute switch : string) : string :=
  "03 00 " ++ timer ++ " " ++ repeat ++ " " ++ hour ++ " " ++ minute ++ " "
  ++ switch ++ " " ++ "0F 0F 0F 0F 0F 0F 0F 0F 0F 0F 0F 0F 0F 0F 0F".
Definition CMD_DELETE_TIMER (timer : Z) : string :=
  "05 00 " ++ format_int 16 2 timer ++ " 06 06 06 06 06 06".

Definition CMD_AM_QUERY : string := "0A 08 08 08 08 08 08 08 08".
Definition CMD_SET_AM (active : string) (from_ to_ : Z) : string :=
  "09 " ++ active ++ " " ++ format_int 16 8 from_ ++ " "
  ++ format_int 16 8 to_ ++ " 1E "
  ++ "0E 0E 0E 0E 0E 0E 0E 0E 0E 0E 0E 0E 0E 0E".
Definition CMD_DELETE_AM : string :=
  "09 00 00 00 00 00 00 00 00 00 0E "
  ++ "0E 0E 0E 0E 0E 0E 0E 0E 0E 0E 0E 0E 0E 0E".

Definition CMD_HEARTBEAT : string := "61 55 93 26 54 04 04 04 04".

(** [n.to_bytes(1, 'big')]. *)
Definition to_bytes_1 (n : Z) : result bytes :=
  match byte_of_Z n with
  | Some b => Ok [b]
  | None => Raise OverflowError
  end.

(** Control leaving one turn of a loop body: [continue] with the value
    bound to [message], or [return]. *)
Inductive flow (A : Type) : Type :=
| Continue (message : value)
| Return (r : A).

Arguments Continue {A} message.
Arguments Return {A} r.

(* ------------------------------------------------------------------ *)
(** ** The engine *)

Section Engine.

(** [AES.new(key, AES.MODE_CBC, iv=iv).encrypt(data)] and [.decrypt(data)]
    of the library [pycryptodome], on data whose length is a multiple of
    the block size. *)
Variable aes_cbc_encrypt : bytes -> bytes -> bytes -> bytes.
Variable aes_cbc_decrypt : bytes -> bytes -> bytes -> bytes.

(** [datetime.datetime.strptime(s, '%d.%m.%Y %H:%M')], the naive datetime
    it parses or the exception it raises. *)
Variable strptime : string -> result Z.
(** [int(date.timestamp())] of a naive datetime read as local time. *)
Variable timestamp : Z -> result Z.
(** [datetime.datetime.fromtimestamp(t).strftime('%d.%m.%Y %H:%M')]. *)
Variable strftime_local : Z -> result string.

(** The module globals in force during the call. *)
Variable g : config.

(** The cipher refuses data that is not made of whole 16-byte blocks. *)
Definition encrypt (command : bytes) : result bytes :=
  if (Nat.eqb (Nat.modulo (List.length command) 16) 0)
  then Ok (aes_cbc_encrypt PASSKEY INITIALIZATION_VECTOR command)
  else Raise ValueError.

Definition decrypt (message : bytes) : result bytes :=
  if (Nat.eqb (Nat.modulo (List.length message) 16) 0)
  then Ok (aes_cbc_decrypt PASSKEY INITIALIZATION_VECTOR message)
  else Raise ValueError.

Definition assemble_command (mac command : string) : result string :=
  let uncrypted_part := CMD_INIT mac in
  let header := CMD_HEADER (packet g) (device g) in
  let! plain := of_option ValueError (fromhex (header ++ command)) in
  let! crypted_part := encrypt plain in
  let! len := to_bytes_1 (Z.of_nat (List.length crypted_part)) in
  Ok (uncrypted_part ++ hex len ++ hex crypted_part).

(** The test [message[1] != 66 or len(message[9:]) % 16 != 0]; the index
    is evaluated first and raises on a datagram shorter than two bytes. *)
Definition bad_reply (message : bytes) : result bool :=
  let! marker := index message 1 in
  Ok (negb (marker =? 66)
      || negb (Nat.eqb (Nat.modulo (List.length (slice_from message 9)) 16) 0)).

(** One turn of the loop of [send]. *)
Definition send_attempt (s : nat) (send_command : bytes)
           (address : string * Z) : M (flow reply) :=
  try_except (sendto s send_command address)
    (fun e => if is_OSError e
              then Some (close s ;;; ret (Return (Failure (VExc e))))
              else None)
    (fun _ =>
       try_except (recv g s 1024)
         (fun e => match e with
                   | SocketTimeout => Some (ret (Continue (VStr "Timeout")))
                   | _ => None
                   end)
         (fun message =>
            bad <- lift (bad_reply message) ;;
            if bad : bool
            then sleep 500 ;;; ret (Continue (VStr "Bad return data"))
            else close s ;;; ret (Return (Success (slice_from message 9))))).

(** [for n in range(repeat): ...] followed by
    [s.close(); return False, message]; [message] is unbound until a turn
    of the loop binds it. *)
Fixpoint send_loop (n : nat) (s : nat) (send_command : bytes)
         (address : string * Z) (message : option value) : M reply :=
  match n with
  | O =>
    close s ;;;
    message <- lift (of_option UnboundLocalError message) ;;
    ret (Failure message)
  | S n' =>
    f <- send_attempt s send_command address ;;
    match f with
    | Continue m => send_loop n' s send_command address (Some m)
    | Return r => ret r
    end
  end.

(** [send(ip, command)], with [broadcast] left at its default [False] as
    at every call site of the module. *)
Definition send (ip command : string) : M reply :=
  s <- create_socket g None false ;;
  let address := (ip, udp_port g) in
  send_command <- lift (of_option ValueError (fromhex command)) ;;
  send_loop (Z.to_nat (repeat g)) s send_command address None.

(** The body of [while True] in [find_sockets] for one received
    datagram: [None] is [continue] without a new entry. *)
Definition decode_found (message : bytes) : result (option item) :=
  let! bad := bad_reply message in
  if bad : bool then Ok None
  else
    let! message := decrypt (slice_from message 9) in
    let mac_ := hex (slice message 12 18) in
    let! a := index message 8 in
    let! b := index message 9 in
    let! c := index message 10 in
    let! d := index message 11 in
    let ip_ := str_int a ++ "." ++ str_int b ++ "." ++ str_int c ++ "."
               ++ str_int d in
    Ok (Some (ISocket mac_ ip_)).

(** The loop [while True: ...] of [find_sockets], by recursion on what
    the successive calls of [s.recv(1024)] meet ([pending] is the inbox of
    the world at this point); the first timeout leaves the loop, and on a
    socket that does not wait the first receive that finds nothing
    raises. *)
Fixpoint find_loop (pending : list recv_outcome) (socket_data : list item)
         (w : world) : result (list item) * world :=
  match pending with
  | [] =>
    if timeout g =? 0
    then (Raise (OSError "Resource temporarily unavailable"), set_inbox [] w)
    else (Ok socket_data, set_inbox [] w)
  | RecvTimeout :: rest =>
    if timeout g =? 0
    then (Raise (OSError "Resource temporarily unavailable"),
          set_inbox rest w)
    else (Ok socket_data, set_inbox rest w)
  | RecvError e :: rest => (Raise (OSError e), set_inbox rest w)
  | RecvData d :: rest =>
    match decode_found (firstn 1024 d) with
    | Raise e => (Raise e, set_inbox rest w)
    | Ok None => find_loop rest socket_data (set_inbox rest w)
    | Ok (Some found) =>
      find_loop rest (socket_data ++ [found]) (set_inbox rest w)
    end
  end.

Definition find_sockets (mac ip : string) : M value :=
  s <- create_socket g None true ;;
  let address := (ip, udp_port g) in
  cmd <- lift (assemble_command mac (CMD_SEARCH mac)) ;;
  send_command <- lift (of_option ValueError (fromhex cmd)) ;;
  sendto s send_command address ;;;
  socket_data <- (fun w => find_loop (inbox w) [] w) ;;
  close s ;;;
  if negb (String.eqb mac "FF FF FF FF FF FF")
     || negb (String.eqb ip "255.255.255.255")
  then match socket_data with
       | first :: _ => ret (VItem first)
       | [] => raise IndexError
       end
  else ret (VList socket_data).

(** Reading a local variable that no branch has bound. *)
Definition read_local {A} (x : option A) : M A :=
  lift (of_option UnboundLocalError x).

Definition switch (socket_ : string * string) (on_off : string) : M value :=
  let (mac, ip) := socket_ in
  cmd <- (if String.eqb on_off "on"
          then c <- lift (assemble_command mac (CMD_SWITCH "00 00 FF FF")) ;;
               ret (Some c)
          else if String.eqb on_off "off"
          then c <- lift (assemble_command mac (CMD_SWITCH "00 00 00 FF")) ;;
               ret (Some c)
          else ret None) ;;
  cmd <- read_local cmd ;;
  r <- send ip cmd ;;
  ret (receipt r).

Definition switch_state (socket_ : string * string) : M value :=
  let (mac, ip) := socket_ in
  cmd <- lift (assemble_command mac CMD_GET_STATE) ;;
  r <- send ip cmd ;;
  match r with
  | Success message =>
    message <- lift (decrypt message) ;;
    state <- lift (index message 10) ;;
    if state =? 0 then ret (VStr "off")
    else if state =? 255 then ret (VStr "on")
    else ret VNone
  | Failure message => ret message
  end.

(** [hour, minute = f'{m[n + 2]} {m[n + 3]}'.split()] followed by
    [int(hour)], [int(minute)]. *)
Definition stored_time (b2 b3 : Z) : result (Z * Z) :=
  match split_ws (str_int b2 ++ " " ++ str_int b3) with
  | [hour; minute] =>
    match int_dec hour, int_dec minute with
    | Some h, Some m => Ok (h, m)
    | _, _ => Raise ValueError
    end
  | _ => Raise ValueError
  end.

(** The loop [for n in range(0, 88, 8)] of [timer_query] over the
    remaining values [ns] of [n]. *)
Fixpoint timer_loop (ns : list nat) (m : bytes) (which : atom)
         (delta_time : Z) (data : list item) : M value :=
  match ns with
  | [] => ret (VList data)
  | n :: rest =>
    number <- (if (n <? 80)%nat
               then x <- lift (index m n) ;; ret (AInt x)
               else ret (AStr "Countdown")) ;;
    packed <- lift (index m (n + 1)) ;;
    let active := decode_active packed in
    let repeat := decode_repeat packed in
    let switch :=
      if String.eqb (hex (slice m (n + 4) (n + 8))) "0000ffff"
      then "on" else "off" in
    b2 <- lift (index m (n + 2)) ;;
    time_ <- (if b2 =? 255 then ret None
              else
                b3 <- lift (index m (n + 3)) ;;
                hm <- lift (stored_time b2 b3) ;;
                t <- lift (datetime_1_1_2 (fst hm) (snd hm)) ;;
                t <- lift (datetime_add t (- delta_time)) ;;
                t <- (if atom_eqb number (AStr "Countdown")
                      then
                        nw <- datetime_now ;;
                        lift (datetime_add t
                                (- (3600 * dt_hour nw + 60 * dt_minute nw)))
                      else ret t) ;;
                ret (Some (format_int 10 2 (dt_hour t) ++ ":"
                           ++ format_int 10 2 (dt_minute t)))) ;;
    let selected :=
      atom_eqb which (AStr "all") || atom_eqb which number
      || (atom_eqb which (AStr "active") && active)
      || (atom_eqb which (AStr "set")
          && match time_ with Some _ => true | None => false end)
      || (atom_eqb which (AStr "free")
          && match time_ with Some _ => false | None => true end) in
    let data :=
      if selected
      then match time_ with
           | None =>
             if atom_eqb which (AStr "free")
             then (data ++ [INumber number])%list
             else (data ++ [ITimer (mkTimer number None EmptyString EmptyString
                                         EmptyString)])%list
           | Some t =>
             (data ++ [ITimer (mkTimer number (Some active) repeat t
                                       switch)])%list
           end
      else data in
    if atom_eqb which number
    then match data with
         | first :: _ => ret (VItem first)
         | [] => raise IndexError
         end
    else timer_loop rest m which delta_time data
  end.

(** [range(0, 88, 8)]. *)
Definition timer_offsets : list nat := map (fun k => (8 * k)%nat) (seq 0 11).

Definition timer_query (socket_ : string * string) (which : atom)
           (delta_time : option Z) : M value :=
  let (mac, ip) := socket_ in
  cmd <- lift (assemble_command mac CMD_TIMER_QUERY) ;;
  r <- send ip cmd ;;
  match r with
  | Success message =>
    message <- lift (decrypt message) ;;
    let m := slice_from message 9 in
    delta_time <- default_delta delta_time ;;
    timer_loop timer_offsets m which delta_time []
  | Failure message => ret message
  end.

(** [hour, minute = (int(x) for x in time_.split(':'))]. *)
Definition parse_hh_mm (time_ : string) : result (Z * Z) :=
  match split_on ":" time_ with
  | [hour; minute] =>
    match int_dec hour, int_dec minute with
    | Some h, Some m => Ok (h, m)
    | _, _ => Raise ValueError
    end
  | _ => Raise ValueError
  end.

Definition set_timer (socket_ : string * string) (timer : atom)
           (active : bool) (repeat : string) (time_ : string)
           (switch : string) (delta_time : option Z) : M value :=
  let (mac, ip) := socket_ in
  repeat <- lift (encode_repeat active repeat) ;;
  hm <- lift (parse_hh_mm time_) ;;
  let hour := fst hm in
  let minute := snd hm in
  st <- (if atom_eqb timer (AInt 11) || atom_eqb timer (AStr "Countdown")
         then
           nw <- datetime_now ;;
           t <- lift (datetime_add nw (3600 * hour + 60 * minute)) ;;
           ret (t, AInt 11, format_int 16 2 128)
         else
           t <- lift (datetime_1_1_2 hour minute) ;;
           ret (t, timer, repeat)) ;;
  let '(time_, timer, repeat) := st in
  delta_time <- default_delta delta_time ;;
  time_ <- lift (datetime_add time_ delta_time) ;;
  hm <- lift (match split_ws (format_int 16 2 (dt_hour time_) ++ " "
                              ++ format_int 16 2 (dt_minute time_)) with
              | [hour; minute] => Ok (hour, minute)
              | _ => Raise ValueError
              end) ;;
  timer <- lift (match timer with
                 | AInt z => Ok (format_int 16 2 z)
                 | AStr _ => Raise ValueError
                 end) ;;
  let switch := if String.eqb switch "on" then "00 00 FF FF"
                else "00 00 00 FF" in
  cmd <- lift (assemble_command mac
                 (CMD_SET_TIMER timer repeat (fst hm) (snd hm) switch)) ;;
  r <- send ip cmd ;;
  ret (receipt r).

(** The call of [set_timer] is a statement: its value is dropped and the
    function body ends without [return]. *)
Definition set_countdown (socket_ : string * string) (time_ : string)
           (switch : string) (delta_time : option Z) : M value :=
  set_timer socket_ (AInt 11) true "0000000" time_ switch delta_time ;;;
  ret VNone.

Definition delete_timer (socket_ : string * string) (timer : atom)
  : M value :=
  let (mac, ip) := socket_ in
  let timer := if atom_eqb timer (AStr "Countdown") then AInt 11 else timer in
  body <- lift (match timer with
                | AInt z => Ok (CMD_DELETE_TIMER z)
                | AStr _ => Raise ValueError
                end) ;;
  cmd <- lift (assemble_command mac body) ;;
  r <- send ip cmd ;;
  ret (receipt r).

(** [int.from_bytes(b, byteorder='big')]. *)
Definition int_from_bytes (b : bytes) : Z :=
  fold_left (fun acc x => 256 * acc + byte_val x) b 0.

Definition absence_mode_query (socket_ : string * string) : M value :=
  let (mac, ip) := socket_ in
  cmd <- lift (assemble_command mac CMD_AM_QUERY) ;;
  r <- send ip cmd ;;
  match r with
  | Success message =>
    message <- lift (decrypt message) ;;
    let message := slice_from message 7 in
    flag <- lift (index message 1) ;;
    let on := flag =? 128 in
    if on
    then
      from_ <- lift (strftime_local (int_from_bytes (slice message 2 6))) ;;
      to_ <- lift (strftime_local (int_from_bytes (slice message 6 10))) ;;
      ret (VAbsence on (Some from_) (Some to_))
    else ret (VAbsence on None None)
  | Failure message => ret message
  end.

(** The two dates are parsed under [try: ... except Exception as e:
    return e]. *)
Definition parse_window (from_ to_ : string) : result (Z * Z) :=
  let! date := strptime from_ in
  let! from_ := timestamp date in
  let! date := strptime to_ in
  let! to_ := timestamp date in
  Ok (from_, to_).

Definition set_absence_mode (socket_ : string * string) (active : bool)
           (from_ to_ : string) : M value :=
  let (mac, ip) := socket_ in
  let active := if active then "80" else "00" in
  match parse_window from_ to_ with
  | Raise e => ret (VExc e)
  | Ok (from_, to_) =>
    cmd <- lift (assemble_command mac (CMD_SET_AM active from_ to_)) ;;
    r <- send ip cmd ;;
    ret (receipt r)
  end.

Definition delete_absence_mode (socket_ : string * string) : M value :=
  let (mac, ip) := socket_ in
  cmd <- lift (assemble_command mac CMD_DELETE_AM) ;;
  r <- send ip cmd ;;
  ret (receipt r).

Definition heartbeat (socket_ : string * string) : M value :=
  let (mac, ip) := socket_ in
  cmd <- lift (assemble_command mac CMD_HEARTBEAT) ;;
  r <- send ip cmd ;;
  ret (receipt r).

End Engine.

(* ------------------------------------------------------------------ *)
(** ** The operation bodies of the command set *)

(** The hex text [s] denotes the [n] bytes [b]. *)
Definition hex_bytes (n : nat) (s : string) (b : bytes) : Prop :=
  fromhex s = Some b /\ List.length b = n.

(** The block that [assemble_command] encrypts, as bytes: the constant
    0x00, the packet sequence, the device code and the operation body. *)
Definition plaintext_block (packetb deviceb bodyb : bytes) : bytes :=
  ([x00] ++ packetb ++ deviceb ++ bodyb)%list.

(** The bodies that the command functions hand to [assemble_command], on
    operands of the data model: a slot number and the packed repeat byte fit
    one byte, hours and minutes are those of a clock, the two timestamps of
    an absence window fit 32 bits.
    - [find_sockets]: [CMD_SEARCH.format(mac=mac)];
    - [switch]: [CMD_SWITCH] with the on or the off pattern;
    - [switch_state]: [CMD_GET_STATE];
    - [timer_query]: [CMD_TIMER_QUERY];
    - [set_timer]: [CMD_SET_TIMER] with the four fields printed by [:02x];
    - [delete_timer]: [CMD_DELETE_TIMER.format(timer=timer)];
    - [absence_mode_query]: [CMD_AM_QUERY];
    - [set_absence_mode]: [CMD_SET_AM] with flag ['80'] or ['00'];
    - [delete_absence_mode]: [CMD_DELETE_AM];
    - [heartbeat]: [CMD_HEARTBEAT]. *)
Inductive command_body : string -> Prop :=
| body_search (mac : string) (b : bytes) :
    hex_bytes 6 mac b -> command_body (CMD_SEARCH mac)
| body_switch (on : bool) :
    command_body (CMD_SWITCH (if on then "00 00 FF FF" else "00 00 00 FF"))
| body_get_state : command_body CMD_GET_STATE
| body_timer_query : command_body CMD_TIMER_QUERY
| body_set_timer (timer packed hour minute : Z) (on : bool) :
    0 <= timer < 256 -> 0 <= packed < 256 ->
    0 <= hour < 24 -> 0 <= minute < 60 ->
    command_body
      (CMD_SET_TIMER (format_int 16 2 timer) (format_int 16 2 packed)
                     (format_int 16 2 hour) (format_int 16 2 minute)
                     (if on then "00 00 FF FF" else "00 00 00 FF"))
| body_delete_timer (timer : Z) :
    0 <= timer < 256 -> command_body (CMD_DELETE_TIMER timer)
| body_am_query : command_body CMD_AM_QUERY
| body_set_am (active : bool) (from_ to_ : Z) :
    0 <= from_ < 2 ^ 32 -> 0 <= to_ < 2 ^ 32 ->
    command_body (CMD_SET_AM (if active then "80" else "00") from_ to_)
| body_delete_am : command_body CMD_DELETE_AM
| body_heartbeat : command_body CMD_HEARTBEAT.

(** A receipt-only command once its body is built:
    [cmd = assemble_command(mac, body)], [send(ip, cmd)], then the
    receipt. *)
Definition run_receipt (enc : bytes -> bytes -> bytes -> bytes) (g : config)
           (mac ip body : string) : M value :=
  cmd <- lift (assemble_command enc g mac body) ;;
  r <- send g ip cmd ;;
  ret (receipt r).

(* ------------------------------------------------------------------ *)
(** ** Vocabulary of the transport properties *)

(** A structurally valid reply: the byte at offset 1 is the reply marker
    0x42 and the bytes from offset 9 on are whole 16-byte blocks. *)
Definition valid_reply (message : bytes) : Prop :=
  nth_error message 1 = Some x42
  /\ Nat.modulo (List.length (slice_from message 9)) 16 = 0%nat.

(** The sends of a call go through: none of the next [n] is refused. *)
Definition sends_pass (n : nat) (w : world) : Prop :=
  Forall (fun x => x = None) (firstn n (send_errors w)).

(** Nothing arrives during the next [n] receives. *)
Definition silent (n : nat) (w : world) : Prop :=
  Forall (fun x => x = RecvTimeout) (firstn n (inbox w)).

(** [exhausts g s c a n w m w']: from the world [w], [n >= 1] turns of
    the loop of [send] in a row end by [continue] and leave the world [w'];
    [m] is what the last of them bound to [message]. *)
Inductive exhausts (g : config) (s : nat) (c : bytes) (a : string * Z)
  : nat -> world -> value -> world -> Prop :=
| exhausts_last (w : world) (m : value) (w1 : world) :
    send_attempt g s c a w = (Ok (Continue m), w1) ->
    exhausts g s c a 1 w m w1
| exhausts_more (n : nat) (w : world) (m0 : value) (w1 : world)
                (m : value) (w2 : world) :
    send_attempt g s c a w = (Ok (Continue m0), w1) ->
    exhausts g s c a n w1 m w2 ->
    exhausts g s c a (S n) w m w2.

(* ------------------------------------------------------------------ *)
(** ** Vocabulary of discovery *)

(** What the loop of [find_sockets] appends for the datagram [d]: one
    entry for a valid reply, nothing otherwise. *)
Definition found_in (dec : bytes -> bytes -> bytes -> bytes) (d : bytes)
  : list item :=
  match decode_found dec (firstn 1024 d) with
  | Ok (Some i) => [i]
  | _ => []
  end.

(** The entries of a sequence of datagrams, in the order of arrival. *)
Definition found (dec : bytes -> bytes -> bytes -> bytes) (ds : list bytes)
  : list item :=
  flat_map (found_in dec) ds.

(** The loop body does not raise on [d]: the datagram has at least two
    bytes and, when it is a valid reply, its payload reaches offset 11. *)
Definition decodable (dec : bytes -> bytes -> bytes -> bytes) (d : bytes)
  : Prop :=
  exists o, decode_found dec (firstn 1024 d) = Ok o.

(** The same notions in the words of the specification, to state what
    discovery returns without the decoder of the code. *)

(** A structurally valid reply, decided: the byte at offset 1 is 0x42 and
    the bytes from offset 9 on are whole 16-byte blocks. *)
Definition is_valid_reply (message : bytes) : bool :=
  match nth_error message 1 with
  | Some marker =>
    (byte_val marker =? 66)
    && Nat.eqb (Nat.modulo (List.length (slice_from message 9)) 16) 0
  | None => false
  end.

(** The (mac, ip) pair that the reply [d] carries: with the payload being
    the bytes of [d] from offset 9 on, decrypted, the MAC is the hex text of
    its bytes 12 to 17 and the IP address is the decimal values of its
    bytes 8 to 11 joined by dots. *)
Definition reply_pair (dec : bytes -> bytes -> bytes -> bytes) (d : bytes)
  : item :=
  let payload :=
    dec PASSKEY INITIALIZATION_VECTOR (slice_from (firstn 1024 d) 9) in
  let octet := fun i => str_int (byte_val (nth i payload x00)) in
  ISocket (hex (slice payload 12 18))
          (octet 8%nat ++ "." ++ octet 9%nat ++ "." ++ octet 10%nat ++ "."
           ++ octet 11%nat).

(** The pairs of the valid replies among the datagrams [ds], in the order
    of arrival. *)
Definition discovered (dec : bytes -> bytes -> bytes -> bytes)
           (ds : list bytes) : list item :=
  map (reply_pair dec) (filter (fun d => is_valid_reply (firstn 1024 d)) ds).

(** A datagram that discovery can read: at least two bytes long and, when
    it is a valid reply, with a decrypted payload that reaches offset 11. *)
Definition readable_datagram (dec : bytes -> bytes -> bytes -> bytes)
           (d : bytes) : Prop :=
  (2 <= List.length d)%nat
  /\ (valid_reply (firstn 1024 d) ->
      (12 <= List.length (dec PASSKEY INITIALIZATION_VECTOR
                              (slice_from (firstn 1024 d) 9)))%nat).

(** No filter was given: both arguments are the wildcards. *)
Definition unfiltered (mac ip : string) : Prop :=
  mac = "FF FF FF FF FF FF" /\ ip = "255.255.255.255".

(* ------------------------------------------------------------------ *)
(** ** Data for concrete runs *)

(** A length-preserving transform in the place of the cipher, to run the
    embedding on concrete inputs.  The theorems hold for every cipher; the
    runs below do not depend on what the cipher computes. *)
Definition plain_cbc (key iv data : bytes) : bytes := data.

(** A host named [homeserver] whose own name resolves and no other, whose
    ports bind and whose sends succeed, on a network where nothing answers;
    a quarter past noon on 30 July 2021, one hour east of UTC. *)
Definition quiet : world :=
  mkWorld "homeserver"
          (fun host => if String.eqb host "homeserver" then None
                       else Some (NetError "Name or service not known"))
          (fun _ _ => None)
          [] [] [] [] 0 0 (738000 * 86400 + 12 * 3600 + 15 * 60) (-3600).

Definition with_inbox (l : list recv_outcome) : world := set_inbox l quiet.

(** A device at 192.168.0.15 with MAC ac:cf:23:00:00:01. *)
Definition sample_socket : string * string := ("AC CF 23 00 00 01", "192.168.0.15").

(** The frame of a state query to that device. *)
Definition sample_command : string :=
  match assemble_command plain_cbc defaults (fst sample_socket) CMD_GET_STATE with
  | Ok cmd => cmd
  | Raise _ => EmptyString
  end.

(** A reply: 9 header bytes with the marker 0x42 at offset 1, then the
    payload. *)
Definition reply_frame (payload : bytes) : bytes :=
  ([x01; x42; xac; xcf; x23; x00; x00; x01; x10] ++ payload)%list.

(** The datagram that carries [sample_command]. *)
Definition sample_datagram : bytes :=
  match fromhex sample_command with
  | Some b => b
  | None => []
  end.

(** The module defaults with another retry budget. *)
Definition with_repeat (n : Z) : config :=
  mkConfig (device defaults) (packet defaults) (udp_port defaults)
           (timeout defaults) n.

(** A 16-byte payload whose byte 10 is [state]. *)
Definition state_payload (state : byte) : bytes :=
  [x00; xff; xff; xc1; x11; x71; x50; x02; x00; x00; state; x04; x04; x04;
   x04; x04].

(** The payload of a discovery reply: the IP at offsets 8 to 11, the MAC
    at offsets 12 to 17, padded to two blocks. *)
Definition discovery_payload (ipb macb : bytes) : bytes :=
  ([x00; xff; xff; xc1; x11; x71; x50; x23] ++ ipb ++ macb
   ++ [x0e; x0e; x0e; x0e; x0e; x0e; x0e; x0e; x0e; x0e; x0e; x0e; x0e;
       x0e])%list.

(** The replies of the devices ...:01 at 192.168.0.15 and ...:02 at
    192.168.0.16. *)
Definition reply_1 : bytes :=
  reply_frame (discovery_payload [xc0; xa8; x00; x0f]
                                 [xac; xcf; x23; x00; x00; x01]).
Definition reply_2 : bytes :=
  reply_frame (discovery_payload [xc0; xa8; x00; x10]
                                 [xac; xcf; x23; x00; x00; x02]).

(** The broadcast search frame. *)
Definition search_command : string :=
  match assemble_command plain_cbc defaults "FF FF FF FF FF FF"
                         (CMD_SEARCH "FF FF FF FF FF FF") with
  | Ok cmd => cmd
  | Raise _ => EmptyString
  end.

Definition search_datagram : bytes :=
  match fromhex search_command with
  | Some b => b
  | None => []
  end.

(** A host on which another program holds the port. *)
Definition port_in_use : world :=
  mkWorld (hostname quiet) (resolve_error quiet)
          (fun _ _ => Some "Address already in use") [] [] [] [] 0 0
          (now quiet)
          (timezone quiet).

(* ------------------------------------------------------------------ *)
(** ** Vocabulary of the retry properties *)

(** What a turn of the loop of [send] meets when it ends by [continue]:
    the timeout, or a datagram that fails the test of the reply. *)
Definition refused (o : recv_outcome) : Prop :=
  o = RecvTimeout
  \/ exists d, o = RecvData d /\ bad_reply (firstn 1024 d) = Ok true.

(** What arrives in place of a reply: nothing before the timeout, or a
    datagram of at least two bytes that is not a structurally valid
    reply. *)
Definition no_reply (o : recv_outcome) : Prop :=
  o = RecvTimeout
  \/ exists d, o = RecvData d /\ (2 <= List.length d)%nat
               /\ ~ valid_reply (firstn 1024 d).

Definition is_datagram (o : recv_outcome) : bool :=
  match o with
  | RecvData _ => true
  | _ => false
  end.

(** The bytes that [send] hands to the network for the text [command]. *)
Definition datagram_of (command : string) : bytes :=
  match fromhex command with
  | Some b => b
  | None => []
  end.

(** The search frame addressed to the sample device. *)
Definition filtered_search_command : string :=
  match assemble_command plain_cbc defaults (fst sample_socket)
                         (CMD_SEARCH (fst sample_socket)) with
  | Ok cmd => cmd
  | Raise _ => EmptyString
  end.

(* ------------------------------------------------------------------ *)
(** ** Further commands of the module *)

(** EXPERIMENTAL in the source: [switch: 60: on, 70: off]. *)
Definition CMD_SWITCH_SLAVE (slave switch : string) : string :=
  "08 " ++ slave ++ " " ++ switch ++ " 04 04 04 04".

Definition switch_slave (enc : bytes -> bytes -> bytes -> bytes) (g : config)
           (socket_ : string * string) (slave on_off : string) : M value :=
  let (mac, ip) := socket_ in
  cmd <- (if String.eqb on_off "on"
          then c <- lift (assemble_command enc g mac
                            (CMD_SWITCH_SLAVE slave "60")) ;;
               ret (Some c)
          else if String.eqb on_off "off"
          then c <- lift (assemble_command enc g mac
                            (CMD_SWITCH_SLAVE slave "70")) ;;
               ret (Some c)
          else ret None) ;;
  cmd <- lift (of_option UnboundLocalError cmd) ;;
  r <- send g ip cmd ;;
  ret (receipt r).

(* ------------------------------------------------------------------ *)
(** ** Vocabulary of the timer properties *)

(** The adjustment in force: [time.timezone] unless a non-zero
    [delta_time] was given. *)
Definition effective_delta (delta_time : option Z) (w : world) : Z :=
  match delta_time with
  | None => timezone w
  | Some d => if d =? 0 then timezone w else d
  end.

(** The 8 bytes of the timer record at offset [n] of the payload [m]:
    number, packed active/repeat byte, hour, minute and the 4-byte switch
    pattern. *)
Definition slot_record (m : bytes) (n : nat)
           (number packed hour minute : byte) (pattern : bytes) : Prop :=
  firstn 8 (skipn n m) = ([number; packed; hour; minute] ++ pattern)%list.

(** The stored hour and minute are those of a clock, and the adjusted time
    is a [datetime]. *)
Definition clock_bytes (hour minute : byte) (d : Z) : Prop :=
  byte_val hour < 24 /\ byte_val minute < 60
  /\ 0 <= 86400 + 3600 * byte_val hour + 60 * byte_val minute - d
     < datetime_end.

(** A record of one of the ten regular slots that a query for slot [k]
    passes over without raising: another number, and either empty (hour
    255) or holding a clock time. *)
Definition passed_over (m : bytes) (d k : Z) (n : nat) : Prop :=
  (n < 80)%nat
  /\ exists number packed hour minute pattern,
      slot_record m n number packed hour minute pattern
      /\ byte_val number <> k
      /\ (byte_val hour = 255 \/ clock_bytes hour minute d).

(** [f'{hour:02d}:{minute:02d}'] of a [datetime]. *)
Definition clock_text (t : Z) : string :=
  format_int 10 2 (dt_hour t) ++ ":" ++ format_int 10 2 (dt_minute t).

(** The switch pattern on the wire and its reading by [timer_query]. *)
Definition switch_pattern (switch : string) : string :=
  if String.eqb switch "on" then "00 00 FF FF" else "00 00 00 FF".

Definition switch_text (pattern : bytes) : string :=
  if String.eqb (hex pattern) "0000ffff" then "on" else "off".

(** A payload of [timer_query]: slot 1 active Monday to Friday at 06:30 on,
    slot 3 inactive at 23:00 off, a countdown at 12:00, the other slots
    empty; 9 header bytes before and 15 padding bytes after the 11
    records. *)
Definition timers_payload : bytes :=
  ([x00; xff; xff; xc1; x11; x71; x50; x04; x00]
   ++ [x01; x9f; x06; x1e; x00; x00; xff; xff]
   ++ [x02; x00; xff; xff; x00; x00; x00; xff]
   ++ [x03; x1f; x17; x00; x00; x00; x00; xff]
   ++ [x04; x00; xff; xff; x00; x00; x00; xff]
   ++ [x05; x00; xff; xff; x00; x00; x00; xff]
   ++ [x06; x00; xff; xff; x00; x00; x00; xff]
   ++ [x07; x00; xff; xff; x00; x00; x00; xff]
   ++ [x08; x00; xff; xff; x00; x00; x00; xff]
   ++ [x09; x00; xff; xff; x00; x00; x00; xff]
   ++ [x0a; x00; xff; xff; x00; x00; x00; xff]
   ++ [x0b; x80; x0c; x00; x00; x00; xff; xff]
   ++ [x0f; x0f; x0f; x0f; x0f; x0f; x0f; x0f; x0f; x0f; x0f; x0f; x0f;
       x0f; x0f])%list.

(** The frame of a timer query to the sample device. *)
Definition timer_query_command : string :=
  match assemble_command plain_cbc defaults (fst sample_socket)
                         CMD_TIMER_QUERY with
  | Ok cmd => cmd
  | Raise _ => EmptyString
  end.

(* ------------------------------------------------------------------ *)
(** ** Vocabulary of the outcomes of [send] *)

(** The messages of a failed call: the two recorded by the loop, or the
    [OSError] of a refused send. *)
Definition failure_message (m : value) : Prop :=
  m = VStr "Timeout" \/ m = VStr "Bad return data"
  \/ exists text, m = VExc (OSError text).

(* ------------------------------------------------------------------ *)
(** ** Activation of a timer *)

(** What may leave [activate_timer]: an exception of the engine, or the
    [AttributeError] of reading [.repeat] on a result of [timer_query] that
    is not a [Timer]. *)
Inductive raised : Type :=
| Exc (e : exc)
| AttributeError.

Inductive outcome : Type :=
| Returns (v : value)
| Raises (e : raised).

(** [data.repeat, data.time, data.switch]: only a [Timer] has these
    attributes; a list, a string, an exception object, an integer do not. *)
Definition timer_fields (data : value) : option (string * string * string) :=
  match data with
  | VItem (ITimer t) => Some (t_repeat t, t_time t, t_switch t)
  | _ => None
  end.

(** Both calls leave [delta_time] at its default; the body ends without
    [return]. *)
Definition activate_timer (enc dec : bytes -> bytes -> bytes -> bytes)
           (g : config) (socket_ : string * string) (timer : atom)
           (activate : bool) (w : world) : outcome * world :=
  match timer_query enc dec g socket_ timer None w with
  | (Raise e, w1) => (Raises (Exc e), w1)
  | (Ok data, w1) =>
    match timer_fields data with
    | None => (Raises AttributeError, w1)
    | Some (repeat, time_, switch) =>
      match set_timer enc g socket_ timer activate repeat time_ switch None
                      w1 with
      | (Raise e, w2) => (Raises (Exc e), w2)
      | (Ok _, w2) => (Returns VNone, w2)
      end
    end
  end.



(* ------------------------------------------------------------------ *)
(** ** Data for runs of the absence mode *)

(** The date functions of the library on the dates of the runs, for a
    host one hour east of UTC: [strptime] of three texts, as seconds since
    0001-01-01; [timestamp] of a naive local time, as seconds since 1970;
    the formatting back of two timestamps. *)
Definition sample_strptime (s : string) : result Z :=
  if String.eqb s "20.01.2023 22:00" then Ok 63809848800
  else if String.eqb s "22.01.2023 06:00" then Ok 63809964000
  else if String.eqb s "31.12.1969 22:00" then Ok 62135589600
  else Raise ValueError.

Definition sample_timestamp (t : Z) : result Z :=
  Ok (t - 62135596800 + timezone quiet).

Definition sample_strftime (t : Z) : result string :=
  if t =? 1674248400 then Ok "20.01.2023 22:00"
  else if t =? 1674363600 then Ok "22.01.2023 06:00"
  else Raise OverflowError.

(** The frame of an absence query to the sample device. *)
Definition am_query_command : string :=
  match assemble_command plain_cbc defaults (fst sample_socket)
                         CMD_AM_QUERY with
  | Ok cmd => cmd
  | Raise _ => EmptyString
  end.

(** A payload of [absence_mode_query]: 7 header bytes, then the body
    [09 80][from][to][1e]... of the window from 20.01.2023 22:00 to
    22.01.2023 06:00 in the local time of that host. *)
Definition window_payload : bytes :=
  [x00; xff; xff; xc1; x11; x71; x50;
   x09; x80; x63; xcb; x00; xd0; x63; xcc; xc2; xd0; x1e;
   x0e; x0e; x0e; x0e; x0e; x0e; x0e; x0e; x0e; x0e; x0e; x0e; x0e; x0e].

(* ------------------------------------------------------------------ *)
(** ** The password broadcast *)

(** [n * s]. *)
Fixpoint str_times (n : nat) (s : string) : string :=
  match n with
  | O => EmptyString
  | S k => s ++ str_times k s
  end.

(** [for x in l: body(x)]. *)
Fixpoint for_each {A} (l : list A) (body : A -> M unit) : M unit :=
  match l with
  | [] => ret tt
  | x :: rest => body x ;;; for_each rest body
  end.

(** The destination of the password broadcast:
    [('255.255.255.255', UDP_PORT)] with the local [UDP_PORT = 49999]. *)
Definition password_address : string * Z := ("255.255.255.255", 49999).

(** [s.sendto(bytes.fromhex(n * '05'), address)] followed by
    [time.sleep(pause)], the pause in milliseconds. *)
Definition send_05 (s : nat) (n : nat) (pause : Z) : M unit :=
  data <- lift (of_option ValueError (fromhex (str_times n "05"))) ;;
  sendto s data password_address ;;;
  sleep pause.

(** One turn of [while time.time() < (now + time_)]: the 60 datagrams of
    the init phase, then five times the start marker, one datagram per
    letter, the end marker and the length.  [ord(letter)] is the code of the
    character; a [string] holds the characters up to code 255. *)
Definition password_round (s : nat) (password : string) : M unit :=
  let len_ := String.length password in
  for_each (seq 0 60) (fun _ => send_05 s 76 10) ;;;
  for_each (seq 0 5)
    (fun _ =>
       send_05 s 89 50 ;;;
       send_05 s 89 50 ;;;
       send_05 s 89 100 ;;;
       for_each (list_ascii_of_string password)
         (fun letter => send_05 s (nat_of_ascii letter + 76) 100) ;;;
       send_05 s 86 50 ;;;
       send_05 s 86 50 ;;;
       send_05 s 86 200 ;;;
       send_05 s (len_ + 256 + 76) 50 ;;;
       send_05 s (len_ + 256 + 76) 50 ;;;
       send_05 s (len_ + 256 + 76) 500).

Section Clock.

(** The values of [time.time()], their addition and their comparison. *)
Variable time : Type.
Variable time_add : time -> time -> time.
Variable time_lt : time -> time -> bool.

(** The loop [while time.time() < (now + time_)], by recursion on the
    successive readings of the clock; [None] when the readings given end
    before the loop does. *)
Fixpoint password_loop (readings : list time) (deadline : time) (s : nat)
         (password : string) (w : world) : option (result value * world) :=
  match readings with
  | [] => None
  | t :: rest =>
    if time_lt t deadline
    then match password_round s password w with
         | (Ok _, w') => password_loop rest deadline s password w'
         | (Raise e, w') => Some (Raise e, w')
         end
    else Some (Ok VNone, w)
  end.

(** [send_password(password, time_)] under the module globals [g];
    [readings] are the values that the calls of [time.time()] return, the
    first one bound to [now].  The socket comes from
    [create_socket('None', broadcast=True)], which binds the host named
    ['None'].  No statement of the function closes the socket. *)
Definition send_password (g : config) (password : string) (time_ : time)
           (readings : list time) (w : world)
  : option (result value * world) :=
  match create_socket g (Some "None") true w with
  | (Raise e, w') => Some (Raise e, w')
  | (Ok s, w') =>
    match readings with
    | [] => None
    | now :: rest =>
      password_loop rest (time_add now time_) s password w'
    end
  end.

End Clock.

(** One datagram of the password broadcast: [n] bytes 0x05. *)
Definition length_datagram (n : nat) : bytes * (string * Z) :=
  (List.repeat x05 n, password_address).

(** What one transfer of the password puts on the network. *)
Definition transfer_datagrams (password : string)
  : list (bytes * (string * Z)) :=
  (List.repeat (length_datagram 89) 3
   ++ map (fun letter => length_datagram (nat_of_ascii letter + 76))
          (list_ascii_of_string password)
   ++ List.repeat (length_datagram 86) 3
   ++ List.repeat (length_datagram (String.length password + 256 + 76)) 3)%list.

(** What one turn of the loop puts on the network. *)
Definition round_datagrams (password : string)
  : list (bytes * (string * Z)) :=
  (List.repeat (length_datagram 76) 60
   ++ List.concat (List.repeat (transfer_datagrams password) 5))%list.

(** No send is refused. *)
Definition sends_all_pass (w : world) : Prop :=
  Forall (fun x => x = None) (send_errors w).

(** The world [w'] differs from [w] by the datagrams [ds] handed to the
    network and [ms] milliseconds of sleep. *)
Definition emitted (w w' : world) (ds : list (bytes * (string * Z)))
           (ms : Z) : Prop :=
  sent w' = (sent w ++ ds)%list
  /\ slept w' = slept w + ms
  /\ open_sockets w' = open_sockets w
  /\ sends_all_pass w'.

(** The host of [quiet] on a network where every name resolves, the name
    ['None'] among them. *)
Definition none_resolves : world :=
  mkWorld (hostname quiet) (fun _ => None) (bind_error quiet) [] [] [] [] 0 0
          (now quiet) (timezone quiet).

(* ------------------------------------------------------------------ *)
(** ** Vocabulary of the countdown *)

(** A record that a query for the countdown reads without raising:
    empty, or holding a clock time. *)
Definition readable (m : bytes) (d : Z) (n : nat) : Prop :=
  exists number packed hour minute pattern,
    slot_record m n number packed hour minute pattern
    /\ (byte_val hour = 255 \/ clock_bytes hour minute d).

(** The hours and minutes of the clock reading [t], in seconds: what
    [timer_query] takes off the stored time of the countdown. *)
Definition clock_part (t : Z) : Z := 3600 * dt_hour t + 60 * dt_minute t.

(* ------------------------------------------------------------------ *)
(** ** Properties of the timer codec *)

Lemma bit_char_cases (c : ascii) :
  (Ascii.eqb c "0" || Ascii.eqb c "1")%bool = true -> c = "0"%char \/ c = "1"%char.
Proof.
  intro H. apply orb_true_iff in H.
  destruct H as [H | H]; apply Ascii.eqb_eq in H; auto.
Qed.

(** A mask is one of the 128 strings of seven binary digits. *)
Lemma is_mask_shape (s : string) :
  is_mask s = true ->
  exists c1 c2 c3 c4 c5 c6 c7,
    s = String c1 (String c2 (String c3 (String c4 (String c5 (String c6
          (String c7 EmptyString))))))
    /\ Forall (fun c => c = "0"%char \/ c = "1"%char) [c1; c2; c3; c4; c5; c6; c7].
Proof.
  unfold is_mask. intro H. apply andb_true_iff in H. destruct H as [Hlen Hbits].
  apply Nat.eqb_eq in Hlen.
  do 7 (destruct s as [| ? s]; [discriminate Hlen |]).
  destruct s; [| discriminate Hlen].
  cbn [all_bits] in Hbits.
  repeat (apply andb_true_iff in Hbits; destruct Hbits as [? Hbits]).
  do 7 eexists. split; [reflexivity |].
  repeat (constructor; [apply bit_char_cases; assumption |]).
  constructor.
Qed.

(** C4.  For every pair of an active flag and a seven-character
    Monday-first mask, the byte that [set_timer] writes on the wire (the hex
    text of [encode_repeat], read back by [bytes.fromhex]) decodes under
    [timer_query] to the same flag and the same mask. *)
Theorem repeat_byte_roundtrip (active : bool) (mask : string) :
  is_mask mask = true ->
  exists text b,
    encode_repeat active mask = Ok text
    /\ fromhex text = Some [b]
    /\ decode_active (byte_val b) = active
    /\ decode_repeat (byte_val b) = mask.
Proof.
  intro H. apply is_mask_shape in H.
  destruct H as (c1 & c2 & c3 & c4 & c5 & c6 & c7 & -> & Hall).
  repeat match goal with
         | H : Forall _ (_ :: _) |- _ => inversion H; subst; clear H
         | H : Forall _ [] |- _ => clear H
         end.
  repeat match goal with
         | H : _ = _ \/ _ = _ |- _ => destruct H; subst
         end;
    destruct active;
    (eexists; eexists; split; [vm_compute; reflexivity |];
     split; [vm_compute; reflexivity |]; split; vm_compute; reflexivity).
Qed.

(* ------------------------------------------------------------------ *)
(** ** Hexadecimal text *)

Lemma string_app_assoc (a b c : string) : ((a ++ b) ++ c = a ++ (b ++ c))%string.
Proof. induction a as [| x a IH]; cbn; [reflexivity | now rewrite IH]. Qed.

Lemma fromhex_app_bounded (n : nat) :
  forall s1 b1 s2,
    (String.length s1 <= n)%nat ->
    fromhex s1 = Some b1 ->
    fromhex (s1 ++ s2) = option_map (app b1) (fromhex s2).
Proof.
  induction n as [| n IH]; intros s1 b1 s2 Hlen H.
  - destruct s1; [| cbn in Hlen; lia].
    cbn in H. injection H as <-. cbn. now destruct (fromhex s2).
  - destruct s1 as [| c s1].
    + cbn in H. injection H as <-. cbn. now destruct (fromhex s2).
    + cbn [String.length] in Hlen. cbn [fromhex append] in *.
      destruct (is_space c).
      * apply IH; [lia | assumption].
      * destruct s1 as [| d s1]; [discriminate |].
        cbn [append]. cbn [String.length] in Hlen.
        destruct (hexval c); [| discriminate].
        destruct (hexval d); [| discriminate].
        destruct (byte_of_Z _); [| discriminate].
        destruct (fromhex s1) as [r |] eqn:E; [| discriminate].
        injection H as <-.
        rewrite (IH s1 r s2); [| lia | assumption].
        now destruct (fromhex s2).
Qed.

(** Whole bytes followed by more text parse to the concatenation. *)
Lemma fromhex_app (s1 s2 : string) (b1 : bytes) :
  fromhex s1 = Some b1 ->
  fromhex (s1 ++ s2) = option_map (app b1) (fromhex s2).
Proof. apply (fromhex_app_bounded (String.length s1)). lia. Qed.

Lemma fromhex_app_some (s1 s2 : string) (b1 b2 : bytes) :
  fromhex s1 = Some b1 -> fromhex s2 = Some b2 ->
  fromhex (s1 ++ s2) = Some (b1 ++ b2)%list.
Proof. intros H1 H2. rewrite (fromhex_app _ _ _ H1), H2. reflexivity. Qed.

Lemma fromhex_hex_cons (x : byte) (r : bytes) :
  fromhex (hex (x :: r)) = option_map (cons x) (fromhex (hex r)).
Proof. destruct x; cbn; destruct (fromhex (hex r)); reflexivity. Qed.

(** [bytes.fromhex(b.hex()) == b]. *)
Lemma fromhex_hex (b : bytes) : fromhex (hex b) = Some b.
Proof.
  induction b as [| x r IH]; [reflexivity |].
  rewrite fromhex_hex_cons, IH. reflexivity.
Qed.

Lemma hex_app (a b : bytes) : hex (a ++ b)%list = (hex a ++ hex b)%string.
Proof. induction a as [| x a IH]; cbn; [reflexivity | now rewrite IH]. Qed.

Lemma small_cases (d : Z) :
  0 <= d < 16 ->
  d = 0 \/ d = 1 \/ d = 2 \/ d = 3 \/ d = 4 \/ d = 5 \/ d = 6 \/ d = 7 \/
  d = 8 \/ d = 9 \/ d = 10 \/ d = 11 \/ d = 12 \/ d = 13 \/ d = 14 \/ d = 15.
Proof. lia. Qed.

Lemma hexval_digit_char (d : Z) :
  0 <= d < 16 ->
  is_space (digit_char d) = false /\ hexval (digit_char d) = Some d.
Proof.
  intro H. apply small_cases in H.
  repeat (destruct H as [-> | H]; [split; reflexivity |]).
  subst; split; reflexivity.
Qed.

Lemma byte_of_Z_some (z : Z) :
  0 <= z < 256 -> exists b, byte_of_Z z = Some b.
Proof.
  intro H. unfold byte_of_Z.
  destruct (z <? 0) eqn:E; [apply Z.ltb_lt in E; lia |].
  destruct (Byte.of_N (Z.to_N z)) as [b |] eqn:Eb; [eauto |].
  apply Byte.of_N_None_iff in Eb. lia.
Qed.

(** Two hexadecimal digits in front of a text are one byte. *)
Lemma fromhex_two_digits (h l : Z) (rest : string) :
  0 <= h < 16 -> 0 <= l < 16 ->
  exists b,
    fromhex (String (digit_char h) (String (digit_char l) rest))
    = option_map (cons b) (fromhex rest).
Proof.
  intros Hh Hl.
  destruct (hexval_digit_char h Hh) as [Hs Hv].
  destruct (hexval_digit_char l Hl) as [_ Hv'].
  destruct (byte_of_Z_some (16 * h + l)) as [b Hb]; [lia |].
  exists b. cbn [fromhex]. rewrite Hs, Hv, Hv', Hb.
  now destruct (fromhex rest).
Qed.

Lemma digits_fixed_even (k : nat) :
  forall v, exists b,
    fromhex (digits_fixed 16 (2 * k) v) = Some b /\ List.length b = k.
Proof.
  induction k as [| k IH]; intro v.
  - exists []. split; reflexivity.
  - replace (2 * S k)%nat with (S (S (2 * k))) by lia.
    cbn [digits_fixed]. rewrite string_app_assoc. cbn [append].
    destruct (IH (v / 16 / 16)) as (b1 & H1 & L1).
    destruct (fromhex_two_digits ((v / 16) mod 16) (v mod 16)
                                  EmptyString) as [x Hx];
      [apply Z.mod_pos_bound; lia | apply Z.mod_pos_bound; lia |].
    exists (b1 ++ [x])%list. split.
    + apply fromhex_app_some; [assumption |]. rewrite Hx. reflexivity.
    + rewrite length_app, L1. cbn. lia.
Qed.

Lemma ndigits_aux_le (fuel : nat) :
  forall base v w,
    1 < base -> 0 <= v < base ^ Z.of_nat w -> (0 < w)%nat ->
    (ndigits_aux fuel base v <= w)%nat.
Proof.
  induction fuel as [| f IH]; intros base v w Hb Hv Hw; cbn [ndigits_aux];
    [lia |].
  destruct (v <? base) eqn:E; [lia |].
  apply Z.ltb_ge in E.
  destruct w as [| w]; [lia |].
  destruct w as [| w].
  - change (Z.of_nat 1) with 1 in Hv. rewrite Z.pow_1_r in Hv. lia.
  - apply le_n_S. apply IH; [assumption | | lia].
    split; [apply Z.div_pos; lia |].
    apply Z.div_lt_upper_bound; [lia |].
    replace (Z.of_nat (S (S w))) with (Z.succ (Z.of_nat (S w))) in Hv by lia.
    rewrite Z.pow_succ_r in Hv by lia. lia.
Qed.

(** A value that fits the width is printed on exactly that many digits. *)
Lemma format_int_fits (base : Z) (w : nat) (v : Z) :
  1 < base -> 0 <= v < base ^ Z.of_nat w -> (0 < w)%nat ->
  format_int base w v = digits_fixed base w v.
Proof.
  intros Hb Hv Hw. unfold format_int.
  destruct (v <? 0) eqn:E; [apply Z.ltb_lt in E; lia |].
  rewrite Nat.max_l; [reflexivity |].
  apply ndigits_aux_le; assumption.
Qed.

Lemma format_02x_byte (v : Z) :
  0 <= v < 256 -> exists b, hex_bytes 1 (format_int 16 2 v) b.
Proof.
  intro H. rewrite format_int_fits by (cbn; lia).
  apply (digits_fixed_even 1).
Qed.

Lemma format_08x_word (v : Z) :
  0 <= v < 2 ^ 32 -> exists b, hex_bytes 4 (format_int 16 8 v) b.
Proof.
  intro H. rewrite format_int_fits by (cbn; lia).
  apply (digits_fixed_even 4).
Qed.

Lemma byte_of_Z_val (z : Z) (b : byte) : byte_of_Z z = Some b -> byte_val b = z.
Proof.
  unfold byte_of_Z, byte_val.
  destruct (z <? 0) eqn:E; [discriminate |].
  apply Z.ltb_ge in E. intro H.
  apply Byte.to_of_N in H. rewrite H. lia.
Qed.

(* ------------------------------------------------------------------ *)
(** ** Command framing *)

(** Splits the parse of a concatenation, leaving one goal per piece. *)
Ltac hexchain :=
  repeat (first
    [ eassumption
    | eapply fromhex_app_some
    | lazy; reflexivity ]).

(** Every operation body is 9 or 25 whole bytes: with the 7-byte header, one
    or two cipher blocks. *)
Lemma command_body_bytes (body : string) :
  command_body body ->
  exists bodyb,
    fromhex body = Some bodyb
    /\ (List.length bodyb = 9 \/ List.length bodyb = 25)%nat.
Proof.
  intro H. destruct H.
  - destruct H as [Hm Lm]. eexists. split.
    + unfold CMD_SEARCH. hexchain.
    + left. rewrite !length_app, Lm. reflexivity.
  - destruct on; eexists; (split; [lazy; reflexivity | left; reflexivity]).
  - eexists. split; [lazy; reflexivity | left; reflexivity].
  - eexists. split; [lazy; reflexivity | left; reflexivity].
  - destruct (format_02x_byte timer) as (bt & Ht & Lt); [assumption |].
    destruct (format_02x_byte packed) as (bp & Hp & Lp); [assumption |].
    destruct (format_02x_byte hour) as (bh & Hh & Lh); [lia |].
    destruct (format_02x_byte minute) as (bm & Hm & Lmi); [lia |].
    destruct on;
      (eexists; split;
       [ unfold CMD_SET_TIMER;
         eapply fromhex_app_some; [lazy; reflexivity |];
         eapply fromhex_app_some; [exact Ht |];
         eapply fromhex_app_some; [lazy; reflexivity |];
         eapply fromhex_app_some; [exact Hp |];
         eapply fromhex_app_some; [lazy; reflexivity |];
         eapply fromhex_app_some; [exact Hh |];
         eapply fromhex_app_some; [lazy; reflexivity |];
         eapply fromhex_app_some; [exact Hm |];
         lazy; reflexivity
       | right; rewrite !length_app, Lt, Lp, Lh, Lmi; reflexivity ]).
  - destruct (format_02x_byte timer) as (bt & Ht & Lt); [assumption |].
    eexists. split.
    + unfold CMD_DELETE_TIMER.
      eapply fromhex_app_some; [lazy; reflexivity |].
      eapply fromhex_app_some; [exact Ht | lazy; reflexivity].
    + left. rewrite !length_app, Lt. reflexivity.
  - eexists. split; [lazy; reflexivity | left; reflexivity].
  - destruct (format_08x_word from_) as (bf & Hf & Lf); [assumption |].
    destruct (format_08x_word to_) as (bt & Ht & Lt); [assumption |].
    destruct active;
      (eexists; split;
       [ unfold CMD_SET_AM;
         eapply fromhex_app_some; [lazy; reflexivity |];
         eapply fromhex_app_some; [lazy; reflexivity |];
         eapply fromhex_app_some; [lazy; reflexivity |];
         eapply fromhex_app_some; [exact Hf |];
         eapply fromhex_app_some; [lazy; reflexivity |];
         eapply fromhex_app_some; [exact Ht | lazy; reflexivity]
       | right; rewrite !length_app, Lf, Lt; reflexivity ]).
  - eexists. split; [lazy; reflexivity | right; reflexivity].
  - eexists. split; [lazy; reflexivity | left; reflexivity].
Qed.

(** The plaintext block of a frame: the constant 0x00, the packet sequence,
    the device code and the operation body. *)
Lemma header_body_bytes (g : config) (body : string)
      (packetb deviceb bodyb : bytes) :
  fromhex (packet g) = Some packetb ->
  fromhex (device g) = Some deviceb ->
  fromhex body = Some bodyb ->
  fromhex (CMD_HEADER (packet g) (device g) ++ body)
  = Some (plaintext_block packetb deviceb bodyb).
Proof.
  intros Hp Hd Hb. unfold CMD_HEADER.
  assert (H : fromhex ("00 " ++ packet g ++ " " ++ device g ++ " ")
              = Some ([x00] ++ packetb ++ [] ++ deviceb ++ [])%list).
  { eapply fromhex_app_some; [lazy; reflexivity |].
    eapply fromhex_app_some; [exact Hp |].
    eapply fromhex_app_some; [lazy; reflexivity |].
    eapply fromhex_app_some; [exact Hd | lazy; reflexivity]. }
  rewrite (fromhex_app_some _ _ _ _ H Hb).
  f_equal. unfold plaintext_block. cbn [app].
  rewrite app_nil_r, <- app_assoc. reflexivity.
Qed.

(** C3.  For every operation body of the command set and every 6-byte MAC,
    under a 2-byte packet sequence and a 4-byte device code, the text that
    [assemble_command] returns denotes the frame
    [01 40][MAC][length byte][encrypted block]: the encrypted block is the
    cipher applied to the plaintext [00][packet][device][body], the length
    byte is the length of the encrypted block, and the plaintext is a whole
    number of 16-byte blocks, so that [encrypt] does not raise. *)
Theorem assemble_command_frame
        (enc : bytes -> bytes -> bytes -> bytes) (g : config)
        (mac body : string) (macb packetb deviceb : bytes) :
  (forall key iv data, List.length (enc key iv data) = List.length data) ->
  hex_bytes 6 mac macb ->
  hex_bytes 2 (packet g) packetb ->
  hex_bytes 4 (device g) deviceb ->
  command_body body ->
  exists bodyb len cmd,
    fromhex body = Some bodyb
    /\ Nat.modulo (List.length (plaintext_block packetb deviceb bodyb)) 16 = 0%nat
    /\ encrypt enc (plaintext_block packetb deviceb bodyb)
       = Ok (enc PASSKEY INITIALIZATION_VECTOR
                 (plaintext_block packetb deviceb bodyb))
    /\ byte_val len
       = Z.of_nat (List.length (enc PASSKEY INITIALIZATION_VECTOR
                                    (plaintext_block packetb deviceb bodyb)))
    /\ assemble_command enc g mac body = Ok cmd
    /\ fromhex cmd
       = Some ([x01; x40] ++ macb ++ [len]
               ++ enc PASSKEY INITIALIZATION_VECTOR
                      (plaintext_block packetb deviceb bodyb))%list.
Proof.
  intros Henc [Hm Lm] [Hp Lp] [Hd Ld] Hbody.
  destruct (command_body_bytes body Hbody) as (bodyb & Hb & Lb).
  pose proof (header_body_bytes g body _ _ _ Hp Hd Hb) as Hplain.
  fold (plaintext_block packetb deviceb bodyb) in Hplain.
  assert (Hlen : (List.length (plaintext_block packetb deviceb bodyb) = 16
                  \/ List.length (plaintext_block packetb deviceb bodyb) = 32)%nat).
  { unfold plaintext_block. rewrite !length_app, Lp, Ld. cbn [List.length]. lia. }
  set (plain := plaintext_block packetb deviceb bodyb) in *.
  assert (Hmod : Nat.modulo (List.length plain) 16 = 0%nat).
  { destruct Hlen as [-> | ->]; reflexivity. }
  assert (Hencrypt : encrypt enc plain
                     = Ok (enc PASSKEY INITIALIZATION_VECTOR plain)).
  { unfold encrypt. rewrite Hmod. reflexivity. }
  destruct (byte_of_Z_some
              (Z.of_nat (List.length (enc PASSKEY INITIALIZATION_VECTOR plain))))
    as [len Hbyte].
  { rewrite Henc. lia. }
  exists bodyb, len.
  eexists. split; [exact Hb |]. split; [exact Hmod |].
  split; [exact Hencrypt |].
  split; [apply byte_of_Z_val; exact Hbyte |].
  unfold assemble_command. rewrite Hplain. cbn [of_option rbind].
  rewrite Hencrypt. cbn [rbind]. unfold to_bytes_1. rewrite Hbyte.
  cbn [rbind]. split; [reflexivity |].
  unfold CMD_INIT.
  assert (Hinit : fromhex ("01 40 " ++ mac ++ " ")
                  = Some ([x01; x40] ++ macb ++ [])%list).
  { eapply fromhex_app_some; [lazy; reflexivity |].
    eapply fromhex_app_some; [exact Hm | lazy; reflexivity]. }
  rewrite <- hex_app.
  rewrite (fromhex_app_some _ _ _ _ Hinit (fromhex_hex _)).
  f_equal. rewrite app_nil_r, <- !app_assoc. reflexivity.
Qed.

(* ------------------------------------------------------------------ *)
(** ** The send/retry loop *)

(** Whatever a receive meets, it consumes one entry of the inbox. *)
Lemma recv_world (g : config) (s n : nat) (w : world) :
  snd (recv g s n w) = set_inbox (tl (inbox w)) w.
Proof.
  unfold recv. destruct (inbox w) as [| [| ? | ?] ?]; try reflexivity;
    destruct (timeout g =? 0); reflexivity.
Qed.

(** One turn of the loop, by what the send and the receive meet. *)
Lemma send_attempt_unfold (g : config) (s : nat) (c : bytes)
      (a : string * Z) (w : world) :
  send_attempt g s c a w =
  match send_errors w with
  | Some BadHostText :: _ => (Raise TypeError, snd (sendto s c a w))
  | Some (NetError e) :: _ =>
    (Ok (Return (Failure (VExc (OSError e)))),
     snd (close s (snd (sendto s c a w))))
  | _ =>
    match inbox w with
    | RecvData d :: _ =>
      match bad_reply (firstn 1024 d) with
      | Raise e => (Raise e, snd (recv g s 1024 (snd (sendto s c a w))))
      | Ok true =>
        (Ok (Continue (VStr "Bad return data")),
         snd (sleep 500 (snd (recv g s 1024 (snd (sendto s c a w))))))
      | Ok false =>
        (Ok (Return (Success (slice_from (firstn 1024 d) 9))),
         snd (close s (snd (recv g s 1024 (snd (sendto s c a w))))))
      end
    | RecvError e :: _ =>
      (Raise (OSError e), snd (recv g s 1024 (snd (sendto s c a w))))
    | _ =>
      if timeout g =? 0
      then (Raise (OSError "Resource temporarily unavailable"),
            snd (recv g s 1024 (snd (sendto s c a w))))
      else (Ok (Continue (VStr "Timeout")),
            snd (recv g s 1024 (snd (sendto s c a w))))
    end
  end.
Proof.
  unfold send_attempt, try_except, sendto, recv.
  destruct (send_errors w) as [| [[| e] |] ?]; cbn -[firstn];
    try reflexivity;
    (destruct (inbox w) as [| [| d | e] ?]; cbn -[firstn];
     try (destruct (timeout g =? 0); reflexivity); try reflexivity;
     unfold bind, lift;
     destruct (bad_reply (firstn 1024 d)) as [[|] | ?]; reflexivity).
Qed.

Lemma skipn_tl {A} (n : nat) (l : list A) : skipn n (tl l) = skipn (S n) l.
Proof. destruct l; [now rewrite skipn_nil | reflexivity]. Qed.

Lemma firstn_tl_Forall {A} (P : A -> Prop) (n : nat) (l : list A) :
  Forall P (firstn (S n) l) -> Forall P (firstn n (tl l)).
Proof.
  destruct l; cbn; [now rewrite firstn_nil | intro H; now inversion H].
Qed.

Lemma firstn_1_Forall {A} (P : A -> Prop) (n : nat) (l : list A) :
  Forall P (firstn (S n) l) -> Forall P (firstn 1 l).
Proof.
  destruct l; cbn; [constructor |].
  intro H. inversion H; subst. repeat constructor. assumption.
Qed.

(** A turn whose send passes and whose receive times out. *)
Lemma send_attempt_timeout (g : config) (s : nat) (c : bytes)
      (a : string * Z) (w : world) :
  0 < timeout g -> sends_pass 1 w -> silent 1 w ->
  exists w1,
    send_attempt g s c a w = (Ok (Continue (VStr "Timeout")), w1)
    /\ sent w1 = (sent w ++ [(c, a)])%list
    /\ inbox w1 = tl (inbox w)
    /\ send_errors w1 = tl (send_errors w)
    /\ open_sockets w1 = open_sockets w
    /\ slept w1 = slept w.
Proof.
  unfold sends_pass, silent. intros Ht Hs Hr.
  assert (Ez : (timeout g =? 0) = false) by (apply Z.eqb_neq; lia).
  assert (Es : send_errors w = [] \/ exists l, send_errors w = None :: l).
  { destruct (send_errors w) as [| x l]; [now left | right].
    cbn in Hs. inversion Hs; subst. now exists l. }
  assert (Er : inbox w = [] \/ exists l, inbox w = RecvTimeout :: l).
  { destruct (inbox w) as [| y l]; [now left | right].
    cbn in Hr. inversion Hr; subst. now exists l. }
  rewrite send_attempt_unfold. unfold sendto, recv. rewrite Ez.
  destruct Es as [Es | [ls Es]], Er as [Er | [lr Er]];
    rewrite Es; cbn; rewrite Er; cbn;
    (eexists; split; [reflexivity |]); cbn;
    repeat split; reflexivity.
Qed.

(** A call on which nothing arrives spends the whole budget. *)
Lemma send_loop_silent (g : config) (s : nat) (c : bytes)
      (a : string * Z) (n : nat) :
  0 < timeout g ->
  forall w,
    sends_pass n w -> silent n w ->
    exists w',
      send_loop g n s c a (Some (VStr "Timeout")) w
      = (Ok (Failure (VStr "Timeout")), w')
      /\ sent w' = (sent w ++ List.repeat (c, a) n)%list
      /\ inbox w' = skipn n (inbox w)
      /\ send_errors w' = skipn n (send_errors w)
      /\ open_sockets w'
         = filter (fun h => negb (Nat.eqb h s)) (open_sockets w)
      /\ slept w' = slept w.
Proof.
  intro Ht. induction n as [| n IH]; intros w Hs Hr.
  - eexists. split; [reflexivity |]. cbn.
    rewrite app_nil_r. repeat split; reflexivity.
  - destruct (send_attempt_timeout g s c a w Ht)
      as (w1 & E & S1 & I1 & X1 & O1 & Z1).
    { exact (firstn_1_Forall _ _ _ Hs). }
    { exact (firstn_1_Forall _ _ _ Hr). }
    destruct (IH w1) as (w' & E' & S' & I' & X' & O' & Z').
    { unfold sends_pass. rewrite X1. now apply firstn_tl_Forall. }
    { unfold silent. rewrite I1. now apply firstn_tl_Forall. }
    exists w'. cbn [send_loop]. unfold bind at 1. rewrite E.
    split; [exact E' |].
    rewrite S', S1, I', I1, X', X1, O', O1, Z', Z1, !skipn_tl.
    rewrite <- app_assoc. repeat split; reflexivity.
Qed.

(** A turn that ends by [continue] bound one of the two recorded errors. *)
Lemma send_attempt_continue (g : config) (s : nat) (c : bytes) (a : string * Z)
      (w : world) (m : value) (w1 : world) :
  send_attempt g s c a w = (Ok (Continue m), w1) ->
  m = VStr "Timeout" \/ m = VStr "Bad return data".
Proof.
  rewrite send_attempt_unfold.
  destruct (send_errors w) as [| [[| e] |] ?];
    try discriminate;
    (destruct (inbox w) as [| [| d | e] ?];
     [ destruct (timeout g =? 0); [discriminate |];
       intro H; injection H as <- _; now left
     | destruct (timeout g =? 0); [discriminate |];
       intro H; injection H as <- _; now left
     | destruct (bad_reply (firstn 1024 d)) as [[|] | ?];
       [ intro H; injection H as <- _; now right
       | discriminate
       | discriminate ]
     | discriminate ]).
Qed.

(** When every turn of the budget ends by [continue], the call returns the
    error that the last turn recorded. *)
Lemma send_loop_exhausts (g : config) (s : nat) (c : bytes) (a : string * Z)
      (n : nat) (w : world) (m : value) (w' : world) :
  exhausts g s c a n w m w' ->
  forall msg,
    send_loop g n s c a msg w = (Ok (Failure m), snd (close s w')).
Proof.
  induction 1 as [w m w1 E | n w m0 w1 m w2 E _ IH]; intro msg.
  - cbn [send_loop]. unfold bind at 1. rewrite E. reflexivity.
  - cbn [send_loop]. unfold bind at 1. rewrite E. apply IH.
Qed.

Lemma exhausts_message (g : config) (s : nat) (c : bytes) (a : string * Z)
      (n : nat) (w : world) (m : value) (w' : world) :
  exhausts g s c a n w m w' ->
  m = VStr "Timeout" \/ m = VStr "Bad return data".
Proof.
  induction 1 as [w m w1 E | n w m0 w1 m w2 E _ IH];
    [exact (send_attempt_continue _ _ _ _ _ _ _ E) | exact IH].
Qed.

(** Creating the socket only touches the table of sockets. *)
Lemma create_socket_world (g : config) (h : option string) (b : bool)
      (w : world) :
  snd (create_socket g h b w)
  = set_sockets (next_socket w :: open_sockets w) (S (next_socket w)) w.
Proof. unfold create_socket. destruct (socket_error g h w); reflexivity. Qed.

(** C1, as amended.  For a retry budget of at least one, on a host whose
    port binds: a call of [send] whose sends all go through and during which
    no datagram arrives before the timeout, the timeout of the socket being
    positive, hands exactly [repeat] datagrams to the network, waits exactly
    [repeat] times, closes its socket and returns the failure ['Timeout'];
    and whenever all [repeat] turns end by [continue], the call returns the
    failure recorded by the last turn, which is ['Timeout'] or
    ['Bad return data']. *)
Theorem send_budget (g : config) (ip command : string) (cmdb : bytes)
        (w : world) :
  socket_error g None w = None ->
  fromhex command = Some cmdb ->
  0 < repeat g ->
  (0 < timeout g ->
   sends_pass (Z.to_nat (repeat g)) w ->
   silent (Z.to_nat (repeat g)) w ->
   exists w',
     send g ip command w = (Ok (Failure (VStr "Timeout")), w')
     /\ sent w'
        = (sent w ++ List.repeat (cmdb, (ip, udp_port g))
                                 (Z.to_nat (repeat g)))%list
     /\ inbox w' = skipn (Z.to_nat (repeat g)) (inbox w)
     /\ ~ In (next_socket w) (open_sockets w'))
  /\ (forall m w1,
         exhausts g (next_socket w) cmdb (ip, udp_port g)
                  (Z.to_nat (repeat g))
                  (snd (create_socket g None false w)) m w1 ->
         send g ip command w
         = (Ok (Failure m), snd (close (next_socket w) w1))
         /\ (m = VStr "Timeout" \/ m = VStr "Bad return data")).
Proof.
  intros Hbind Hcmd Hrep.
  assert (Hsend : send g ip command w
                  = send_loop g (Z.to_nat (repeat g)) (next_socket w) cmdb
                              (ip, udp_port g) None
                              (snd (create_socket g None false w))).
  { unfold send, bind, create_socket, lift. rewrite Hbind, Hcmd. reflexivity. }
  split.
  - intros Ht Hs Hr. rewrite Hsend.
    destruct (Z.to_nat (repeat g)) as [| n] eqn:En; [lia |].
    rewrite create_socket_world.
    set (w0 := set_sockets _ _ w).
    destruct (send_attempt_timeout g (next_socket w) cmdb (ip, udp_port g)
                                   w0 Ht)
      as (w1 & E & S1 & I1 & X1 & O1 & Z1).
    { exact (firstn_1_Forall _ _ _ Hs). }
    { exact (firstn_1_Forall _ _ _ Hr). }
    destruct (send_loop_silent g (next_socket w) cmdb (ip, udp_port g) n Ht
                               w1)
      as (w' & E' & S' & I' & X' & O' & Z').
    { unfold sends_pass. rewrite X1. now apply firstn_tl_Forall. }
    { unfold silent. rewrite I1. now apply firstn_tl_Forall. }
    exists w'. cbn [send_loop]. unfold bind at 1. rewrite E.
    split; [exact E' |].
    rewrite S', S1, I', I1, O', !skipn_tl, <- app_assoc.
    split; [reflexivity |]. split; [reflexivity |].
    intro Hin. apply filter_In in Hin. destruct Hin as [_ Hneq].
    rewrite Nat.eqb_refl in Hneq. discriminate.
  - intros m w1 Hex. rewrite Hsend. split.
    + exact (send_loop_exhausts _ _ _ _ _ _ _ _ Hex None).
    + exact (exhausts_message _ _ _ _ _ _ _ _ Hex).
Qed.

Lemma send_budget_witness :
  exists w',
    send defaults "192.168.0.15" sample_command quiet
    = (Ok (Failure (VStr "Timeout")), w')
    /\ sent w' = List.repeat (sample_datagram, ("192.168.0.15", 8530)) 3
    /\ open_sockets w' = [].
Proof.
  destruct (send_budget defaults "192.168.0.15" sample_command
                        sample_datagram quiet)
    as [A _]; [reflexivity | vm_compute; reflexivity | reflexivity |].
  destruct A as (w' & E & S & _ & _);
    [reflexivity | constructor | constructor |].
  exists w'. split; [exact E |]. split; [exact S |].
  vm_compute in E. injection E as <-. reflexivity.
Defined.

(** Three malformed replies in a row exhaust the default budget, and the
    error returned is the one of the last turn. *)
Example send_bad_return_data :
  exists w',
    send defaults "192.168.0.15" sample_command
         (with_inbox [RecvData [x01; x43]; RecvTimeout; RecvData [x01; x43]])
    = (Ok (Failure (VStr "Bad return data")), w')
    /\ slept w' = 1000 /\ List.length (sent w') = 3%nat.
Proof. eexists. vm_compute. repeat split; reflexivity. Qed.

(** C1, the claim as stated fails.  Nothing is ever received in any of
    these runs.  When the operating system refuses the first send, the call
    returns that error and not ['Timeout'], no datagram has left and no
    wait has taken place, although the budget is 3.  When the port cannot be
    bound, [create_socket] raises and no attempt is made.  With the budget
    set to 0 the call returns no failure result: it raises
    [UnboundLocalError]. *)
Lemma send_silent_not_timeout :
  (fst (send defaults "192.168.0.15" sample_command
             (set_send_errors [Some (NetError "Network is unreachable")] quiet))
   = Ok (Failure (VExc (OSError "Network is unreachable")))
   /\ sent (snd (send defaults "192.168.0.15" sample_command
                      (set_send_errors
                         [Some (NetError "Network is unreachable")] quiet)))
      = [])
  /\ fst (send defaults "192.168.0.15" sample_command port_in_use)
     = Raise (OSError "Address already in use")
  /\ fst (send (with_repeat 0) "192.168.0.15" sample_command quiet)
     = Raise UnboundLocalError.
Proof. vm_compute. repeat split; reflexivity. Qed.

(* ------------------------------------------------------------------ *)
(** ** Validation of replies *)

Lemma byte_val_marker (b : byte) : byte_val b = 66 -> b = x42.
Proof.
  unfold byte_val. intro H.
  assert (E : Byte.to_N b = 66%N) by lia.
  pose proof (Byte.of_to_N b) as Hb. rewrite E in Hb.
  cbn in Hb. now injection Hb as <-.
Qed.

Lemma bad_reply_false_iff (message : bytes) :
  bad_reply message = Ok false <-> valid_reply message.
Proof.
  unfold bad_reply, valid_reply, index.
  destruct (nth_error message 1) as [b |]; cbn [rbind].
  - split.
    + intro H. injection H as H. apply orb_false_iff in H.
      destruct H as [H1 H2].
      apply negb_false_iff in H1. apply negb_false_iff in H2.
      apply Z.eqb_eq in H1. apply Nat.eqb_eq in H2.
      split; [f_equal; now apply byte_val_marker | exact H2].
    + intros [H1 H2]. injection H1 as ->. rewrite H2. reflexivity.
  - split; [discriminate | intros [H _]; discriminate].
Qed.

Lemma bad_reply_misaligned (message : bytes) :
  nth_error message 1 = Some x42 ->
  Nat.modulo (List.length (slice_from message 9)) 16 <> 0%nat ->
  bad_reply message = Ok true.
Proof.
  unfold bad_reply, index. intros -> H. cbn [rbind].
  apply Nat.eqb_neq in H. rewrite H. reflexivity.
Qed.

Lemma bad_reply_short (message : bytes) :
  (List.length message < 2)%nat -> bad_reply message = Raise IndexError.
Proof.
  unfold bad_reply, index. intro H.
  destruct (nth_error message 1) eqn:E; [| reflexivity].
  assert (nth_error message 1 <> None) as Hn by congruence.
  apply nth_error_Some in Hn. lia.
Qed.

(** After the send and the receive of a turn, one entry of the inbox is
    consumed. *)
Lemma inbox_after_turn (g : config) (s n : nat) (c : bytes)
      (a : string * Z) (w : world) :
  inbox (snd (recv g s n (snd (sendto s c a w)))) = tl (inbox w).
Proof.
  rewrite recv_world. unfold sendto.
  destruct (send_errors w) as [| [[| ?] |] ?]; reflexivity.
Qed.

Lemma sockets_after_turn (g : config) (s n : nat) (c : bytes) (a : string * Z)
      (w : world) :
  open_sockets (snd (recv g s n (snd (sendto s c a w)))) = open_sockets w.
Proof.
  rewrite recv_world. unfold sendto.
  destruct (send_errors w) as [| [[| ?] |] ?]; reflexivity.
Qed.

Lemma inbox_sleep (k : Z) (w : world) : inbox (snd (sleep k w)) = inbox w.
Proof. reflexivity. Qed.

Lemma In_tl {A} (x : A) (l : list A) : In x (tl l) -> In x l.
Proof. destruct l; [exact (fun H => H) | now right]. Qed.

(** A call that returns a payload took it from a valid reply. *)
Lemma send_loop_success (g : config) (s : nat) (c : bytes)
      (a : string * Z) (n : nat) :
  forall msg w p w',
    send_loop g n s c a msg w = (Ok (Success p), w') ->
    exists d,
      In (RecvData d) (inbox w)
      /\ valid_reply (firstn 1024 d)
      /\ p = slice_from (firstn 1024 d) 9.
Proof.
  induction n as [| n IH]; intros msg w p w'.
  - cbn [send_loop]. unfold bind, close, lift.
    destruct msg; cbn; discriminate.
  - cbn [send_loop]. unfold bind at 1. rewrite send_attempt_unfold.
    destruct (timeout g =? 0).
    all: destruct (send_errors w) as [| [[| ?] |] ?]; try discriminate.
    all: destruct (inbox w) as [| [| d | ?] rest] eqn:Er; try discriminate.
    all: try (destruct (bad_reply (firstn 1024 d)) as [[|] | ?] eqn:Eb;
              try discriminate).
    all: intro H.
    all: try (apply IH in H; destruct H as (d' & Hin & Hv);
              exists d'; split; [| exact Hv];
              rewrite ?inbox_sleep, inbox_after_turn, Er in Hin;
              cbn [tl] in Hin; first [exact Hin | now right]).
    all: injection H as <- _; exists d; split; [now left |];
      split; [now apply bad_reply_false_iff | reflexivity].
Qed.

Lemma send_success (g : config) (ip command : string) (w : world)
      (p : bytes) (w' : world) :
  send g ip command w = (Ok (Success p), w') ->
  exists d,
    In (RecvData d) (inbox w)
    /\ valid_reply (firstn 1024 d)
    /\ p = slice_from (firstn 1024 d) 9.
Proof.
  unfold send. unfold bind at 1.
  destruct (create_socket g None false w) as [[s |] w0] eqn:Ec;
    [| discriminate].
  assert (Hin : inbox w0 = inbox w).
  { replace w0 with (snd (create_socket g None false w)) by now rewrite Ec.
    rewrite create_socket_world. reflexivity. }
  unfold bind, lift.
  destruct (fromhex command); cbn [of_option]; [| discriminate].
  intro H. apply send_loop_success in H. now rewrite Hin in H.
Qed.

(** A reply with the right marker and 15 payload bytes is not accepted. *)
Example misaligned_reply_refused :
  fst (send defaults "192.168.0.15" sample_command
            (with_inbox [RecvData (reply_frame (firstn 15 (state_payload xff)))]))
  = Ok (Failure (VStr "Timeout"))
  /\ fst (send_attempt defaults 0 sample_datagram ("192.168.0.15", 8530)
            (with_inbox [RecvData (reply_frame (firstn 15 (state_payload xff)))]))
     = Ok (Continue (VStr "Bad return data")).
Proof. vm_compute. split; reflexivity. Qed.

(* ------------------------------------------------------------------ *)
(** ** Release of the socket *)

Lemma close_closes (s : nat) (w : world) :
  ~ In s (open_sockets (snd (close s w))).
Proof.
  cbn. intro H. apply filter_In in H. destruct H as [_ H].
  rewrite Nat.eqb_refl in H. discriminate.
Qed.

(** Every [return] of the loop is preceded by [s.close()]. *)
Lemma send_loop_closes (g : config) (s : nat) (c : bytes)
      (a : string * Z) (n : nat) :
  forall msg w r w',
    send_loop g n s c a msg w = (Ok r, w') -> ~ In s (open_sockets w').
Proof.
  induction n as [| n IH]; intros msg w r w'.
  - cbn [send_loop]. unfold bind at 1.
    change (close s w) with (Ok tt, snd (close s w)). cbv beta iota.
    unfold bind, lift, ret. destruct msg; cbn [of_option]; [| discriminate].
    intro H. injection H as _ <-. apply close_closes.
  - cbn [send_loop]. unfold bind at 1. rewrite send_attempt_unfold.
    destruct (timeout g =? 0).
    all: destruct (send_errors w) as [| [[| ?] |] ?].
    all: try (intro H; injection H as _ <-; apply close_closes).
    all: destruct (inbox w) as [| [| d | ?] rest]; try discriminate.
    all: try (destruct (bad_reply (firstn 1024 d)) as [[|] | ?];
              try discriminate).
    all: try (apply IH).
    all: intro H; injection H as _ <-; apply close_closes.
Qed.

(** On every path by which [send] returns, the socket it opened is
    closed. *)
Lemma send_closes_on_return (g : config) (ip command : string) (w : world)
      (r : reply) (w' : world) :
  send g ip command w = (Ok r, w') -> ~ In (next_socket w) (open_sockets w').
Proof.
  unfold send. unfold bind at 1. unfold create_socket.
  destruct (socket_error g None w); [discriminate |].
  unfold bind, lift. destruct (fromhex command); cbn [of_option];
    [| discriminate].
  apply send_loop_closes.
Qed.

(** C8, what the code does.  When the first datagram received by a call of
    [send] is shorter than two bytes, the test of the reply raises
    [IndexError] at [message[1]]; the exception leaves [send] and the socket
    that the call opened is still open. *)
Theorem send_short_datagram_leaks (g : config) (ip command : string)
        (cmdb : bytes) (w : world) (d : bytes) :
  socket_error g None w = None ->
  fromhex command = Some cmdb ->
  0 < repeat g ->
  sends_pass 1 w ->
  hd_error (inbox w) = Some (RecvData d) ->
  (List.length d < 2)%nat ->
  exists w',
    send g ip command w = (Raise IndexError, w')
    /\ In (next_socket w) (open_sockets w').
Proof.
  intros Hbind Hcmd Hrep Hs Hr Hlen.
  unfold send, bind, create_socket, lift. rewrite Hbind, Hcmd.
  cbn [of_option].
  destruct (Z.to_nat (repeat g)) as [| n] eqn:En; [lia |].
  cbn [send_loop]. unfold bind. rewrite send_attempt_unfold.
  cbn [send_errors inbox set_sockets].
  assert (Es : match send_errors w with Some _ :: _ => False | _ => True end).
  { unfold sends_pass in Hs. destruct (send_errors w) as [| [e |] ?];
      [exact I | | exact I]. cbn in Hs. inversion Hs. discriminate. }
  destruct (inbox w) as [| x rest]; [discriminate |].
  cbn [hd_error] in Hr. injection Hr as Hx. subst x.
  rewrite bad_reply_short
    by (rewrite length_firstn; lia).
  destruct (send_errors w) as [| [e |] ?] eqn:E; [| contradiction |];
    (eexists; split; [reflexivity |]);
    rewrite sockets_after_turn; now left.
Qed.

Lemma send_short_datagram_leaks_witness :
  exists w',
    send defaults "192.168.0.15" sample_command (with_inbox [RecvData [x01]])
    = (Raise IndexError, w')
    /\ In 0%nat (open_sockets w').
Proof.
  apply (send_short_datagram_leaks defaults "192.168.0.15" sample_command
           sample_datagram (with_inbox [RecvData [x01]]) [x01]).
  - reflexivity.
  - vm_compute. reflexivity.
  - reflexivity.
  - constructor.
  - reflexivity.
  - cbn. lia.
Defined.

(** The same slip in [find_sockets]: an empty datagram during discovery
    raises [IndexError] before [s.close()] is reached. *)
Example find_sockets_short_datagram_leaks :
  fst (find_sockets plain_cbc plain_cbc defaults "FF FF FF FF FF FF"
                    "255.255.255.255" (with_inbox [RecvData []]))
  = Raise IndexError
  /\ open_sockets
       (snd (find_sockets plain_cbc plain_cbc defaults "FF FF FF FF FF FF"
                          "255.255.255.255" (with_inbox [RecvData []])))
     = [0%nat].
Proof. vm_compute. split; reflexivity. Qed.

(* ------------------------------------------------------------------ *)
(** ** The state query *)

Lemma valid_reply_aligned (message : bytes) :
  valid_reply message ->
  Nat.modulo (List.length (slice_from message 9)) 16 = 0%nat.
Proof. now intros [_ H]. Qed.

(** C9.  When the transport succeeds with the payload [p] and the decrypted
    payload has a byte 10, [switch_state] returns ['off'] if that byte is 0,
    ['on'] if it is 255, and for every other value no value at all
    ([None]). *)
Theorem switch_state_decodes
        (enc dec : bytes -> bytes -> bytes -> bytes) (g : config)
        (mac ip cmd : string) (w : world) (p : bytes) (w1 : world) (b : byte) :
  assemble_command enc g mac CMD_GET_STATE = Ok cmd ->
  send g ip cmd w = (Ok (Success p), w1) ->
  nth_error (dec PASSKEY INITIALIZATION_VECTOR p) 10 = Some b ->
  (byte_val b = 0 ->
   switch_state enc dec g (mac, ip) w = (Ok (VStr "off"), w1))
  /\ (byte_val b = 255 ->
      switch_state enc dec g (mac, ip) w = (Ok (VStr "on"), w1))
  /\ (byte_val b <> 0 -> byte_val b <> 255 ->
      switch_state enc dec g (mac, ip) w = (Ok VNone, w1)).
Proof.
  intros Hcmd Hsend Hb.
  assert (E : switch_state enc dec g (mac, ip) w
              = (Ok (if byte_val b =? 0 then VStr "off"
                     else if byte_val b =? 255 then VStr "on"
                     else VNone), w1)).
  { destruct (send_success _ _ _ _ _ _ Hsend) as (d & _ & Hv & ->).
    unfold switch_state, bind, lift. rewrite Hcmd, Hsend.
    unfold decrypt. rewrite (valid_reply_aligned _ Hv). cbn [Nat.eqb].
    unfold index. rewrite Hb.
    destruct (byte_val b =? 0); [reflexivity |].
    destruct (byte_val b =? 255); reflexivity. }
  rewrite E. repeat split.
  - intros ->. reflexivity.
  - intros ->. reflexivity.
  - intros H0 H255.
    apply Z.eqb_neq in H0. apply Z.eqb_neq in H255.
    rewrite H0, H255. reflexivity.
Qed.

Lemma switch_state_decodes_witness :
  exists w1,
    switch_state plain_cbc plain_cbc defaults sample_socket
                 (with_inbox [RecvData (reply_frame (state_payload x07))])
    = (Ok VNone, w1).
Proof.
  pose (w := with_inbox [RecvData (reply_frame (state_payload x07))]).
  exists (snd (send defaults "192.168.0.15" sample_command w)).
  refine (proj2 (proj2 (switch_state_decodes
            plain_cbc plain_cbc defaults "AC CF 23 00 00 01" "192.168.0.15"
            sample_command w (state_payload x07)
            (snd (send defaults "192.168.0.15" sample_command w)) x07
            _ _ _)) _ _).
  - vm_compute. reflexivity.
  - vm_compute. reflexivity.
  - reflexivity.
  - vm_compute. discriminate.
  - vm_compute. discriminate.
Defined.

(* ------------------------------------------------------------------ *)
(** ** Results of the commands *)

(** C6, what the code does.  Whenever the call of [set_timer] that
    [set_countdown] makes returns, whatever it returns, [set_countdown]
    returns [None]: the receipt or error of [set_timer] is dropped. *)
Theorem set_countdown_drops_result
        (enc : bytes -> bytes -> bytes -> bytes) (g : config)
        (socket_ : string * string) (time_ switch : string)
        (delta_time : option Z) (w : world) (v : value) (w' : world) :
  set_timer enc g socket_ (AInt 11) true "0000000" time_ switch delta_time w
  = (Ok v, w') ->
  set_countdown enc g socket_ time_ switch delta_time w = (Ok VNone, w').
Proof. intro H. unfold set_countdown, bind. rewrite H. reflexivity. Qed.

Lemma set_countdown_drops_result_witness :
  exists w',
    set_timer plain_cbc defaults sample_socket (AInt 11) true "0000000"
              "01:30" "on" None
              (with_inbox [RecvData (reply_frame (state_payload x00))])
    = (Ok (VBool true), w')
    /\ set_countdown plain_cbc defaults sample_socket "01:30" "on" None
                     (with_inbox [RecvData (reply_frame (state_payload x00))])
       = (Ok VNone, w').
Proof.
  eexists. split; [vm_compute; reflexivity |].
  apply (set_countdown_drops_result plain_cbc defaults sample_socket
           "01:30" "on" None
           (with_inbox [RecvData (reply_frame (state_payload x00))])
           (VBool true)).
  vm_compute. reflexivity.
Defined.

(** C7, what the code does.  For an argument of [switch] that is neither
    ['on'] nor ['off'], no branch binds [cmd]; evaluating the arguments of
    [send(ip, cmd)] raises [UnboundLocalError], before any socket is created
    and any datagram sent: the world is unchanged and the call ends by an
    exception, not by an error value. *)
Theorem switch_unknown_argument_raises
        (enc : bytes -> bytes -> bytes -> bytes) (g : config)
        (mac ip on_off : string) (w : world) :
  on_off <> "on" -> on_off <> "off" ->
  switch enc g (mac, ip) on_off w = (Raise UnboundLocalError, w).
Proof.
  intros Hon Hoff. unfold switch.
  apply String.eqb_neq in Hon. apply String.eqb_neq in Hoff.
  rewrite Hon, Hoff. reflexivity.
Qed.

Lemma switch_unknown_argument_raises_witness :
  switch plain_cbc defaults sample_socket "toggle" quiet
  = (Raise UnboundLocalError, quiet).
Proof.
  apply (switch_unknown_argument_raises plain_cbc defaults
           "AC CF 23 00 00 01" "192.168.0.15" "toggle" quiet);
    discriminate.
Defined.

(** The other half of C7 holds: a date that [strptime] refuses makes
    [set_absence_mode] return the exception as a value, and the world is
    untouched (no socket, no datagram). *)
Lemma set_absence_mode_unparseable
      (enc : bytes -> bytes -> bytes -> bytes)
      (strptime : string -> result Z) (timestamp : Z -> result Z)
      (g : config) (socket_ : string * string) (active : bool)
      (from_ to_ : string) (w : world) :
  (exists e, strptime from_ = Raise e) \/ (exists e, strptime to_ = Raise e) ->
  exists e,
    set_absence_mode enc strptime timestamp g socket_ active from_ to_ w
    = (Ok (VExc e), w).
Proof.
  intro H. unfold set_absence_mode, parse_window. destruct socket_ as [mac ip].
  destruct H as [[e He] | [e He]].
  - rewrite He. cbn [rbind]. now exists e.
  - destruct (strptime from_) as [d |]; cbn [rbind];
      [| eexists; reflexivity].
    destruct (timestamp d); cbn [rbind]; [| eexists; reflexivity].
    rewrite He. cbn [rbind]. eexists; reflexivity.
Qed.

(* ------------------------------------------------------------------ *)
(** ** Discovery *)

(** The loop of [find_sockets] is [s.recv(1024)] followed by the body,
    again and again. *)
Lemma find_loop_recv (dec : bytes -> bytes -> bytes -> bytes) (g : config)
      (s : nat) (socket_data : list item) (w : world) :
  find_loop dec g (inbox w) socket_data w
  = match recv g s 1024 w with
    | (Ok message, w1) =>
      match decode_found dec message with
      | Raise e => (Raise e, w1)
      | Ok None => find_loop dec g (inbox w1) socket_data w1
      | Ok (Some i) =>
        find_loop dec g (inbox w1) (socket_data ++ [i])%list w1
      end
    | (Raise SocketTimeout, w1) => (Ok socket_data, w1)
    | (Raise e, w1) => (Raise e, w1)
    end.
Proof.
  unfold recv. destruct (inbox w) as [| [| d | e] rest];
    cbn -[firstn decode_found]; try reflexivity;
    destruct (timeout g =? 0); reflexivity.
Qed.

Lemma find_loop_datagrams (dec : bytes -> bytes -> bytes -> bytes)
      (g : config) (rest : list recv_outcome) (ds : list bytes) :
  0 < timeout g ->
  rest = [] \/ (exists r, rest = RecvTimeout :: r) ->
  Forall (decodable dec) ds ->
  forall socket_data w,
    find_loop dec g (map RecvData ds ++ rest) socket_data w
    = (Ok (socket_data ++ found dec ds)%list, set_inbox (tl rest) w).
Proof.
  intros Ht Hrest Hds.
  assert (Ez : (timeout g =? 0) = false) by (apply Z.eqb_neq; lia).
  induction Hds as [| d ds [o Hd] _ IH]; intros socket_data w.
  - cbn [map app found flat_map]. rewrite app_nil_r.
    destruct Hrest as [-> | [r ->]]; cbn [find_loop]; rewrite Ez;
      reflexivity.
  - cbn [map app find_loop found flat_map]. unfold found_in. rewrite Hd.
    destruct o as [i |]; rewrite IH; [rewrite <- app_assoc |]; reflexivity.
Qed.

Lemma is_valid_reply_iff (message : bytes) :
  is_valid_reply message = true <-> valid_reply message.
Proof.
  unfold is_valid_reply, valid_reply.
  destruct (nth_error message 1) as [b |].
  - rewrite andb_true_iff, Z.eqb_eq, Nat.eqb_eq. split.
    + intros [Hb Hl]. split; [f_equal; now apply byte_val_marker | exact Hl].
    + intros [Hb Hl]. injection Hb as ->. now split.
  - split; [discriminate | intros [H _]; discriminate].
Qed.

Lemma index_nth (m : bytes) (i : nat) :
  (i < List.length m)%nat -> index m i = Ok (byte_val (nth i m x00)).
Proof.
  intro H. unfold index. now rewrite (nth_error_nth' m x00 H).
Qed.

(** On a datagram that discovery can read, the loop body appends the pair
    of a valid reply and nothing for any other datagram. *)
Lemma found_in_pair (dec : bytes -> bytes -> bytes -> bytes) (d : bytes) :
  readable_datagram dec d ->
  decodable dec d
  /\ found_in dec d
     = if is_valid_reply (firstn 1024 d) then [reply_pair dec d] else [].
Proof.
  intros [Hlen Hpay]. unfold decodable, found_in, decode_found.
  assert (Hb : exists b, bad_reply (firstn 1024 d) = Ok b).
  { unfold bad_reply. rewrite index_nth; [cbn [rbind]; eauto |].
    rewrite length_firstn. lia. }
  destruct Hb as [[|] Hb]; rewrite Hb; cbn [rbind].
  - split; [eauto |].
    destruct (is_valid_reply (firstn 1024 d)) eqn:Ev; [| reflexivity].
    apply is_valid_reply_iff, bad_reply_false_iff in Ev. congruence.
  - pose proof (proj1 (bad_reply_false_iff _) Hb) as Hv.
    rewrite (proj2 (is_valid_reply_iff _) Hv).
    specialize (Hpay Hv).
    unfold decrypt. rewrite (valid_reply_aligned _ Hv). cbn [Nat.eqb rbind].
    rewrite !index_nth by lia. cbn [rbind].
    split; [eauto | reflexivity].
Qed.

Lemma found_discovered (dec : bytes -> bytes -> bytes -> bytes)
      (ds : list bytes) :
  Forall (readable_datagram dec) ds ->
  Forall (decodable dec) ds /\ found dec ds = discovered dec ds.
Proof.
  induction 1 as [| d ds Hd _ [IH1 IH2]];
    [split; [constructor | reflexivity] |].
  destruct (found_in_pair dec d Hd) as [Hdec Hfound].
  split; [now constructor |].
  unfold found, discovered in *. cbn [flat_map filter].
  rewrite Hfound, IH2.
  destruct (is_valid_reply (firstn 1024 d)); reflexivity.
Qed.

(** The first valid reply gives the first pair. *)
Lemma discovered_first (dec : bytes -> bytes -> bytes -> bytes)
      (before : list bytes) (d : bytes) (after : list bytes) :
  Forall (fun x => ~ valid_reply (firstn 1024 x)) before ->
  valid_reply (firstn 1024 d) ->
  discovered dec (before ++ d :: after)
  = reply_pair dec d :: discovered dec after.
Proof.
  intros Hbefore Hd. unfold discovered.
  induction Hbefore as [| x before Hx _ IH].
  - cbn [app filter]. rewrite (proj2 (is_valid_reply_iff _) Hd). reflexivity.
  - cbn [app filter].
    destruct (is_valid_reply (firstn 1024 x)) eqn:Ex; [| exact IH].
    apply is_valid_reply_iff in Ex. contradiction.
Qed.

(** C5, as amended.  On a host whose port binds and whose send goes
    through, with a positive timeout, let the datagrams [ds] arrive before
    the first timeout, each at least two bytes long and each valid reply
    with a payload that reaches offset 11.  Called with the two wildcards,
    [find_sockets] returns the list (possibly empty) of the pairs of the
    valid replies among [ds], one per valid reply, in the order of arrival.
    Called with another MAC or IP, and when a valid reply arrived, it
    returns the pair of the first valid reply alone, not a list.  The MAC
    of a pair is the hex text of bytes 12 to 17 of the decrypted payload of
    its reply and the IP the dotted decimals of bytes 8 to 11; neither is
    compared with the filter.  One datagram has been sent and the socket is
    closed. *)
Theorem find_sockets_result
        (enc dec : bytes -> bytes -> bytes -> bytes) (g : config)
        (mac ip cmd : string) (cmdb : bytes) (w : world)
        (ds : list bytes) (rest : list recv_outcome) :
  socket_error g None w = None ->
  0 < timeout g ->
  sends_pass 1 w ->
  assemble_command enc g mac (CMD_SEARCH mac) = Ok cmd ->
  fromhex cmd = Some cmdb ->
  inbox w = (map RecvData ds ++ rest)%list ->
  rest = [] \/ (exists r, rest = RecvTimeout :: r) ->
  Forall (readable_datagram dec) ds ->
  exists w',
    (unfiltered mac ip ->
     find_sockets enc dec g mac ip w = (Ok (VList (discovered dec ds)), w'))
    /\ (~ unfiltered mac ip ->
        forall before d after,
          ds = (before ++ d :: after)%list ->
          Forall (fun x => ~ valid_reply (firstn 1024 x)) before ->
          valid_reply (firstn 1024 d) ->
          find_sockets enc dec g mac ip w
          = (Ok (VItem (reply_pair dec d)), w'))
    /\ sent w' = (sent w ++ [(cmdb, (ip, udp_port g))])%list
    /\ ~ In (next_socket w) (open_sockets w').
Proof.
  intros Hbind Ht Hs Hcmd Hhex Hin Hrest Hread.
  destruct (found_discovered dec ds Hread) as [Hds Hfound].
  assert (Es : send_errors w = [] \/ exists l, send_errors w = None :: l).
  { unfold sends_pass in Hs. destruct (send_errors w) as [| x l];
      [now left | right].
    cbn in Hs. inversion Hs; subst. now exists l. }
  set (w0 := set_sockets (next_socket w :: open_sockets w)
                         (S (next_socket w)) w).
  set (w1 := snd (sendto (next_socket w) cmdb (ip, udp_port g) w0)).
  set (w2 := set_inbox (tl rest) w1).
  set (w3 := snd (close (next_socket w) w2)).
  assert (Hsendto : sendto (next_socket w) cmdb (ip, udp_port g) w0
                    = (Ok tt, w1)).
  { unfold w1, sendto. cbn [send_errors w0 set_sockets].
    destruct Es as [-> | [l ->]]; reflexivity. }
  assert (Hloop : find_loop dec g (inbox w1) [] w1
                  = (Ok (discovered dec ds), w2)).
  { replace (inbox w1) with (map RecvData ds ++ rest)%list.
    - rewrite find_loop_datagrams by assumption. now rewrite Hfound.
    - rewrite <- Hin. unfold w1, sendto. cbn [send_errors w0 set_sockets].
      destruct (send_errors w) as [| [[| ?] |] ?]; reflexivity. }
  assert (Hrun : find_sockets enc dec g mac ip w
                 = (if negb (String.eqb mac "FF FF FF FF FF FF")
                       || negb (String.eqb ip "255.255.255.255")
                    then match discovered dec ds with
                         | first :: _ => ret (VItem first)
                         | [] => raise IndexError
                         end
                    else ret (VList (discovered dec ds))) w3).
  { unfold find_sockets, bind, create_socket, lift.
    rewrite Hbind, Hcmd, Hhex. cbn [of_option].
    fold w0. rewrite Hsendto, Hloop. reflexivity. }
  exists w3. split; [| split; [| split]].
  - intros [-> ->]. rewrite Hrun. reflexivity.
  - intros Hf before d after -> Hbefore Hd.
    rewrite Hrun, (discovered_first dec before d after Hbefore Hd).
    destruct (String.eqb mac "FF FF FF FF FF FF") eqn:Em;
      [| reflexivity].
    destruct (String.eqb ip "255.255.255.255") eqn:Ei; [| reflexivity].
    apply String.eqb_eq in Em. apply String.eqb_eq in Ei.
    exfalso. apply Hf. now split.
  - unfold w3, w2, w1, sendto. cbn [send_errors w0 set_sockets].
    destruct (send_errors w) as [| [[| ?] |] ?]; try reflexivity;
      destruct Es as [Es | [tail Es]]; discriminate.
  - apply close_closes.
Qed.

Lemma find_sockets_result_witness :
  (exists w',
      find_sockets plain_cbc plain_cbc defaults "FF FF FF FF FF FF"
                   "255.255.255.255"
                   (with_inbox [RecvData reply_2; RecvData [x01; x43];
                                RecvData reply_1])
      = (Ok (VList [ISocket "accf23000002" "192.168.0.16";
                    ISocket "accf23000001" "192.168.0.15"]), w'))
  /\ exists w',
      find_sockets plain_cbc plain_cbc defaults "AC CF 23 00 00 01"
                   "255.255.255.255"
                   (with_inbox [RecvData [x01; x43]; RecvData reply_1;
                                RecvData reply_2])
      = (Ok (VItem (ISocket "accf23000001" "192.168.0.15")), w').
Proof.
  assert (R1 : readable_datagram plain_cbc reply_1)
    by (split; [cbn; lia | intros _; cbn; lia]).
  assert (R2 : readable_datagram plain_cbc reply_2)
    by (split; [cbn; lia | intros _; cbn; lia]).
  assert (R3 : readable_datagram plain_cbc [x01; x43])
    by (split; [cbn; lia | intros [H _]; discriminate H]).
  split.
  - destruct (find_sockets_result
                plain_cbc plain_cbc defaults "FF FF FF FF FF FF"
                "255.255.255.255" search_command search_datagram
                (with_inbox [RecvData reply_2; RecvData [x01; x43];
                             RecvData reply_1])
                [reply_2; [x01; x43]; reply_1] [])
      as (w' & A & _).
    + reflexivity.
    + reflexivity.
    + constructor.
    + vm_compute. reflexivity.
    + vm_compute. reflexivity.
    + reflexivity.
    + now left.
    + apply Forall_cons; [exact R2 |]. apply Forall_cons; [exact R3 |].
      apply Forall_cons; [exact R1 | constructor].
    + exists w'. exact (A (conj eq_refl eq_refl)).
  - destruct (find_sockets_result
                plain_cbc plain_cbc defaults "AC CF 23 00 00 01"
                "255.255.255.255"
                filtered_search_command
                (datagram_of filtered_search_command)
                (with_inbox [RecvData [x01; x43]; RecvData reply_1;
                             RecvData reply_2])
                [[x01; x43]; reply_1; reply_2] [])
      as (w' & _ & B & _).
    + reflexivity.
    + reflexivity.
    + constructor.
    + vm_compute. reflexivity.
    + vm_compute. reflexivity.
    + reflexivity.
    + now left.
    + apply Forall_cons; [exact R3 |]. apply Forall_cons; [exact R1 |].
      apply Forall_cons; [exact R2 | constructor].
    + exists w'.
      apply (B ltac:(intros [H _]; discriminate H)
               [[x01; x43]] reply_1 [reply_2] eq_refl).
      * constructor; [intros [H _]; discriminate H | constructor].
      * split; reflexivity.
Defined.

(** C5, the claim as stated fails.  With a MAC filter: when no reply
    arrives, the call returns nothing, [socket_data[0]] raises
    [IndexError]; when the reply of another device arrives, the call returns
    that device, so that the MAC of the result is not the filter.  Without
    filter: a datagram of fewer than two bytes, or a valid reply whose
    payload stops before offset 11, raises [IndexError], and a send that
    the operating system refuses raises [OSError]; no list is returned. *)
Lemma find_sockets_filter_fails :
  fst (find_sockets plain_cbc plain_cbc defaults "AC CF 23 00 00 01"
                    "255.255.255.255" quiet)
  = Raise IndexError
  /\ fst (find_sockets plain_cbc plain_cbc defaults "AC CF 23 00 00 01"
                       "255.255.255.255" (with_inbox [RecvData reply_2]))
     = Ok (VItem (ISocket "accf23000002" "192.168.0.16"))
  /\ fst (find_sockets plain_cbc plain_cbc defaults "FF FF FF FF FF FF"
                       "255.255.255.255" (with_inbox [RecvData [x01]]))
     = Raise IndexError
  /\ fst (find_sockets plain_cbc plain_cbc defaults "FF FF FF FF FF FF"
                       "255.255.255.255" (with_inbox [RecvData [x01; x42]]))
     = Raise IndexError
  /\ fst (find_sockets plain_cbc plain_cbc defaults "FF FF FF FF FF FF"
                       "255.255.255.255"
                       (set_send_errors
                          [Some (NetError "Network is unreachable")] quiet))
     = Raise (OSError "Network is unreachable").
Proof. vm_compute. repeat split; reflexivity. Qed.

(* ------------------------------------------------------------------ *)
(** ** Concrete instances of the codec and framing theorems *)

Lemma repeat_byte_roundtrip_witness :
  exists text b,
    encode_repeat true "1111100" = Ok text
    /\ fromhex text = Some [b]
    /\ decode_active (byte_val b) = true
    /\ decode_repeat (byte_val b) = "1111100".
Proof. exact (repeat_byte_roundtrip true "1111100" eq_refl). Defined.

Lemma assemble_command_frame_witness :
  exists cmd,
    assemble_command plain_cbc defaults "AC CF 23 00 00 01"
                     (CMD_SET_TIMER "03" "9f" "06" "1e" "00 00 FF FF")
    = Ok cmd
    /\ option_map (@List.length byte) (fromhex cmd) = Some 41%nat.
Proof.
  destruct (assemble_command_frame
              plain_cbc defaults "AC CF 23 00 00 01"
              (CMD_SET_TIMER "03" "9f" "06" "1e" "00 00 FF FF")
              [xac; xcf; x23; x00; x00; x01] [xff; xff]
              [xc1; x11; x71; x50])
    as (bodyb & len & cmd & _ & _ & _ & _ & E & F).
  - reflexivity.
  - split; reflexivity.
  - split; reflexivity.
  - split; reflexivity.
  - exact (body_set_timer 3 159 6 30 true
             ltac:(lia) ltac:(lia) ltac:(lia) ltac:(lia)).
  - exists cmd. split; [exact E |].
    vm_compute in E. injection E as <-. vm_compute. reflexivity.
Defined.

(* ------------------------------------------------------------------ *)
(** ** The bodies that the command functions build *)

Lemma encode_repeat_byte (active : bool) (mask : string) :
  is_mask mask = true ->
  exists v, 0 <= v < 256 /\ encode_repeat active mask = Ok (format_int 16 2 v).
Proof.
  intro H. apply is_mask_shape in H.
  destruct H as (c1 & c2 & c3 & c4 & c5 & c6 & c7 & -> & Hall).
  repeat match goal with
         | H : Forall _ (_ :: _) |- _ => inversion H; subst; clear H
         | H : Forall _ [] |- _ => clear H
         end.
  repeat match goal with
         | H : _ = _ \/ _ = _ |- _ => destruct H; subst
         end;
    destruct active;
    match goal with
    | |- exists v, _ /\ encode_repeat ?a ?m = _ =>
      let r := eval vm_compute in
                (int_base2 ((if a then "1" else "0") ++ string_rev m)) in
      match r with
      | Some ?v => exists v; split; [lia | vm_compute; reflexivity]
      end
    end.
Qed.

Lemma digit_not_space (d : Z) : is_space (digit_char (d mod 16)) = false.
Proof. apply hexval_digit_char. apply Z.mod_pos_bound. lia. Qed.

(** [f'{x:02x} {y:02x}'.split()] gives back the two fields. *)
Lemma split_two_fields (x y : Z) :
  0 <= x < 256 -> 0 <= y < 256 ->
  split_ws (format_int 16 2 x ++ " " ++ format_int 16 2 y)
  = [format_int 16 2 x; format_int 16 2 y].
Proof.
  intros Hx Hy. rewrite !format_int_fits by (cbn; lia).
  cbn [digits_fixed append]. unfold split_ws.
  cbn [split_ws_aux]. rewrite !digit_not_space.
  change (is_space " ") with true. reflexivity.
Qed.

Lemma dt_hour_range (t : Z) : 0 <= dt_hour t < 24.
Proof. apply Z.mod_pos_bound. lia. Qed.

Lemma dt_minute_range (t : Z) : 0 <= dt_minute t < 60.
Proof. apply Z.mod_pos_bound. lia. Qed.

(** The tail of [set_timer] once the time [tm] is known: the adjustment,
    the two hex fields, the frame. *)
Ltac set_timer_tail Hd d :=
  let T := fresh "T" in
  let e := fresh "e" in
  let body := fresh "body" in
  let Hbody := fresh "Hbody" in
  unfold bind at 1; rewrite Hd;
  unfold bind at 1; unfold lift at 1;
  match goal with
  | |- context [datetime_add ?tm d] =>
    destruct (datetime_add tm d) as [T | e];
    [| exists (Raise e); split; [discriminate | reflexivity]]
  end;
  unfold bind at 1; unfold lift at 1;
  rewrite split_two_fields
    by (pose proof (dt_hour_range T); pose proof (dt_minute_range T); lia);
  unfold bind at 1; unfold lift at 1; cbn [fst snd];
  eexists (Ok _); split; [| reflexivity];
  intros body Hbody; injection Hbody as <-;
  apply body_set_timer;
  [ lia | lia | apply dt_hour_range | apply dt_minute_range ].

(** On a mask of the data model and a slot number that fits a byte (or
    ['Countdown']), [set_timer] either raises while it computes the time,
    before any socket exists, or hands [assemble_command] a body of the
    command set and goes on as every receipt-only command. *)
Lemma set_timer_body (enc : bytes -> bytes -> bytes -> bytes) (g : config)
      (mac ip : string) (timer : atom) (active : bool)
      (mask time_ switch : string) (delta_time : option Z) (w : world) :
  is_mask mask = true ->
  (exists t, timer = AInt t /\ 0 <= t < 256) \/ timer = AStr "Countdown" ->
  exists built : result string,
    (forall body, built = Ok body -> command_body body)
    /\ set_timer enc g (mac, ip) timer active mask time_ switch delta_time w
       = match built with
         | Ok body => run_receipt enc g mac ip body w
         | Raise e => (Raise e, w)
         end.
Proof.
  intros Hmask Htimer.
  destruct (encode_repeat_byte active mask Hmask) as (v & Hv & Ev).
  unfold set_timer. unfold bind at 1. unfold lift at 1. rewrite Ev.
  unfold bind at 1. unfold lift at 1.
  destruct (parse_hh_mm time_) as [[hour minute] | e];
    [| exists (Raise e); split; [discriminate | reflexivity]].
  cbn [fst snd].
  assert (Hdelta : exists d, default_delta delta_time w = (Ok d, w)).
  { destruct delta_time as [d |]; cbn; [| eexists; reflexivity].
    destruct (d =? 0); eexists; reflexivity. }
  destruct Hdelta as [d Hd].
  destruct Htimer as [(t & -> & Ht) | ->].
  - destruct (t =? 11) eqn:E11.
    + cbn [atom_eqb orb]. rewrite E11. cbn [orb].
      unfold bind at 1. unfold bind at 1. unfold datetime_now at 1.
      unfold bind at 1. unfold lift at 1.
      destruct (datetime_add (now w) (3600 * hour + 60 * minute)) as [tm | e];
        [| exists (Raise e); split; [discriminate | reflexivity]].
      unfold ret at 1. set_timer_tail Hd d.
    + cbn [atom_eqb orb]. rewrite E11. cbn [orb].
      unfold bind at 1. unfold bind at 1. unfold lift at 1.
      destruct (datetime_1_1_2 hour minute) as [tm | e];
        [| exists (Raise e); split; [discriminate | reflexivity]].
      unfold ret at 1. set_timer_tail Hd d.
  - cbn [atom_eqb orb].
    change (String.eqb "Countdown" "Countdown") with true. cbn [orb].
    unfold bind at 1. unfold bind at 1. unfold datetime_now at 1.
    unfold bind at 1. unfold lift at 1.
    destruct (datetime_add (now w) (3600 * hour + 60 * minute)) as [tm | e];
      [| exists (Raise e); split; [discriminate | reflexivity]].
    unfold ret at 1. set_timer_tail Hd d.
Qed.

(** The other receipt-only commands hand over their template, filled in
    with the operands. *)
Lemma receipt_command_bodies
      (enc : bytes -> bytes -> bytes -> bytes)
      (strptime : string -> result Z) (timestamp : Z -> result Z)
      (g : config) (mac ip : string) (w : world) :
  switch enc g (mac, ip) "on" w
  = run_receipt enc g mac ip (CMD_SWITCH "00 00 FF FF") w
  /\ switch enc g (mac, ip) "off" w
     = run_receipt enc g mac ip (CMD_SWITCH "00 00 00 FF") w
  /\ (forall t,
         delete_timer enc g (mac, ip) (AInt t) w
         = run_receipt enc g mac ip (CMD_DELETE_TIMER t) w)
  /\ delete_timer enc g (mac, ip) (AStr "Countdown") w
     = run_receipt enc g mac ip (CMD_DELETE_TIMER 11) w
  /\ (forall active from_ to_ f t,
         parse_window strptime timestamp from_ to_ = Ok (f, t) ->
         set_absence_mode enc strptime timestamp g (mac, ip) active from_ to_ w
         = run_receipt enc g mac ip
                       (CMD_SET_AM (if active then "80" else "00") f t) w)
  /\ delete_absence_mode enc g (mac, ip) w
     = run_receipt enc g mac ip CMD_DELETE_AM w
  /\ heartbeat enc g (mac, ip) w
     = run_receipt enc g mac ip CMD_HEARTBEAT w.
Proof.
  unfold switch, delete_timer, set_absence_mode, delete_absence_mode,
    heartbeat, run_receipt, read_local, bind, lift, ret.
  repeat split.
  - cbn [String.eqb]. change (String.eqb "on" "on") with true. cbv iota.
    now destruct (assemble_command enc g mac (CMD_SWITCH "00 00 FF FF")).
  - change (String.eqb "off" "on") with false.
    change (String.eqb "off" "off") with true. cbv iota.
    now destruct (assemble_command enc g mac (CMD_SWITCH "00 00 00 FF")).
  - intros f t active from_ to_ H. rewrite H. reflexivity.
Qed.

(* ------------------------------------------------------------------ *)
(** ** Bounds and retries of [send] *)

(** The world after the send and the receive of a turn whose send goes
    through. *)
Lemma turn_world (g : config) (s n : nat) (c : bytes) (a : string * Z)
      (w : world) :
  match send_errors w with Some _ :: _ => False | _ => True end ->
  sent (snd (recv g s n (snd (sendto s c a w)))) = (sent w ++ [(c, a)])%list
  /\ slept (snd (recv g s n (snd (sendto s c a w)))) = slept w
  /\ send_errors (snd (recv g s n (snd (sendto s c a w))))
     = tl (send_errors w).
Proof.
  rewrite recv_world. unfold sendto.
  destruct (send_errors w) as [| [? |] ?]; [| contradiction |]; intros _;
    repeat split.
Qed.

(** One turn hands at most one datagram to the network and sleeps at most
    half a second. *)
Lemma send_attempt_effects (g : config) (s : nat) (c : bytes) (a : string * Z)
      (w : world) (r : result (flow reply)) (w1 : world) :
  send_attempt g s c a w = (r, w1) ->
  (sent w1 = sent w /\ slept w1 = slept w)
  \/ (sent w1 = (sent w ++ [(c, a)])%list
      /\ slept w <= slept w1 <= slept w + 500).
Proof.
  rewrite send_attempt_unfold.
  destruct (send_errors w) as [| [[| e] |] l] eqn:Es.
  2, 3: (intro H; injection H as _ <-; unfold sendto; rewrite Es; cbn;
         left; split; reflexivity).
  all: destruct (turn_world g s 1024 c a w) as (Hsent & Hslept & _);
    [rewrite Es; exact I |].
  all: destruct (inbox w) as [| [| d | ?] rest];
    try (destruct (bad_reply (firstn 1024 d)) as [[|] | ?]);
    try destruct (timeout g =? 0).
  all: intro H; injection H as _ <-.
  all: cbn [sleep close snd sent slept set_slept set_sockets].
  all: rewrite Hsent, Hslept; right; split; [reflexivity | lia].
Qed.

Lemma send_loop_effects (g : config) (s : nat) (c : bytes)
      (a : string * Z) (n : nat) :
  forall msg w,
  exists k,
    (k <= n)%nat
    /\ sent (snd (send_loop g n s c a msg w))
       = (sent w ++ List.repeat (c, a) k)%list
    /\ slept w <= slept (snd (send_loop g n s c a msg w))
       <= slept w + 500 * Z.of_nat k.
Proof.
  induction n as [| n IH]; intros msg w.
  - exists 0%nat. cbn [send_loop]. unfold bind, close, lift.
    destruct msg; cbn; rewrite app_nil_r; repeat split; lia.
  - cbn [send_loop]. unfold bind.
    destruct (send_attempt g s c a w) as [r w1] eqn:E.
    destruct (send_attempt_effects _ _ _ _ _ _ _ E)
      as [[Hsent Hslept] | [Hsent Hslept]].
    all: destruct r as [[m | r] | e]; cbv beta iota.
    all: try (destruct (IH (Some m) w1) as (k & Hk & Hs & Hz)).
    + exists k. rewrite Hs, Hsent. repeat split; lia.
    + exists 0%nat. cbn. rewrite Hsent, app_nil_r. repeat split; lia.
    + exists 0%nat. cbn. rewrite Hsent, app_nil_r. repeat split; lia.
    + exists (S k). rewrite Hs, Hsent, <- app_assoc.
      repeat split; [lia | lia | lia].
    + exists 1%nat. cbn. rewrite Hsent. repeat split; lia.
    + exists 1%nat. cbn. rewrite Hsent. repeat split; lia.
Qed.

(** X1.  Whatever the network does, a call of [send] hands at most
    [repeat] datagrams to the network, each of them the bytes of the command
    addressed to [(ip, udp_port)], and sleeps at most half a second per
    datagram sent. *)
Theorem send_within_budget (g : config) (ip command : string) (w : world) :
  exists k,
    (k <= Z.to_nat (repeat g))%nat
    /\ sent (snd (send g ip command w))
       = (sent w ++ List.repeat (datagram_of command, (ip, udp_port g)) k)%list
    /\ slept w <= slept (snd (send g ip command w))
       <= slept w + 500 * Z.of_nat k.
Proof.
  assert (Hw0 : forall r w0,
             create_socket g None false w = (r, w0) ->
             sent w0 = sent w /\ slept w0 = slept w).
  { intros r w0 Ec.
    replace w0 with (snd (create_socket g None false w)) by now rewrite Ec.
    rewrite create_socket_world. split; reflexivity. }
  remember (send g ip command w) as R eqn:HR.
  unfold send, datagram_of in *. unfold bind at 1 in HR.
  destruct (create_socket g None false w) as [[s | e] w0] eqn:Ec;
    destruct (Hw0 _ _ eq_refl) as [Hs0 Hz0].
  - unfold bind at 1 in HR. unfold lift in HR.
    destruct (fromhex command) as [b |]; cbn [of_option] in HR; subst R.
    + destruct (send_loop_effects g s b (ip, udp_port g)
                                  (Z.to_nat (repeat g)) None w0)
        as (k & Hk & Hs & Hz).
      exists k. rewrite Hs, Hs0. rewrite Hz0 in Hz. repeat split; lia.
    + exists 0%nat. cbn. rewrite Hs0, Hz0, app_nil_r. repeat split; lia.
  - subst R. exists 0%nat. cbn. rewrite Hs0, Hz0, app_nil_r.
    repeat split; lia.
Qed.

Lemma sends_pass_head (n : nat) (w : world) :
  sends_pass (S n) w ->
  match send_errors w with Some _ :: _ => False | _ => True end.
Proof.
  unfold sends_pass.
  destruct (send_errors w) as [| [e |] l]; try exact (fun _ => I).
  cbn. intro H. inversion H. discriminate.
Qed.

(** A turn that meets a timeout or a datagram failing the test ends by
    [continue]; only a failed datagram costs the half second. *)
Lemma send_attempt_refused (g : config) (s : nat) (c : bytes)
      (a : string * Z) (w : world)
      (o : recv_outcome) (l : list recv_outcome) :
  (o = RecvTimeout -> 0 < timeout g) ->
  match send_errors w with Some _ :: _ => False | _ => True end ->
  inbox w = o :: l ->
  refused o ->
  exists m w1,
    send_attempt g s c a w = (Ok (Continue m), w1)
    /\ sent w1 = (sent w ++ [(c, a)])%list
    /\ inbox w1 = l
    /\ send_errors w1 = tl (send_errors w)
    /\ open_sockets w1 = open_sockets w
    /\ slept w1 = slept w + (if is_datagram o then 500 else 0).
Proof.
  intros Ht Hs Hin Ho.
  destruct (turn_world g s 1024 c a w Hs) as (Hsent & Hslept & Herr).
  pose proof (inbox_after_turn g s 1024 c a w) as Hinb.
  pose proof (sockets_after_turn g s 1024 c a w) as Hsock.
  rewrite Hin in Hinb. cbn [tl] in Hinb.
  rewrite send_attempt_unfold, Hin.
  destruct Ho as [-> | (d & -> & Hbad)].
  - replace (timeout g =? 0) with false
      by (symmetry; apply Z.eqb_neq; specialize (Ht eq_refl); lia).
    destruct (send_errors w) as [| [? |] ?]; [| contradiction |];
      (do 2 eexists; split; [reflexivity |]);
      rewrite Hsent, Hinb, Herr, Hsock, Hslept; cbn [is_datagram];
      repeat split; lia.
  - rewrite Hbad.
    destruct (send_errors w) as [| [? |] ?]; [| contradiction |];
      (do 2 eexists; split; [reflexivity |]);
      cbn [sleep snd sent inbox send_errors open_sockets slept set_slept];
      rewrite Hsent, Hinb, Herr, Hsock, Hslept; cbn [is_datagram];
      repeat split; lia.
Qed.

Lemma send_loop_retries (g : config) (s : nat) (c : bytes) (a : string * Z)
      (d : bytes) (rest : list recv_outcome) :
  valid_reply (firstn 1024 d) ->
  forall pre n msg w,
    (In RecvTimeout pre -> 0 < timeout g) ->
    inbox w = (pre ++ RecvData d :: rest)%list ->
    Forall refused pre ->
    (List.length pre < n)%nat ->
    sends_pass (S (List.length pre)) w ->
    exists w',
      send_loop g n s c a msg w
      = (Ok (Success (slice_from (firstn 1024 d) 9)), w')
      /\ sent w' = (sent w ++ List.repeat (c, a) (S (List.length pre)))%list
      /\ inbox w' = rest
      /\ slept w'
         = slept w + 500 * Z.of_nat (List.length (filter is_datagram pre))
      /\ open_sockets w'
         = filter (fun h => negb (Nat.eqb h s)) (open_sockets w).
Proof.
  intros Hvalid. apply bad_reply_false_iff in Hvalid.
  induction pre as [| o pre IH]; intros n msg w Ht Hin Hpre Hn Hs.
  - destruct n as [| n]; [cbn in Hn; lia |].
    cbn [app] in Hin.
    pose proof (sends_pass_head _ _ Hs) as Hhead.
    destruct (turn_world g s 1024 c a w Hhead) as (Hsent & Hslept & _).
    pose proof (inbox_after_turn g s 1024 c a w) as Hinb.
    pose proof (sockets_after_turn g s 1024 c a w) as Hsock.
    rewrite Hin in Hinb. cbn [tl] in Hinb.
    cbn [send_loop]. unfold bind at 1.
    rewrite send_attempt_unfold, Hin, Hvalid.
    destruct (send_errors w) as [| [? |] ?]; [| contradiction |];
      (eexists; split; [reflexivity |]);
      cbn [close snd sent inbox open_sockets slept set_sockets];
      rewrite Hsent, Hinb, Hsock, Hslept; cbn;
      repeat split; lia.
  - destruct n as [| n]; [cbn in Hn; lia |].
    cbn [app] in Hin. inversion Hpre as [| ? ? Ho Hpre']; subst.
    destruct (send_attempt_refused g s c a w o _
                (fun Eo => Ht (or_introl Eo)) (sends_pass_head _ _ Hs)
                Hin Ho)
      as (m & w1 & E & S1 & I1 & X1 & O1 & Z1).
    destruct (IH n (Some m) w1) as (w' & E' & S' & I' & Z' & O');
      [exact (fun Hi => Ht (or_intror Hi)) | exact I1 | exact Hpre'
      | cbn in Hn; lia | |].
    { unfold sends_pass. rewrite X1. apply firstn_tl_Forall. exact Hs. }
    exists w'. cbn [send_loop]. unfold bind at 1. rewrite E.
    split; [exact E' |].
    rewrite S', S1, I', Z', Z1, O', O1, <- app_assoc.
    cbn [filter List.length List.repeat app].
    repeat split.
    destruct (is_datagram o); cbn [List.length]; lia.
Qed.

(** A timeout, or a datagram of at least two bytes that is not a valid
    reply, is what the test of [send] refuses. *)
Lemma no_reply_refused (o : recv_outcome) : no_reply o -> refused o.
Proof.
  intros [-> | (d & -> & Hlen & Hnot)]; [now left | right].
  exists d. split; [reflexivity |].
  destruct (bad_reply (firstn 1024 d)) as [[|] | e] eqn:E.
  - reflexivity.
  - exfalso. apply Hnot. now apply bad_reply_false_iff.
  - exfalso. revert E. unfold bad_reply, index.
    destruct (nth_error (firstn 1024 d) 1) eqn:En; [discriminate |].
    apply nth_error_None in En. rewrite length_firstn in En. lia.
Qed.

(** C2.  Take a turn of the loop of [send] whose send goes through and
    whose receive hands over the datagram [d] (cut to the buffer).  The turn
    accepts the reply, returning success, exactly when the byte at offset 1
    is 0x42 and the bytes from offset 9 on have a length that is a multiple
    of 16; the payload returned is then those bytes.  A reply with the
    right marker and a misaligned length is recorded as
    ['Bad return data'].  For the whole call: [send] never returns as its
    payload anything but the bytes from offset 9 on of a valid reply that
    it received; and on a host whose port binds and whose sends go through,
    a valid reply that arrives within the retry budget, after timeouts and
    datagrams that are not valid replies, is accepted: [send] returns
    success with its bytes from offset 9 on. *)
Theorem reply_accepted_iff (g : config) (s : nat) (c : bytes) (a : string * Z)
        (w : world) (d : bytes) :
  sends_pass 1 w ->
  hd_error (inbox w) = Some (RecvData d) ->
  ((exists p w', send_attempt g s c a w = (Ok (Return (Success p)), w'))
   <-> valid_reply (firstn 1024 d))
  /\ (forall p w',
         send_attempt g s c a w = (Ok (Return (Success p)), w') ->
         p = slice_from (firstn 1024 d) 9)
  /\ (nth_error (firstn 1024 d) 1 = Some x42 ->
      Nat.modulo (List.length (slice_from (firstn 1024 d) 9)) 16 <> 0%nat ->
      exists w',
        send_attempt g s c a w = (Ok (Continue (VStr "Bad return data")), w'))
  /\ (forall g' ip command w0 p w',
         send g' ip command w0 = (Ok (Success p), w') ->
         exists d',
           In (RecvData d') (inbox w0)
           /\ valid_reply (firstn 1024 d')
           /\ p = slice_from (firstn 1024 d') 9)
  /\ (forall g' ip command cmdb w0 pre d' rest,
         socket_error g' None w0 = None ->
         0 < timeout g' ->
         fromhex command = Some cmdb ->
         inbox w0 = (pre ++ RecvData d' :: rest)%list ->
         Forall no_reply pre ->
         (List.length pre < Z.to_nat (repeat g'))%nat ->
         sends_pass (S (List.length pre)) w0 ->
         valid_reply (firstn 1024 d') ->
         exists w',
           send g' ip command w0
           = (Ok (Success (slice_from (firstn 1024 d') 9)), w')).
Proof.
  intros Hs Hr.
  assert (Es : match send_errors w with Some _ :: _ => False | _ => True end).
  { unfold sends_pass in Hs. destruct (send_errors w) as [| [e |] ?];
      [exact I | | exact I]. cbn in Hs. inversion Hs. discriminate. }
  assert (Er : exists l, inbox w = RecvData d :: l).
  { destruct (inbox w) as [| x l]; [discriminate |].
    cbn in Hr. injection Hr as ->. now exists l. }
  destruct Er as [l Er].
  assert (E : send_attempt g s c a w
              = match bad_reply (firstn 1024 d) with
                | Raise e =>
                  (Raise e, snd (recv g s 1024 (snd (sendto s c a w))))
                | Ok true =>
                  (Ok (Continue (VStr "Bad return data")),
                   snd (sleep 500
                          (snd (recv g s 1024 (snd (sendto s c a w))))))
                | Ok false =>
                  (Ok (Return (Success (slice_from (firstn 1024 d) 9))),
                   snd (close s
                          (snd (recv g s 1024 (snd (sendto s c a w))))))
                end).
  { rewrite send_attempt_unfold, Er.
    destruct (send_errors w) as [| [e |] ?]; [reflexivity | contradiction |
                                              reflexivity]. }
  rewrite E. clear E.
  split; [| split; [| split; [| split]]].
  - split.
    + intros (p & w' & H). apply bad_reply_false_iff.
      destruct (bad_reply (firstn 1024 d)) as [[|] | ?];
        [discriminate | reflexivity | discriminate].
    + intro Hv. apply bad_reply_false_iff in Hv. rewrite Hv. eauto.
  - intros p w' H.
    destruct (bad_reply (firstn 1024 d)) as [[|] | ?]; try discriminate.
    now injection H as <- _.
  - intros Hm Hl. rewrite (bad_reply_misaligned _ Hm Hl). eauto.
  - intros g0 ip command w0 p w'. apply send_success.
  - intros g0 ip command cmdb w0 pre d' rest Hbind Ht Hcmd Hin Hpre Hn Hpass
           Hv.
    destruct (send_loop_retries g0 (next_socket w0) cmdb (ip, udp_port g0) d'
                rest Hv pre (Z.to_nat (repeat g0)) None
                (set_sockets (next_socket w0 :: open_sockets w0)
                             (S (next_socket w0)) w0) (fun _ => Ht))
      as (w' & E & _); try assumption.
    { eapply Forall_impl; [| exact Hpre]. exact no_reply_refused. }
    exists w'. unfold send, bind, create_socket, lift.
    rewrite Hbind, Hcmd. exact E.
Qed.

Lemma reply_accepted_iff_witness :
  valid_reply (firstn 1024 (reply_frame (state_payload xff)))
  /\ (exists p w',
         send_attempt defaults 0 sample_datagram ("192.168.0.15", 8530)
                      (with_inbox [RecvData (reply_frame (state_payload xff))])
         = (Ok (Return (Success p)), w'))
  /\ exists w',
      send defaults "192.168.0.15" sample_command
           (with_inbox [RecvTimeout; RecvData [x01; x43];
                        RecvData (reply_frame (state_payload xff))])
      = (Ok (Success (state_payload xff)), w').
Proof.
  destruct (reply_accepted_iff
              defaults 0 sample_datagram ("192.168.0.15", 8530)
              (with_inbox [RecvData (reply_frame (state_payload xff))])
              (reply_frame (state_payload xff)))
    as ([_ A] & _ & _ & _ & B); [constructor | reflexivity |].
  assert (V : valid_reply (firstn 1024 (reply_frame (state_payload xff))))
    by (split; reflexivity).
  split; [exact V |]. split; [exact (A V) |].
  apply (B defaults "192.168.0.15" sample_command sample_datagram
           (with_inbox [RecvTimeout; RecvData [x01; x43];
                        RecvData (reply_frame (state_payload xff))])
           [RecvTimeout; RecvData [x01; x43]]
           (reply_frame (state_payload xff)) []).
  - reflexivity.
  - reflexivity.
  - vm_compute. reflexivity.
  - reflexivity.
  - apply Forall_cons; [now left |].
    apply Forall_cons; [| constructor].
    right. exists [x01; x43]. split; [reflexivity |].
    split; [cbn; lia |].
    intros [Hm _]. discriminate Hm.
  - cbn. lia.
  - constructor.
  - exact V.
Defined.

(** X2.  On a host whose port binds and whose sends go through, when the
    turns of a call of [send] meet first [k < repeat] timeouts (of a socket
    whose timeout is positive) or datagrams that fail the test, and then a
    valid reply, the call returns the bytes of that reply from offset 9 on after
    exactly [k + 1] datagrams, having slept half a second for each failed
    datagram and none for a timeout; what remains of the network input is
    untouched and the socket is closed. *)
Theorem send_retries_until_valid (g : config) (ip command : string)
        (cmdb : bytes) (w : world) (pre : list recv_outcome) (d : bytes)
        (rest : list recv_outcome) :
  socket_error g None w = None ->
  (In RecvTimeout pre -> 0 < timeout g) ->
  fromhex command = Some cmdb ->
  inbox w = (pre ++ RecvData d :: rest)%list ->
  Forall refused pre ->
  valid_reply (firstn 1024 d) ->
  (List.length pre < Z.to_nat (repeat g))%nat ->
  sends_pass (S (List.length pre)) w ->
  exists w',
    send g ip command w = (Ok (Success (slice_from (firstn 1024 d) 9)), w')
    /\ sent w'
       = (sent w ++ List.repeat (cmdb, (ip, udp_port g))
                                (S (List.length pre)))%list
    /\ inbox w' = rest
    /\ slept w'
       = slept w + 500 * Z.of_nat (List.length (filter is_datagram pre))
    /\ ~ In (next_socket w) (open_sockets w').
Proof.
  intros Hbind Ht Hcmd Hin Hpre Hvalid Hn Hs.
  destruct (send_loop_retries g (next_socket w) cmdb (ip, udp_port g) d rest
              Hvalid pre (Z.to_nat (repeat g)) None
              (set_sockets (next_socket w :: open_sockets w)
                           (S (next_socket w)) w) Ht)
    as (w' & E & S' & I' & Z' & O'); try assumption.
  exists w'. split.
  - unfold send, bind, create_socket, lift. rewrite Hbind, Hcmd. exact E.
  - rewrite S', I', Z', O'. repeat split.
    intro H. apply filter_In in H. destruct H as [_ H].
    rewrite Nat.eqb_refl in H. discriminate.
Qed.

Lemma send_retries_until_valid_witness :
  exists w',
    send defaults "192.168.0.15" sample_command
         (with_inbox [RecvTimeout; RecvData [x01; x43];
                      RecvData (reply_frame (state_payload xff));
                      RecvData reply_1])
    = (Ok (Success (state_payload xff)), w')
    /\ List.length (sent w') = 3%nat
    /\ inbox w' = [RecvData reply_1]
    /\ slept w' = 500.
Proof.
  destruct (send_retries_until_valid
              defaults "192.168.0.15" sample_command sample_datagram
              (with_inbox [RecvTimeout; RecvData [x01; x43];
                           RecvData (reply_frame (state_payload xff));
                           RecvData reply_1])
              [RecvTimeout; RecvData [x01; x43]]
              (reply_frame (state_payload xff)) [RecvData reply_1])
    as (w' & E & S' & I' & Z' & _).
  - reflexivity.
  - reflexivity.
  - vm_compute. reflexivity.
  - reflexivity.
  - apply Forall_cons; [now left |].
    apply Forall_cons; [right; eexists; split; reflexivity |].
    apply Forall_nil.
  - split; reflexivity.
  - cbn. lia.
  - constructor.
  - exists w'. split; [exact E |]. rewrite S', I', Z'.
    repeat split.
Defined.

(* ------------------------------------------------------------------ *)
(** ** Returns of [find_sockets] *)

(** The receive loop of [find_sockets] only consumes network input. *)
Lemma find_loop_world (dec : bytes -> bytes -> bytes -> bytes)
      (g : config) (pending : list recv_outcome) :
  forall socket_data w,
    sent (snd (find_loop dec g pending socket_data w)) = sent w
    /\ open_sockets (snd (find_loop dec g pending socket_data w))
       = open_sockets w.
Proof.
  induction pending as [| o pending IH]; intros socket_data w.
  - cbn [find_loop]. destruct (timeout g =? 0); split; reflexivity.
  - cbn [find_loop].
    destruct o as [| d | e]; try (split; reflexivity);
      [destruct (timeout g =? 0); split; reflexivity |].
    destruct (decode_found dec (firstn 1024 d)) as [[i |] | e];
      try (split; reflexivity).
    + destruct (IH (socket_data ++ [i])%list (set_inbox pending w)) as [-> ->].
      split; reflexivity.
    + destruct (IH socket_data (set_inbox pending w)) as [-> ->].
      split; reflexivity.
Qed.

Lemma decode_found_socket (dec : bytes -> bytes -> bytes -> bytes)
      (message : bytes) (i : item) :
  decode_found dec message = Ok (Some i) ->
  exists mac_ ip_, i = ISocket mac_ ip_.
Proof.
  unfold decode_found.
  destruct (bad_reply message) as [[|] | ?]; cbn [rbind]; try discriminate.
  destruct (decrypt dec (slice_from message 9)) as [p |]; cbn [rbind];
    [| discriminate].
  repeat match goal with
         | |- context [index ?m ?k] =>
           destruct (index m k); cbn [rbind]; [| discriminate]
         end.
  intro H. injection H as <-. eauto.
Qed.

Lemma find_loop_sockets (dec : bytes -> bytes -> bytes -> bytes)
      (g : config) (pending : list recv_outcome) :
  forall socket_data w l w2,
    Forall (fun i => exists mac_ ip_, i = ISocket mac_ ip_) socket_data ->
    find_loop dec g pending socket_data w = (Ok l, w2) ->
    Forall (fun i => exists mac_ ip_, i = ISocket mac_ ip_) l.
Proof.
  induction pending as [| o pending IH]; intros socket_data w l w2 Hacc.
  - cbn [find_loop]. destruct (timeout g =? 0); [discriminate |].
    intro H. now injection H as <- _.
  - cbn [find_loop]. destruct o as [| d | e]; try discriminate.
    + destruct (timeout g =? 0); [discriminate |].
      intro H. now injection H as <- _.
    + destruct (decode_found dec (firstn 1024 d)) as [[i |] | e] eqn:Ed;
        try discriminate.
      * apply IH. apply Forall_app. split; [exact Hacc |].
        constructor; [| constructor].
        exact (decode_found_socket _ _ _ Ed).
      * apply IH. exact Hacc.
Qed.

(** X3.  Whenever [find_sockets] returns, the socket it opened is closed
    and exactly one datagram, the search frame, has gone to
    [(ip, udp_port)]; the value returned is a list when both arguments are
    the wildcards and a single entry otherwise. *)
Theorem find_sockets_return
        (enc dec : bytes -> bytes -> bytes -> bytes) (g : config)
        (mac ip : string) (w : world) (v : value) (w' : world) :
  find_sockets enc dec g mac ip w = (Ok v, w') ->
  ~ In (next_socket w) (open_sockets w')
  /\ (exists cmd,
         assemble_command enc g mac (CMD_SEARCH mac) = Ok cmd
         /\ sent w' = (sent w ++ [(datagram_of cmd, (ip, udp_port g))])%list)
  /\ (unfiltered mac ip -> exists l, v = VList l)
  /\ (~ unfiltered mac ip -> exists mac_ ip_, v = VItem (ISocket mac_ ip_)).
Proof.
  unfold find_sockets. unfold bind at 1. unfold create_socket.
  destruct (socket_error g None w); [discriminate |].
  unfold bind at 1. unfold lift at 1.
  destruct (assemble_command enc g mac (CMD_SEARCH mac)) as [cmd |];
    [| discriminate].
  unfold bind at 1. unfold lift at 1.
  destruct (fromhex cmd) as [cmdb |] eqn:Ehex; cbn [of_option];
    [| discriminate].
  set (w0 := set_sockets _ _ w).
  unfold bind at 1.
  destruct (sendto (next_socket w) cmdb (ip, udp_port g) w0)
    as [[[] | e] w1] eqn:Esend; [| discriminate].
  assert (Hw1 : sent w1 = (sent w ++ [(cmdb, (ip, udp_port g))])%list).
  { unfold sendto in Esend. cbn [send_errors w0 set_sockets] in Esend.
    destruct (send_errors w) as [| [[| ?] |] ?]; try discriminate;
      injection Esend as <-; reflexivity. }
  unfold bind at 1.
  destruct (find_loop dec g (inbox w1) [] w1) as [[socket_data | e] w2] eqn:El;
    [| discriminate].
  assert (Hw2 : sent w2 = sent w1).
  { replace w2 with (snd (find_loop dec g (inbox w1) [] w1)) by now rewrite El.
    apply find_loop_world. }
  unfold bind at 1.
  change (close (next_socket w) w2)
    with (Ok tt, snd (close (next_socket w) w2)).
  cbv beta iota.
  intro H.
  assert (Hw' : w' = snd (close (next_socket w) w2)).
  { destruct (negb (String.eqb mac "FF FF FF FF FF FF")
              || negb (String.eqb ip "255.255.255.255"));
      [destruct socket_data; [discriminate |] |];
      injection H as _ <-; reflexivity. }
  split; [rewrite Hw'; apply close_closes |].
  split.
  { exists cmd. split; [reflexivity |].
    unfold datagram_of. rewrite Ehex, Hw'.
    cbn [close snd sent set_sockets]. now rewrite Hw2, Hw1. }
  assert (Hall : Forall (fun i => exists mac_ ip_, i = ISocket mac_ ip_)
                        socket_data).
  { apply (find_loop_sockets dec g (inbox w1) [] w1 socket_data w2);
      [constructor | exact El]. }
  split.
  - intros [-> ->]. cbn in H. injection H as <- _. eauto.
  - intro Hf.
    assert (Hfilter : negb (String.eqb mac "FF FF FF FF FF FF")
                      || negb (String.eqb ip "255.255.255.255") = true).
    { destruct (String.eqb mac "FF FF FF FF FF FF") eqn:Em;
        destruct (String.eqb ip "255.255.255.255") eqn:Ei; try reflexivity.
      apply String.eqb_eq in Em. apply String.eqb_eq in Ei.
      exfalso. apply Hf. now split. }
    rewrite Hfilter in H.
    destruct socket_data as [| i ?]; [discriminate |].
    injection H as <- _. inversion Hall as [| ? ? (a & b & ->) _]; subst.
    eauto.
Qed.

Lemma find_sockets_return_witness :
  exists w',
    find_sockets plain_cbc plain_cbc defaults "AC CF 23 00 00 02"
                 "255.255.255.255" (with_inbox [RecvData reply_2])
    = (Ok (VItem (ISocket "accf23000002" "192.168.0.16")), w')
    /\ ~ In 0%nat (open_sockets w').
Proof.
  eexists. split; [vm_compute; reflexivity |].
  refine (proj1 (find_sockets_return
                   plain_cbc plain_cbc defaults "AC CF 23 00 00 02"
                   "255.255.255.255" (with_inbox [RecvData reply_2]) _ _ _)).
  vm_compute. reflexivity.
Defined.

(* ------------------------------------------------------------------ *)
(** ** What [assemble_command] accepts *)

(** The frame of any body that completes the blocks. *)
Lemma assemble_command_bytes
      (enc : bytes -> bytes -> bytes -> bytes) (g : config)
      (mac body : string) (macb packetb deviceb bodyb : bytes) :
  (forall key iv data, List.length (enc key iv data) = List.length data) ->
  fromhex mac = Some macb ->
  fromhex (packet g) = Some packetb ->
  fromhex (device g) = Some deviceb ->
  fromhex body = Some bodyb ->
  Nat.modulo (List.length (plaintext_block packetb deviceb bodyb)) 16 = 0%nat ->
  (List.length (plaintext_block packetb deviceb bodyb) < 256)%nat ->
  exists len cmd,
    assemble_command enc g mac body = Ok cmd
    /\ byte_val len
       = Z.of_nat (List.length (plaintext_block packetb deviceb bodyb))
    /\ fromhex cmd
       = Some ([x01; x40] ++ macb ++ [len]
               ++ enc PASSKEY INITIALIZATION_VECTOR
                      (plaintext_block packetb deviceb bodyb))%list.
Proof.
  intros Henc Hm Hp Hd Hb Hmod Hlen.
  pose proof (header_body_bytes g body _ _ _ Hp Hd Hb) as Hplain.
  set (plain := plaintext_block packetb deviceb bodyb) in *.
  destruct (byte_of_Z_some (Z.of_nat (List.length plain))) as [len Hbyte];
    [lia |].
  exists len. eexists.
  unfold assemble_command. rewrite Hplain. cbn [of_option rbind].
  unfold encrypt. rewrite Hmod. cbn [Nat.eqb rbind].
  unfold to_bytes_1. rewrite Henc, Hbyte. cbn [rbind].
  split; [reflexivity |]. split; [apply byte_of_Z_val; exact Hbyte |].
  unfold CMD_INIT.
  assert (Hinit : fromhex ("01 40 " ++ mac ++ " ")
                  = Some ([x01; x40] ++ macb ++ [])%list).
  { eapply fromhex_app_some; [lazy; reflexivity |].
    eapply fromhex_app_some; [exact Hm | lazy; reflexivity]. }
  rewrite <- hex_app.
  rewrite (fromhex_app_some _ _ _ _ Hinit (fromhex_hex _)).
  f_equal. rewrite app_nil_r, <- !app_assoc. reflexivity.
Qed.

(** X5.  [assemble_command] adds no padding of its own.  When the constant
    0x00, the packet sequence, the device code and the body do not make a
    whole number of 16-byte blocks, the cipher refuses the data and the call
    raises [ValueError]; when they do but the encrypted block is longer than
    255 bytes, the length byte cannot be written and the call raises
    [OverflowError]. *)
Theorem assemble_command_refuses
        (enc : bytes -> bytes -> bytes -> bytes) (g : config)
        (mac body : string) (packetb deviceb bodyb : bytes) :
  fromhex (packet g) = Some packetb ->
  fromhex (device g) = Some deviceb ->
  fromhex body = Some bodyb ->
  (Nat.modulo (List.length (plaintext_block packetb deviceb bodyb)) 16
   <> 0%nat ->
   assemble_command enc g mac body = Raise ValueError)
  /\ (Nat.modulo (List.length (plaintext_block packetb deviceb bodyb)) 16
      = 0%nat ->
      (255 < List.length (enc PASSKEY INITIALIZATION_VECTOR
                              (plaintext_block packetb deviceb bodyb)))%nat ->
      assemble_command enc g mac body = Raise OverflowError).
Proof.
  intros Hp Hd Hb.
  pose proof (header_body_bytes g body _ _ _ Hp Hd Hb) as Hplain.
  unfold assemble_command. rewrite Hplain. cbn [of_option rbind].
  unfold encrypt. split.
  - intro Hmod. apply Nat.eqb_neq in Hmod. rewrite Hmod. reflexivity.
  - intros Hmod Hlen. rewrite Hmod. cbn [Nat.eqb rbind].
    unfold to_bytes_1, byte_of_Z.
    destruct (Z.of_nat _ <? 0) eqn:E; [apply Z.ltb_lt in E; lia |].
    destruct (Byte.of_N _) as [b |] eqn:Eb; [| reflexivity].
    apply Byte.to_of_N in Eb. pose proof (Byte.to_N_bounded b). lia.
Qed.

Lemma assemble_command_refuses_witness :
  assemble_command plain_cbc defaults "AC CF 23 00 00 01" "01 00 00 FF FF"
  = Raise ValueError.
Proof.
  refine (proj1 (assemble_command_refuses
                   plain_cbc defaults "AC CF 23 00 00 01" "01 00 00 FF FF"
                   [xff; xff] [xc1; x11; x71; x50]
                   [x01; x00; x00; xff; xff] _ _ _) _);
    try reflexivity.
  cbn. discriminate.
Defined.

(* ------------------------------------------------------------------ *)
(** ** The slave switch *)

(** X6.  For ['on'] or ['off'] and a 3-byte slave number, [switch_slave]
    goes on as a receipt-only command whose frame carries one 16-byte block:
    the header, the opcode 0x08, the slave number, the code 0x60 for on or
    0x70 for off, and four bytes 0x04. *)
Theorem switch_slave_frame
        (enc : bytes -> bytes -> bytes -> bytes) (g : config)
        (mac ip slave : string) (on : bool)
        (macb packetb deviceb slaveb : bytes) (w : world) :
  (forall key iv data, List.length (enc key iv data) = List.length data) ->
  hex_bytes 6 mac macb ->
  hex_bytes 2 (packet g) packetb ->
  hex_bytes 4 (device g) deviceb ->
  hex_bytes 3 slave slaveb ->
  exists len cmd,
    switch_slave enc g (mac, ip) slave (if on then "on" else "off") w
    = (r <- send g ip cmd ;; ret (receipt r)) w
    /\ byte_val len = 16
    /\ fromhex cmd
       = Some ([x01; x40] ++ macb ++ [len]
               ++ enc PASSKEY INITIALIZATION_VECTOR
                      (plaintext_block packetb deviceb
                         ([x08] ++ slaveb
                          ++ [if on then x60 else x70; x04; x04; x04; x04])))%list.
Proof.
  intros Henc [Hm Lm] [Hp Lp] [Hd Ld] [Hs Ls].
  assert (Hbody : fromhex (CMD_SWITCH_SLAVE slave (if on then "60" else "70"))
                  = Some ([x08] ++ slaveb
                          ++ [if on then x60 else x70; x04; x04; x04; x04])%list).
  { unfold CMD_SWITCH_SLAVE.
    eapply fromhex_app_some; [lazy; reflexivity |].
    eapply fromhex_app_some; [exact Hs |].
    destruct on; lazy; reflexivity. }
  destruct (assemble_command_bytes enc g mac _ macb packetb deviceb _
              Henc Hm Hp Hd Hbody) as (len & cmd & E & Hlen & Hcmd).
  { unfold plaintext_block. rewrite !length_app, Lp, Ld, Ls. reflexivity. }
  { unfold plaintext_block. rewrite !length_app, Lp, Ld, Ls. cbn. lia. }
  exists len, cmd. split; [| split; [| exact Hcmd]].
  - unfold switch_slave, bind, lift, ret.
    destruct on;
      [change (String.eqb "on" "on") with true
      | change (String.eqb "off" "on") with false;
        change (String.eqb "off" "off") with true];
      cbv iota; rewrite E; reflexivity.
  - rewrite Hlen. unfold plaintext_block.
    rewrite !length_app, Lp, Ld, Ls. reflexivity.
Qed.

Lemma switch_slave_frame_witness :
  exists w',
    switch_slave plain_cbc defaults sample_socket "78fb12" "on"
                 (with_inbox [RecvData (reply_frame (state_payload x00))])
    = (Ok (VBool true), w')
    /\ option_map (@List.length byte)
         (option_map fst (nth_error (sent w') 0))
       = Some 25%nat.
Proof.
  destruct (switch_slave_frame plain_cbc defaults "AC CF 23 00 00 01"
              "192.168.0.15" "78fb12" true
              [xac; xcf; x23; x00; x00; x01] [xff; xff]
              [xc1; x11; x71; x50] [x78; xfb; x12]
              (with_inbox [RecvData (reply_frame (state_payload x00))]))
    as (len & cmd & E & _ & _).
  - reflexivity.
  - split; reflexivity.
  - split; reflexivity.
  - split; reflexivity.
  - split; reflexivity.
  - eexists. split; [vm_compute; reflexivity | vm_compute; reflexivity].
Defined.

(* ------------------------------------------------------------------ *)
(** ** Timers: what is written and what is read *)

Lemma default_delta_effective (delta_time : option Z) (w : world) :
  default_delta delta_time w = (Ok (effective_delta delta_time w), w).
Proof.
  unfold default_delta, effective_delta.
  destruct delta_time as [d |]; [| reflexivity].
  destruct (d =? 0); reflexivity.
Qed.

(** The bytes of a record, read one by one. *)
Lemma slot_record_bytes (m : bytes) (n : nat)
      (number packed hour minute : byte) (pattern : bytes) :
  slot_record m n number packed hour minute pattern ->
  index m n = Ok (byte_val number)
  /\ index m (n + 1) = Ok (byte_val packed)
  /\ index m (n + 2) = Ok (byte_val hour)
  /\ index m (n + 3) = Ok (byte_val minute)
  /\ slice m (n + 4) (n + 8) = pattern.
Proof.
  unfold slot_record, index, slice. intro H.
  assert (Hnth : forall i, (i < 8)%nat ->
                   nth_error m (n + i)
                   = nth_error ([number; packed; hour; minute] ++ pattern) i).
  { intros i Hi. rewrite <- H, nth_error_firstn, nth_error_skipn.
    destruct (Nat.ltb_spec i 8); [reflexivity | lia]. }
  rewrite <- (Nat.add_0_r n) at 1.
  rewrite !Hnth by lia. cbn [nth_error app].
  repeat split.
  replace (n + 8 - (n + 4))%nat with 4%nat by lia.
  replace (n + 4)%nat with (4 + n)%nat by lia.
  rewrite <- skipn_skipn.
  change 4%nat with (8 - 4)%nat at 1.
  rewrite <- skipn_firstn_comm, H. reflexivity.
Qed.

Lemma stored_time_clock (h mi : Z) :
  0 <= h < 24 -> 0 <= mi < 60 -> stored_time h mi = Ok (h, mi).
Proof.
  intros Hh Hm.
  assert (H : forallb
                (fun a =>
                   forallb
                     (fun b =>
                        match stored_time (Z.of_nat a) (Z.of_nat b) with
                        | Ok (x, y) => (x =? Z.of_nat a) && (y =? Z.of_nat b)
                        | Raise _ => false
                        end) (seq 0 60)) (seq 0 24) = true)
    by (vm_compute; reflexivity).
  rewrite forallb_forall in H.
  specialize (H (Z.to_nat h)). rewrite forallb_forall in H.
  specialize (H ltac:(apply in_seq; lia) (Z.to_nat mi) ltac:(apply in_seq; lia)).
  rewrite !Z2Nat.id in H by lia.
  destruct (stored_time h mi) as [[x y] |]; [| discriminate].
  apply andb_true_iff in H. destruct H as [Hx Hy].
  apply Z.eqb_eq in Hx. apply Z.eqb_eq in Hy. now subst.
Qed.


Lemma byte_val_range (b : byte) : 0 <= byte_val b < 256.
Proof.
  unfold byte_val. pose proof (Byte.to_N_bounded b). lia.
Qed.

Lemma datetime_1_1_2_clock (h mi : Z) :
  0 <= h < 24 -> 0 <= mi < 60 ->
  datetime_1_1_2 h mi = Ok (86400 + 3600 * h + 60 * mi).
Proof.
  intros Hh Hm. unfold datetime_1_1_2.
  replace (0 <=? h) with true by (symmetry; apply Z.leb_le; lia).
  replace (h <? 24) with true by (symmetry; apply Z.ltb_lt; lia).
  replace (0 <=? mi) with true by (symmetry; apply Z.leb_le; lia).
  replace (mi <? 60) with true by (symmetry; apply Z.ltb_lt; lia).
  reflexivity.
Qed.

Lemma datetime_add_ok (t d : Z) :
  0 <= t + d < datetime_end -> datetime_add t d = Ok (t + d).
Proof.
  intro H. unfold datetime_add. cbv zeta.
  replace (0 <=? t + d) with true by (symmetry; apply Z.leb_le; lia).
  replace (t + d <? datetime_end) with true by (symmetry; apply Z.ltb_lt; lia).
  reflexivity.
Qed.

(** The time that [timer_query] computes for a regular slot. *)
Lemma stored_clock (hour minute : byte) (d : Z) :
  clock_bytes hour minute d ->
  (byte_val hour =? 255) = false
  /\ stored_time (byte_val hour) (byte_val minute)
     = Ok (byte_val hour, byte_val minute)
  /\ datetime_1_1_2 (byte_val hour) (byte_val minute)
     = Ok (86400 + 3600 * byte_val hour + 60 * byte_val minute)
  /\ datetime_add (86400 + 3600 * byte_val hour + 60 * byte_val minute) (- d)
     = Ok (86400 + 3600 * byte_val hour + 60 * byte_val minute - d).
Proof.
  intros (Hh & Hm & Ht).
  pose proof (byte_val_range hour). pose proof (byte_val_range minute).
  split; [apply Z.eqb_neq; lia |].
  split; [apply stored_time_clock; lia |].
  split; [apply datetime_1_1_2_clock; lia |].
  rewrite datetime_add_ok by lia. reflexivity.
Qed.

(** A query for the regular slot [k] goes past the records of the other
    slots without touching its result. *)
Lemma timer_loop_passes (m : bytes) (d k : Z) (n : nat) (rest : list nat)
      (data : list item) (w : world) :
  passed_over m d k n ->
  timer_loop (n :: rest) m (AInt k) d data w
  = timer_loop rest m (AInt k) d data w.
Proof.
  intros (Hn & number & packed & hour & minute & pattern & Hrec & Hk & Htime).
  destruct (slot_record_bytes _ _ _ _ _ _ _ Hrec) as (H0 & H1 & H2 & H3 & _).
  cbn [timer_loop]. apply Nat.ltb_lt in Hn. rewrite Hn.
  unfold bind, lift, ret. rewrite H0, H1, H2.
  apply Z.eqb_neq in Hk. rewrite Z.eqb_sym in Hk.
  destruct Htime as [H255 | Hclock].
  - rewrite H255. cbn [Z.eqb Pos.eqb atom_eqb orb andb].
    rewrite Hk. reflexivity.
  - destruct (stored_clock _ _ _ Hclock) as (E255 & Est & Edt & Eadd).
    rewrite E255, H3, Est. cbn [fst snd]. rewrite Edt, Eadd.
    cbn [atom_eqb orb andb]. rewrite Hk. reflexivity.
Qed.

Lemma timer_loop_passes_all (m : bytes) (d k : Z) (rest : list nat)
      (data : list item) (w : world) (pre : list nat) :
  Forall (passed_over m d k) pre ->
  timer_loop (pre ++ rest) m (AInt k) d data w
  = timer_loop rest m (AInt k) d data w.
Proof.
  induction 1 as [| n pre Hn _ IH]; [reflexivity |].
  cbn [app]. rewrite timer_loop_passes by exact Hn. exact IH.
Qed.

(** The record of the slot asked for ends the loop with its decoding. *)
Lemma timer_loop_hits (m : bytes) (d : Z) (n : nat) (rest : list nat)
      (w : world) (number packed hour minute : byte) (pattern : bytes) :
  (n < 80)%nat ->
  slot_record m n number packed hour minute pattern ->
  clock_bytes hour minute d ->
  timer_loop (n :: rest) m (AInt (byte_val number)) d [] w
  = (Ok (VItem (ITimer
                  (mkTimer (AInt (byte_val number))
                           (Some (decode_active (byte_val packed)))
                           (decode_repeat (byte_val packed))
                           (clock_text (86400 + 3600 * byte_val hour
                                        + 60 * byte_val minute - d))
                           (switch_text pattern)))), w).
Proof.
  intros Hn Hrec Hclock.
  destruct (slot_record_bytes _ _ _ _ _ _ _ Hrec) as (H0 & H1 & H2 & H3 & H4).
  cbn [timer_loop]. apply Nat.ltb_lt in Hn. rewrite Hn.
  unfold bind, lift, ret. rewrite H0, H1, H2.
  destruct (stored_clock _ _ _ Hclock) as (E255 & Est & Edt & Eadd).
  rewrite E255, H3, Est. cbn [fst snd]. rewrite Edt, Eadd, H4.
  cbn [atom_eqb orb andb]. rewrite Z.eqb_refl. cbn [orb app].
  reflexivity.
Qed.

(** An empty slot, marked by the hour 255, decodes to [Timer(number,
    None)]. *)
Lemma timer_loop_hits_empty (m : bytes) (d : Z) (n : nat) (rest : list nat)
      (w : world) (number packed hour minute : byte) (pattern : bytes) :
  (n < 80)%nat ->
  slot_record m n number packed hour minute pattern ->
  byte_val hour = 255 ->
  timer_loop (n :: rest) m (AInt (byte_val number)) d [] w
  = (Ok (VItem (ITimer (mkTimer (AInt (byte_val number)) None EmptyString
                                EmptyString EmptyString))), w).
Proof.
  intros Hn Hrec H255.
  destruct (slot_record_bytes _ _ _ _ _ _ _ Hrec) as (H0 & H1 & H2 & H3 & H4).
  cbn [timer_loop]. apply Nat.ltb_lt in Hn. rewrite Hn.
  unfold bind, lift, ret. rewrite H0, H1, H2, H255.
  cbn [Z.eqb Pos.eqb atom_eqb orb andb]. rewrite Z.eqb_refl. cbn [orb app].
  reflexivity.
Qed.

Lemma clock_round_trip (h mi d : Z) :
  0 <= h < 24 -> 0 <= mi < 60 -> d mod 60 = 0 -> -86400 <= d <= 86400 ->
  dt_hour (86400 + 3600 * dt_hour (86400 + 3600 * h + 60 * mi + d)
           + 60 * dt_minute (86400 + 3600 * h + 60 * mi + d) - d) = h
  /\ dt_minute (86400 + 3600 * dt_hour (86400 + 3600 * h + 60 * mi + d)
                + 60 * dt_minute (86400 + 3600 * h + 60 * mi + d) - d) = mi.
Proof.
  intros Hh Hm Hd Hr.
  apply Z.mod_divide in Hd; [| lia]. destruct Hd as [z ->].
  assert (Hdiv : forall U, U * 60 / 3600 = U / 60 /\ U * 60 / 60 = U).
  { intro U. split; [| apply Z.div_mul; lia].
    replace 3600 with (60 * 60) by reflexivity.
    rewrite <- Z.div_div by lia. now rewrite Z.div_mul by lia. }
  unfold dt_hour, dt_minute.
  set (Q := 1440 + 60 * h + mi + z).
  replace (86400 + 3600 * h + 60 * mi + z * 60) with (Q * 60)
    by (unfold Q; lia).
  destruct (Hdiv Q) as [-> ->].
  pose proof (Z.div_mod Q 60 ltac:(lia)) as HQ.
  pose proof (Z.mod_pos_bound Q 60 ltac:(lia)) as HM.
  pose proof (Z.div_mod (Q / 60) 24 ltac:(lia)) as HA.
  pose proof (Z.mod_pos_bound (Q / 60) 24 ltac:(lia)) as HH.
  set (A := Q / 60) in *. set (M := Q mod 60) in *.
  set (a := A / 24) in *. set (H := A mod 24) in *.
  replace (86400 + 3600 * H + 60 * M - z * 60)
    with (((24 * (2 - a) + h) * 60 + mi) * 60) by (unfold Q in *; lia).
  destruct (Hdiv ((24 * (2 - a) + h) * 60 + mi)) as [-> ->].
  assert (E : ((24 * (2 - a) + h) * 60 + mi) / 60 = 24 * (2 - a) + h).
  { symmetry. apply (Z.div_unique _ 60 _ mi); lia. }
  rewrite E. split; symmetry.
  - apply (Z.mod_unique _ 24 (2 - a)); lia.
  - apply (Z.mod_unique _ 60 (24 * (2 - a) + h)); lia.
Qed.

Lemma timer_offsets_split (i : nat) :
  (i < 11)%nat ->
  timer_offsets
  = (map (fun j => (8 * j)%nat) (seq 0 i)
     ++ (8 * i)%nat :: map (fun j => (8 * j)%nat) (seq (S i) (10 - i)))%list.
Proof.
  intro Hi. unfold timer_offsets.
  replace 11%nat with (i + S (10 - i))%nat by lia.
  rewrite seq_app, map_app. reflexivity.
Qed.

(** X7.  When the transport succeeds and, in the decrypted payload from
    offset 9 on, the records before the one numbered [k] belong to other
    slots and are empty or hold a clock time, [timer_query] asked for slot
    [k] returns that record alone: for the hour 255 the empty
    [Timer(k, None)], otherwise the active flag from the top bit, the
    Monday-first mask, the stored time minus the adjustment and ['on'] for
    the pattern [00 00 ff ff], ['off'] for any other. *)
Theorem timer_query_slot
        (enc dec : bytes -> bytes -> bytes -> bytes) (g : config)
        (mac ip cmd : string) (delta_time : option Z) (w : world)
        (p : bytes) (w1 : world) (i : nat)
        (number packed hour minute : byte) (pattern : bytes) :
  assemble_command enc g mac CMD_TIMER_QUERY = Ok cmd ->
  send g ip cmd w = (Ok (Success p), w1) ->
  (i < 10)%nat ->
  (forall j, (j < i)%nat ->
             passed_over (slice_from (dec PASSKEY INITIALIZATION_VECTOR p) 9)
                         (effective_delta delta_time w1) (byte_val number)
                         (8 * j)) ->
  slot_record (slice_from (dec PASSKEY INITIALIZATION_VECTOR p) 9) (8 * i)
              number packed hour minute pattern ->
  byte_val hour = 255 \/ clock_bytes hour minute (effective_delta delta_time w1) ->
  timer_query enc dec g (mac, ip) (AInt (byte_val number)) delta_time w
  = (Ok (VItem (ITimer
       (if byte_val hour =? 255
        then mkTimer (AInt (byte_val number)) None EmptyString EmptyString
                     EmptyString
        else mkTimer (AInt (byte_val number))
                     (Some (decode_active (byte_val packed)))
                     (decode_repeat (byte_val packed))
                     (clock_text (86400 + 3600 * byte_val hour
                                  + 60 * byte_val minute
                                  - effective_delta delta_time w1))
                     (switch_text pattern)))), w1).
Proof.
  intros Hcmd Hsend Hi Hpre Hrec Htime.
  destruct (send_success _ _ _ _ _ _ Hsend) as (d0 & _ & Hv & Hp).
  unfold timer_query, bind, lift. rewrite Hcmd, Hsend.
  unfold decrypt. rewrite Hp at 1. rewrite (valid_reply_aligned _ Hv).
  cbn [Nat.eqb]. rewrite default_delta_effective.
  rewrite (timer_offsets_split i) by lia.
  rewrite timer_loop_passes_all.
  - destruct Htime as [H255 | Hclock].
    + rewrite H255. cbn [Z.eqb Pos.eqb].
      apply (timer_loop_hits_empty _ _ _ _ _ _ packed hour minute pattern);
        [lia | exact Hrec | exact H255].
    + replace (byte_val hour =? 255) with false
        by (symmetry; apply (stored_clock _ _ _ Hclock)).
      apply timer_loop_hits; [lia | exact Hrec | exact Hclock].
  - apply Forall_forall. intros n Hn. apply in_map_iff in Hn.
    destruct Hn as (j & <- & Hj). apply in_seq in Hj. apply Hpre. lia.
Qed.

(** A value below 256 printed by [:02x] is the hex text of one byte. *)
Lemma format_02x_hex (v : Z) :
  0 <= v < 256 ->
  exists b, byte_val b = v /\ format_int 16 2 v = hex [b].
Proof.
  intro Hv.
  assert (H : forallb
                (fun n =>
                   match byte_of_Z (Z.of_nat n) with
                   | Some b =>
                     (byte_val b =? Z.of_nat n)
                     && String.eqb (format_int 16 2 (Z.of_nat n)) (hex [b])
                   | None => false
                   end) (seq 0 256) = true)
    by (vm_compute; reflexivity).
  rewrite forallb_forall in H.
  specialize (H (Z.to_nat v) ltac:(apply in_seq; lia)).
  rewrite Z2Nat.id in H by lia.
  destruct (byte_of_Z v) as [b |]; [| discriminate].
  apply andb_true_iff in H. destruct H as [H1 H2].
  apply Z.eqb_eq in H1. apply String.eqb_eq in H2. now exists b.
Qed.

(** The packed byte of [set_timer] read back by [timer_query]. *)
Lemma packed_value (active : bool) (mask : string) :
  is_mask mask = true ->
  exists v,
    0 <= v < 256
    /\ encode_repeat active mask = Ok (format_int 16 2 v)
    /\ decode_active v = active
    /\ decode_repeat v = mask.
Proof.
  intro H. apply is_mask_shape in H.
  destruct H as (c1 & c2 & c3 & c4 & c5 & c6 & c7 & -> & Hall).
  repeat match goal with
         | H : Forall _ (_ :: _) |- _ => inversion H; subst; clear H
         | H : Forall _ [] |- _ => clear H
         end.
  repeat match goal with
         | H : _ = _ \/ _ = _ |- _ => destruct H; subst
         end;
    destruct active;
    match goal with
    | |- exists v, _ /\ encode_repeat ?a ?m = _ /\ _ =>
      let r := eval vm_compute in
                (int_base2 ((if a then "1" else "0") ++ string_rev m)) in
      match r with
      | Some ?v =>
        exists v; split; [lia |];
        split; [vm_compute; reflexivity |];
        split; vm_compute; reflexivity
      end
    end.
Qed.

(** What [set_timer] puts on the wire for one of the regular slots. *)
Lemma set_timer_regular
      (enc : bytes -> bytes -> bytes -> bytes) (g : config)
      (mac ip : string) (k : Z) (active : bool) (mask time_ switch : string)
      (h mi v : Z) (delta_time : option Z) (w : world) :
  encode_repeat active mask = Ok (format_int 16 2 v) ->
  k <> 11 ->
  parse_hh_mm time_ = Ok (h, mi) ->
  0 <= h < 24 -> 0 <= mi < 60 ->
  0 <= 86400 + 3600 * h + 60 * mi + effective_delta delta_time w
  < datetime_end ->
  set_timer enc g (mac, ip) (AInt k) active mask time_ switch delta_time w
  = run_receipt enc g mac ip
      (CMD_SET_TIMER
         (format_int 16 2 k) (format_int 16 2 v)
         (format_int 16 2
            (dt_hour (86400 + 3600 * h + 60 * mi
                      + effective_delta delta_time w)))
         (format_int 16 2
            (dt_minute (86400 + 3600 * h + 60 * mi
                        + effective_delta delta_time w)))
         (switch_pattern switch)) w.
Proof.
  intros Ev Hk Hparse Hh Hm Ht.
  unfold set_timer. unfold bind at 1. unfold lift at 1. rewrite Ev.
  unfold bind at 1. unfold lift at 1. rewrite Hparse. cbn [fst snd].
  cbn [atom_eqb orb]. apply Z.eqb_neq in Hk. rewrite Hk. cbn [orb].
  unfold bind at 1. unfold bind at 1. unfold lift at 1.
  rewrite datetime_1_1_2_clock by assumption.
  unfold ret at 1.
  unfold bind at 1. rewrite default_delta_effective.
  unfold bind at 1. unfold lift at 1. rewrite datetime_add_ok by assumption.
  unfold bind at 1. unfold lift at 1.
  rewrite split_two_fields.
  - unfold bind at 1. unfold lift at 1. cbn [fst snd]. reflexivity.
  - pose proof (dt_hour_range (86400 + 3600 * h + 60 * mi
                              + effective_delta delta_time w)). lia.
  - pose proof (dt_minute_range (86400 + 3600 * h + 60 * mi
                                + effective_delta delta_time w)). lia.
Qed.

(** X8.  What [set_timer] writes for a regular slot, [timer_query] reads
    back.  For a mask of the data model, a clock time and an adjustment of
    whole minutes within a day, the frame of [set_timer] carries a slot
    number, a packed byte, an hour, a minute and a switch pattern such that
    a record made of these bytes decodes, under the same adjustment, to the
    same active flag, the same mask, the same time printed as hh:mm, and to
    ['on'] exactly when the argument was ['on']. *)
Theorem timer_round_trip
        (enc : bytes -> bytes -> bytes -> bytes) (g : config)
        (mac ip : string) (k : Z) (active : bool) (mask time_ switch : string)
        (h mi : Z) (delta_time : option Z) (w : world) :
  is_mask mask = true ->
  0 <= k < 256 -> k <> 11 ->
  parse_hh_mm time_ = Ok (h, mi) ->
  0 <= h < 24 -> 0 <= mi < 60 ->
  effective_delta delta_time w mod 60 = 0 ->
  -86400 <= effective_delta delta_time w <= 86400 ->
  exists number packed hour minute pattern,
    set_timer enc g (mac, ip) (AInt k) active mask time_ switch delta_time w
    = run_receipt enc g mac ip
        (CMD_SET_TIMER (hex [number]) (hex [packed]) (hex [hour])
                       (hex [minute]) (switch_pattern switch)) w
    /\ fromhex (switch_pattern switch) = Some pattern
    /\ byte_val number = k
    /\ decode_active (byte_val packed) = active
    /\ decode_repeat (byte_val packed) = mask
    /\ clock_bytes hour minute (effective_delta delta_time w)
    /\ clock_text (86400 + 3600 * byte_val hour + 60 * byte_val minute
                   - effective_delta delta_time w)
       = format_int 10 2 h ++ ":" ++ format_int 10 2 mi
    /\ switch_text pattern = (if String.eqb switch "on" then "on" else "off").
Proof.
  intros Hmask Hk H11 Hparse Hh Hm Hd60 Hd.
  set (d := effective_delta delta_time w) in *.
  destruct (packed_value active mask Hmask) as (v & Hv & Ev & Ha & Hr).
  assert (Ht : 0 <= 86400 + 3600 * h + 60 * mi + d < datetime_end)
    by (unfold datetime_end; lia).
  pose proof (set_timer_regular enc g mac ip k active mask time_ switch
                h mi v delta_time w Ev H11 Hparse Hh Hm Ht) as Hset.
  fold d in Hset.
  pose proof (dt_hour_range (86400 + 3600 * h + 60 * mi + d)) as HH.
  pose proof (dt_minute_range (86400 + 3600 * h + 60 * mi + d)) as HM.
  destruct (clock_round_trip h mi d Hh Hm Hd60 Hd) as [Rh Rm].
  set (H := dt_hour (86400 + 3600 * h + 60 * mi + d)) in *.
  set (M := dt_minute (86400 + 3600 * h + 60 * mi + d)) in *.
  destruct (format_02x_hex k Hk) as (number & Nk & Tk).
  destruct (format_02x_hex v Hv) as (packed & Nv & Tv).
  destruct (format_02x_hex H ltac:(lia)) as (hour & NH & TH).
  destruct (format_02x_hex M ltac:(lia)) as (minute & NM & TM).
  rewrite Tk, Tv, TH, TM in Hset.
  exists number, packed, hour, minute.
  exists (if String.eqb switch "on" then [x00; x00; xff; xff]
          else [x00; x00; x00; xff]).
  split; [exact Hset |].
  unfold switch_pattern, switch_text, clock_bytes, clock_text.
  rewrite Nk, Nv, NH, NM, Rh, Rm.
  repeat split; try assumption; try lia.
  - destruct (String.eqb switch "on"); reflexivity.
  - unfold datetime_end. lia.
  - destruct (String.eqb switch "on"); reflexivity.
Qed.

Lemma timer_query_slot_witness :
  exists w1,
    timer_query plain_cbc plain_cbc defaults sample_socket (AInt 3) None
                (with_inbox [RecvData (reply_frame timers_payload)])
    = (Ok (VItem (ITimer (mkTimer (AInt 3) (Some false) "1111100" "00:00"
                                  "off"))), w1).
Proof.
  exists (snd (send defaults "192.168.0.15" timer_query_command
                    (with_inbox [RecvData (reply_frame timers_payload)]))).
  assert (H1 : assemble_command plain_cbc defaults "AC CF 23 00 00 01"
                 CMD_TIMER_QUERY = Ok timer_query_command)
    by (vm_compute; reflexivity).
  assert (H2 : send defaults "192.168.0.15" timer_query_command
                 (with_inbox [RecvData (reply_frame timers_payload)])
               = (Ok (Success timers_payload),
                  snd (send defaults "192.168.0.15" timer_query_command
                         (with_inbox [RecvData (reply_frame timers_payload)]))))
    by (vm_compute; reflexivity).
  exact (timer_query_slot
           plain_cbc plain_cbc defaults "AC CF 23 00 00 01" "192.168.0.15"
           timer_query_command None
           (with_inbox [RecvData (reply_frame timers_payload)])
           timers_payload _ 2 x03 x1f x17 x00 [x00; x00; x00; xff]
           H1 H2 ltac:(lia)
           ltac:(intros j Hj; split; [lia |];
                 destruct j as [| [| j]]; [| | lia];
                 [ exists x01, x9f, x06, x1e, [x00; x00; xff; xff];
                   split; [reflexivity |]; split; [vm_compute; discriminate |];
                   right; vm_compute; repeat split; discriminate
                 | exists x02, x00, xff, xff, [x00; x00; x00; xff];
                   split; [reflexivity |]; split; [vm_compute; discriminate |];
                   left; reflexivity ])
           ltac:(reflexivity)
           ltac:(right; vm_compute; repeat split; discriminate)).
Defined.

Lemma timer_round_trip_witness :
  exists number packed hour minute pattern,
    set_timer plain_cbc defaults sample_socket (AInt 3) true "1111100"
              "07:30" "on" None quiet
    = run_receipt plain_cbc defaults "AC CF 23 00 00 01" "192.168.0.15"
        (CMD_SET_TIMER (hex [number]) (hex [packed]) (hex [hour])
                       (hex [minute]) (switch_pattern "on")) quiet
    /\ fromhex (switch_pattern "on") = Some pattern
    /\ byte_val number = 3
    /\ decode_active (byte_val packed) = true
    /\ decode_repeat (byte_val packed) = "1111100"
    /\ clock_bytes hour minute (-3600)
    /\ clock_text (86400 + 3600 * byte_val hour + 60 * byte_val minute
                   - -3600)
       = "07:30"
    /\ switch_text pattern = "on".
Proof.
  apply (timer_round_trip plain_cbc defaults "AC CF 23 00 00 01"
           "192.168.0.15" 3 true "1111100" "07:30" "on" 7 30 None quiet);
    try reflexivity; try lia; cbn; lia.
Defined.

(* ------------------------------------------------------------------ *)
(** ** The outcomes of [send] *)

(** The test of the reply raises nothing but the [IndexError] of
    [message[1]]. *)
Lemma bad_reply_raises (message : bytes) (e : exc) :
  bad_reply message = Raise e -> e = IndexError.
Proof.
  unfold bad_reply, index.
  destruct (nth_error message 1); cbn [rbind]; [discriminate |].
  intro H. now injection H as <-.
Qed.

(** What the loop of [send] can end with, whatever the network does. *)
Lemma send_loop_outcomes (g : config) (s : nat) (c : bytes) (a : string * Z)
      (n : nat) :
  forall msg w,
    (forall m, msg = Some m -> failure_message m) ->
    match fst (send_loop g n s c a msg w) with
    | Ok (Success p) => Nat.modulo (List.length p) 16 = 0%nat
    | Ok (Failure m) => failure_message m
    | Raise e =>
      (exists text, e = OSError text) \/ e = IndexError \/ e = TypeError
      \/ (e = UnboundLocalError /\ n = 0%nat /\ msg = None)
    end.
Proof.
  induction n as [| n IH]; intros msg w Hmsg.
  - cbn [send_loop]. unfold bind at 1.
    change (close s w) with (Ok tt, snd (close s w)). cbv beta iota.
    unfold bind, lift, ret. destruct msg as [m |]; cbn [of_option fst].
    + now apply Hmsg.
    + right. right. right. repeat split.
  - cbn [send_loop]. unfold bind at 1. rewrite send_attempt_unfold.
    destruct (send_errors w) as [| [[| text] |] ?].
    2: { cbn [fst]. right. right. now left. }
    2: { cbn [fst ret]. right. right. now exists text. }
    all: destruct (inbox w) as [| [| d | text] rest].
    all: try (destruct (bad_reply (firstn 1024 d)) as [[|] | e] eqn:Ebad).
    all: try (destruct (timeout g =? 0);
              [cbn [fst]; left; eexists; reflexivity |]).
    all: try (match goal with
              | |- context [send_loop _ ?k ?s0 ?c0 ?a0 (Some ?m) ?w1] =>
                specialize (IH (Some m) w1);
                destruct (fst (send_loop g k s0 c0 a0 (Some m) w1))
                  as [[p | m'] | e'];
                [ apply IH; intros ? [= <-]; (now left) || (right; now left)
                | apply IH; intros ? [= <-]; (now left) || (right; now left)
                | destruct IH as [IH | [IH | [IH | (_ & _ & IH)]]];
                  [ intros ? [= <-]; (now left) || (right; now left)
                  | now left | right; now left | right; right; now left
                  | discriminate ] ]
              end).
    all: cbn [fst ret].
    + apply bad_reply_false_iff in Ebad. apply Ebad.
    + right. left. exact (bad_reply_raises _ _ Ebad).
    + left. now exists text.
    + apply bad_reply_false_iff in Ebad. apply Ebad.
    + right. left. exact (bad_reply_raises _ _ Ebad).
    + left. now exists text.
Qed.

(** What [create_socket] can raise. *)
Lemma socket_error_cases (g : config) (my_ip : option string) (w : world)
      (e : exc) :
  socket_error g my_ip w = Some e ->
  (exists text, e = OSError text)
  \/ e = TypeError
  \/ (e = ValueError /\ timeout g < 0)
  \/ (e = OverflowError
      /\ (~ 0 <= udp_port g <= 65535
          \/ ~ - max_seconds <= timeout g <= max_seconds)).
Proof.
  unfold socket_error.
  destruct ((timeout g <? - max_seconds) || (max_seconds <? timeout g))
    eqn:Eo.
  { intros [= <-]. right. right. right. split; [reflexivity | right].
    apply orb_true_iff in Eo. destruct Eo as [Eo | Eo];
      apply Z.ltb_lt in Eo; lia. }
  destruct (timeout g <? 0) eqn:Et.
  { intros [= <-]. right. right. left.
    split; [reflexivity | now apply Z.ltb_lt]. }
  destruct (resolve_error w _) as [[| text] |].
  - intros [= <-]. right. now left.
  - destruct ((udp_port g <? - 2 ^ 31) || (2 ^ 31 <=? udp_port g)) eqn:Ec.
    + intros [= <-]. right. right. right. split; [reflexivity | left].
      apply orb_true_iff in Ec. destruct Ec as [Ec | Ec];
        [apply Z.ltb_lt in Ec | apply Z.leb_le in Ec]; lia.
    + intros [= <-]. left. now exists text.
  - destruct ((udp_port g <? 0) || (65535 <? udp_port g)) eqn:Ep.
    + intros [= <-]. right. right. right. split; [reflexivity | left].
      apply orb_true_iff in Ep. destruct Ep as [Ep | Ep];
        apply Z.ltb_lt in Ep; lia.
    + destruct (bind_error w _ _) as [text |]; [| discriminate].
      intros [= <-]. left. now exists text.
Qed.

(** [create_socket] returns the socket exactly under these conditions. *)
Lemma socket_error_none (g : config) (my_ip : option string) (w : world) :
  socket_error g my_ip w = None
  <-> 0 <= timeout g <= max_seconds
      /\ 0 <= udp_port g <= 65535
      /\ resolve_error w (match my_ip with
                           | Some h => h
                           | None => hostname w
                           end) = None
      /\ bind_error w (match my_ip with
                        | Some h => h
                        | None => hostname w
                        end) (udp_port g) = None.
Proof.
  unfold socket_error. split.
  - destruct ((timeout g <? - max_seconds) || (max_seconds <? timeout g))
      eqn:Eo; [discriminate |].
    apply orb_false_iff in Eo. destruct Eo as [_ Eo]. apply Z.ltb_ge in Eo.
    destruct (timeout g <? 0) eqn:Et; [discriminate |].
    apply Z.ltb_ge in Et.
    destruct (resolve_error w _) as [[| text] |]; [discriminate | |].
    { destruct ((udp_port g <? - 2 ^ 31) || (2 ^ 31 <=? udp_port g));
        discriminate. }
    destruct ((udp_port g <? 0) || (65535 <? udp_port g)) eqn:Ep;
      [discriminate |].
    apply orb_false_iff in Ep. destruct Ep as [E1 E2].
    apply Z.ltb_ge in E1. apply Z.ltb_ge in E2.
    destruct (bind_error w _ _); [discriminate |].
    intros _. repeat split; assumption || lia.
  - intros (Ht & Hp & -> & ->).
    replace (timeout g <? - max_seconds) with false
      by (symmetry; apply Z.ltb_ge; unfold max_seconds; lia).
    replace (max_seconds <? timeout g) with false
      by (symmetry; apply Z.ltb_ge; lia).
    replace (timeout g <? 0) with false by (symmetry; apply Z.ltb_ge; lia).
    replace (udp_port g <? 0) with false by (symmetry; apply Z.ltb_ge; lia).
    replace (65535 <? udp_port g) with false
      by (symmetry; apply Z.ltb_ge; lia).
    reflexivity.
Qed.

(** X4.  Whatever the host and the network do, a call of [send] ends in
    one of these ways.  It returns success with a payload made of whole
    16-byte blocks, or a failure whose message is ['Timeout'],
    ['Bad return data'] or the [OSError] of a refused send; in each case the
    socket it opened is closed.  Or it raises: [OSError] from the lookup of
    the host name, from the bind or from a receive; [IndexError] on a
    datagram shorter than two bytes; [TypeError] on a host text that cannot
    name a host, in the bind or in a send; [ValueError], and then the
    timeout is negative or the command is not hex text; [OverflowError],
    and then the port is not one of 0..65535 or the timeout does not fit
    the clock of the socket; [UnboundLocalError], and then the retry budget
    is not positive. *)
Theorem send_outcomes (g : config) (ip command : string) (w : world) :
  match send g ip command w with
  | (Ok (Success p), w') =>
    Nat.modulo (List.length p) 16 = 0%nat
    /\ ~ In (next_socket w) (open_sockets w')
  | (Ok (Failure m), w') =>
    failure_message m /\ ~ In (next_socket w) (open_sockets w')
  | (Raise e, _) =>
    (exists text, e = OSError text) \/ e = IndexError \/ e = TypeError
    \/ (e = ValueError /\ (timeout g < 0 \/ fromhex command = None))
    \/ (e = OverflowError
        /\ (~ 0 <= udp_port g <= 65535
            \/ ~ - max_seconds <= timeout g <= max_seconds))
    \/ (e = UnboundLocalError /\ repeat g <= 0)
  end.
Proof.
  pose proof (send_closes_on_return g ip command w) as Hclose.
  destruct (send g ip command w) as [[r | e] w'] eqn:E.
  - specialize (Hclose r w' eq_refl).
    revert E. unfold send. unfold bind at 1. unfold create_socket.
    destruct (socket_error g None w); [discriminate |].
    unfold bind at 1. unfold lift.
    destruct (fromhex command) as [cmdb |]; cbn [of_option]; [| discriminate].
    intro E.
    pose proof (send_loop_outcomes g (next_socket w) cmdb (ip, udp_port g)
                  (Z.to_nat (repeat g)) None
                  (set_sockets (next_socket w :: open_sockets w)
                               (S (next_socket w)) w)
                  ltac:(discriminate)) as H.
    rewrite E in H. cbn [fst] in H. destruct r; now split.
  - revert E. unfold send. unfold bind at 1. unfold create_socket.
    destruct (socket_error g None w) as [e0 |] eqn:Es.
    { intros [= <- _].
      destruct (socket_error_cases _ _ _ _ Es)
        as [H | [-> | [[-> H] | [-> H]]]].
      - now left.
      - right. right. now left.
      - right. right. right. left. split; [reflexivity | now left].
      - right. right. right. right. left. now split. }
    unfold bind at 1. unfold lift.
    destruct (fromhex command) as [cmdb |]; cbn [of_option].
    2: { intros [= <- _]. right. right. right. left.
         split; [reflexivity | now right]. }
    intro E.
    pose proof (send_loop_outcomes g (next_socket w) cmdb (ip, udp_port g)
                  (Z.to_nat (repeat g)) None
                  (set_sockets (next_socket w :: open_sockets w)
                               (S (next_socket w)) w)
                  ltac:(discriminate)) as H.
    rewrite E in H. cbn [fst] in H.
    destruct H as [H | [H | [H | (H & Hn & _)]]];
      [ now left | right; now left | right; right; now left
      | right; right; right; right; right ].
    split; [exact H | lia].
Qed.

(** What the module globals and the address can make [send] raise on the
    host of [quiet]: [udp_port = 65536] is refused by the bind,
    [timeout = -1] by [settimeout]; with [timeout = 0] the socket does not
    wait and the receive raises at once; a host text that cannot name a
    host is refused by the send. *)
Example send_refused_settings :
  fst (send (mkConfig SWS_A1 "FF FF" 65536 2 3) "192.168.0.15"
            sample_command quiet)
  = Raise OverflowError
  /\ fst (send (mkConfig SWS_A1 "FF FF" 8530 (-1) 3) "192.168.0.15"
               sample_command quiet)
     = Raise ValueError
  /\ fst (send (mkConfig SWS_A1 "FF FF" 8530 0 3) "192.168.0.15"
               sample_command quiet)
     = Raise (OSError "Resource temporarily unavailable")
  /\ fst (send defaults "192.168.0.15" sample_command
               (set_send_errors [Some BadHostText] quiet))
     = Raise TypeError.
Proof. vm_compute. repeat split; reflexivity. Qed.

Lemma send_failure_message (g : config) (ip command : string) (w : world)
      (m : value) (w' : world) :
  send g ip command w = (Ok (Failure m), w') -> failure_message m.
Proof.
  unfold send. unfold bind at 1. unfold create_socket.
  destruct (socket_error g None w); [discriminate |].
  unfold bind at 1. unfold lift.
  destruct (fromhex command) as [cmdb |]; cbn [of_option]; [| discriminate].
  intro E.
  pose proof (send_loop_outcomes g (next_socket w) cmdb (ip, udp_port g)
                (Z.to_nat (repeat g)) None
                (set_sockets (next_socket w :: open_sockets w)
                             (S (next_socket w)) w)
                ltac:(discriminate)) as H.
  rewrite E in H. exact H.
Qed.

Lemma byte_val_inj (a b : byte) : byte_val a = byte_val b -> a = b.
Proof.
  unfold byte_val. intro H.
  assert (E : Byte.to_N a = Byte.to_N b) by lia.
  pose proof (Byte.of_to_N a) as Ha. pose proof (Byte.of_to_N b) as Hb.
  rewrite E in Ha. congruence.
Qed.


Lemma switch_text_cases (pattern : bytes) :
  switch_text pattern = "on" \/ switch_text pattern = "off".
Proof.
  unfold switch_text. destruct (String.eqb _ _); [now left | now right].
Qed.



(** X10.  When the query of [activate_timer] gets no valid answer, so
    that [send] returns a failure, the function does not hand the message
    back as the other commands do: reading [data.repeat] on the message
    raises [AttributeError], and nothing is written to the device. *)
Theorem activate_timer_unanswered
        (enc dec : bytes -> bytes -> bytes -> bytes) (g : config)
        (mac ip cmd : string) (timer : atom) (activate : bool) (w : world)
        (m : value) (w1 : world) :
  assemble_command enc g mac CMD_TIMER_QUERY = Ok cmd ->
  send g ip cmd w = (Ok (Failure m), w1) ->
  activate_timer enc dec g (mac, ip) timer activate w
  = (Raises AttributeError, w1).
Proof.
  intros Hcmd Hsend.
  unfold activate_timer, timer_query, bind, lift, ret.
  rewrite Hcmd, Hsend.
  destruct (send_failure_message _ _ _ _ _ _ Hsend) as [-> | [-> | [t ->]]];
    reflexivity.
Qed.

(** X11.  [activate_timer] on an empty slot raises [ValueError]: the
    query returns [Timer(k, None)] with empty [time], which [set_timer]
    cannot split into hour and minute; no frame is sent to the device. *)
Theorem activate_timer_empty_slot
        (enc dec : bytes -> bytes -> bytes -> bytes) (g : config)
        (mac ip cmd : string) (activate : bool) (w : world)
        (p : bytes) (w1 : world) (i : nat)
        (number packed hour minute : byte) (pattern : bytes) :
  assemble_command enc g mac CMD_TIMER_QUERY = Ok cmd ->
  send g ip cmd w = (Ok (Success p), w1) ->
  (i < 10)%nat ->
  (forall j, (j < i)%nat ->
             passed_over (slice_from (dec PASSKEY INITIALIZATION_VECTOR p) 9)
                         (timezone w1) (byte_val number) (8 * j)) ->
  slot_record (slice_from (dec PASSKEY INITIALIZATION_VECTOR p) 9) (8 * i)
              number packed hour minute pattern ->
  byte_val hour = 255 ->
  activate_timer enc dec g (mac, ip) (AInt (byte_val number)) activate w
  = (Raises (Exc ValueError), w1).
Proof.
  intros Hcmd Hsend Hi Hpre Hrec H255.
  assert (Hquery :
            timer_query enc dec g (mac, ip) (AInt (byte_val number)) None w
            = (Ok (VItem (ITimer
                 (mkTimer (AInt (byte_val number)) None EmptyString
                          EmptyString EmptyString))), w1)).
  { destruct (send_success _ _ _ _ _ _ Hsend) as (d0 & _ & Hv & Hp).
    unfold timer_query, bind, lift. rewrite Hcmd, Hsend.
    unfold decrypt. rewrite Hp at 1. rewrite (valid_reply_aligned _ Hv).
    cbn [Nat.eqb]. rewrite default_delta_effective.
    rewrite (timer_offsets_split i) by lia.
    rewrite timer_loop_passes_all.
    - apply (timer_loop_hits_empty _ _ _ _ _ _ packed hour minute pattern);
        [lia | exact Hrec | exact H255].
    - apply Forall_forall. intros n Hn. apply in_map_iff in Hn.
      destruct Hn as (j & <- & Hj). apply in_seq in Hj. apply Hpre. lia. }
  unfold activate_timer. rewrite Hquery.
  cbn [timer_fields t_repeat t_time t_switch].
  unfold set_timer, bind, lift.
  destruct activate; reflexivity.
Qed.


Lemma activate_timer_unanswered_witness :
  exists w1,
    activate_timer plain_cbc plain_cbc defaults sample_socket (AInt 1) true
                   quiet
    = (Raises AttributeError, w1)
    /\ List.length (sent w1) = 3%nat.
Proof.
  exists (snd (send defaults "192.168.0.15" timer_query_command quiet)).
  split; [| vm_compute; reflexivity].
  apply (activate_timer_unanswered
           plain_cbc plain_cbc defaults "AC CF 23 00 00 01" "192.168.0.15"
           timer_query_command (AInt 1) true quiet (VStr "Timeout")).
  - vm_compute. reflexivity.
  - vm_compute. reflexivity.
Defined.

Lemma activate_timer_empty_slot_witness :
  exists w1,
    activate_timer plain_cbc plain_cbc defaults sample_socket (AInt 2) true
                   (with_inbox [RecvData (reply_frame timers_payload)])
    = (Raises (Exc ValueError), w1)
    /\ List.length (sent w1) = 1%nat.
Proof.
  pose (W := with_inbox [RecvData (reply_frame timers_payload)]).
  pose (w1 := snd (send defaults "192.168.0.15" timer_query_command W)).
  assert (H1 : assemble_command plain_cbc defaults "AC CF 23 00 00 01"
                 CMD_TIMER_QUERY = Ok timer_query_command)
    by (vm_compute; reflexivity).
  assert (H2 : send defaults "192.168.0.15" timer_query_command W
               = (Ok (Success timers_payload), w1))
    by (vm_compute; reflexivity).
  exists w1. split; [| vm_compute; reflexivity].
  exact (activate_timer_empty_slot
           plain_cbc plain_cbc defaults "AC CF 23 00 00 01" "192.168.0.15"
           timer_query_command true W timers_payload w1 1
           x02 x00 xff xff [x00; x00; x00; xff]
           H1 H2 ltac:(lia)
           ltac:(intros j Hj; split; [lia |];
                 destruct j as [| j]; [| lia];
                 exists x01, x9f, x06, x1e, [x00; x00; xff; xff];
                 split; [reflexivity |]; split; [vm_compute; discriminate |];
                 right; vm_compute; repeat split; discriminate)
           ltac:(reflexivity) ltac:(reflexivity)).
Defined.

(* ------------------------------------------------------------------ *)
(** ** The absence window *)

Lemma int_from_bytes_snoc (b : bytes) (x : byte) :
  int_from_bytes (b ++ [x])%list = 256 * int_from_bytes b + byte_val x.
Proof. unfold int_from_bytes. rewrite fold_left_app. reflexivity. Qed.

Lemma fromhex_two_digits_val (h l : Z) (rest : string) :
  0 <= h < 16 -> 0 <= l < 16 ->
  exists b,
    byte_val b = 16 * h + l
    /\ fromhex (String (digit_char h) (String (digit_char l) rest))
       = option_map (cons b) (fromhex rest).
Proof.
  intros Hh Hl.
  destruct (hexval_digit_char h Hh) as [Hs Hv].
  destruct (hexval_digit_char l Hl) as [_ Hv'].
  destruct (byte_of_Z_some (16 * h + l)) as [b Hb]; [lia |].
  exists b. split; [exact (byte_of_Z_val _ _ Hb) |].
  cbn [fromhex]. rewrite Hs, Hv, Hv', Hb.
  now destruct (fromhex rest).
Qed.

(** An even number of hex digits is the big-endian writing of the value
    they print. *)
Lemma digits_fixed_even_value (k : nat) :
  forall v, 0 <= v ->
    exists b,
      fromhex (digits_fixed 16 (2 * k) v) = Some b
      /\ List.length b = k
      /\ int_from_bytes b = v mod 256 ^ Z.of_nat k.
Proof.
  induction k as [| k IH]; intros v Hv.
  - exists []. repeat split. cbn. now rewrite Z.mod_1_r.
  - replace (2 * S k)%nat with (S (S (2 * k))) by lia.
    cbn [digits_fixed]. rewrite string_app_assoc. cbn [append].
    destruct (IH (v / 16 / 16)) as (b1 & H1 & L1 & V1).
    { apply Z.div_pos; [apply Z.div_pos |]; lia. }
    destruct (fromhex_two_digits_val ((v / 16) mod 16) (v mod 16)
                                      EmptyString) as (x & Vx & Hx);
      [apply Z.mod_pos_bound; lia | apply Z.mod_pos_bound; lia |].
    exists (b1 ++ [x])%list. split; [| split].
    + apply fromhex_app_some; [assumption |]. rewrite Hx. reflexivity.
    + rewrite length_app, L1. cbn. lia.
    + rewrite int_from_bytes_snoc, V1, Vx.
      rewrite Z.div_div by lia. change (16 * 16) with 256.
      replace (Z.of_nat (S k)) with (Z.succ (Z.of_nat k)) by lia.
      rewrite Z.pow_succ_r by lia.
      rewrite (Z.rem_mul_r v 256 (256 ^ Z.of_nat k)) by (try lia; apply Z.pow_pos_nonneg; lia).
      pose proof (Z.rem_mul_r v 16 16 ltac:(lia) ltac:(lia)) as E.
      change (16 * 16) with 256 in E. lia.
Qed.

Lemma format_08x_value (v : Z) :
  0 <= v < 2 ^ 32 ->
  exists b,
    fromhex (format_int 16 8 v) = Some b
    /\ List.length b = 4%nat /\ int_from_bytes b = v.
Proof.
  intro H. rewrite format_int_fits by (cbn; lia).
  destruct (digits_fixed_even_value 4 v ltac:(lia)) as (b & Hb & Lb & Vb).
  exists b. repeat split; try assumption.
  rewrite Vb. apply Z.mod_small. exact H.
Qed.

(** X12.  The window that [set_absence_mode] writes is the window that
    [absence_mode_query] reads.  For two dates whose timestamps fit 32
    bits, the command carries a body [09][flag][from][to][1e]...; and when
    the payload of a query decrypts to 7 header bytes followed by that body,
    the query returns an active window with the two timestamps formatted
    back, or an inactive one without dates, according to the flag. *)
Theorem absence_window_round_trip
        (enc dec : bytes -> bytes -> bytes -> bytes)
        (strptime : string -> result Z) (timestamp : Z -> result Z)
        (strftime_local : Z -> result string)
        (g : config) (mac ip : string) (active : bool) (from_ to_ : string)
        (f t : Z) (w : world) :
  parse_window strptime timestamp from_ to_ = Ok (f, t) ->
  0 <= f < 2 ^ 32 -> 0 <= t < 2 ^ 32 ->
  exists bodyb,
    set_absence_mode enc strptime timestamp g (mac, ip) active from_ to_ w
    = run_receipt enc g mac ip
        (CMD_SET_AM (if active then "80" else "00") f t) w
    /\ fromhex (CMD_SET_AM (if active then "80" else "00") f t) = Some bodyb
    /\ forall header cmd w0 p w1,
        List.length header = 7%nat ->
        assemble_command enc g mac CMD_AM_QUERY = Ok cmd ->
        send g ip cmd w0 = (Ok (Success p), w1) ->
        dec PASSKEY INITIALIZATION_VECTOR p = (header ++ bodyb)%list ->
        absence_mode_query enc dec strftime_local g (mac, ip) w0
        = if active
          then (a <- lift (strftime_local f) ;;
                b <- lift (strftime_local t) ;;
                ret (VAbsence true (Some a) (Some b))) w1
          else (Ok (VAbsence false None None), w1).
Proof.
  intros Hparse Hf Ht.
  destruct (format_08x_value f Hf) as (fb & Ef & Lf & Vf).
  destruct (format_08x_value t Ht) as (tb & Et & Lt & Vt).
  exists ([x09] ++ [if active then x80 else x00] ++ [] ++ fb ++ [] ++ tb
          ++ [x1e; x0e; x0e; x0e; x0e; x0e; x0e; x0e; x0e; x0e; x0e; x0e;
              x0e; x0e; x0e])%list.
  split; [| split].
  - exact (proj1 (proj2 (proj2 (proj2 (proj2
             (receipt_command_bodies enc strptime timestamp g mac ip w)))))
             active from_ to_ f t Hparse).
  - unfold CMD_SET_AM.
    eapply fromhex_app_some; [lazy; reflexivity |].
    eapply fromhex_app_some; [destruct active; lazy; reflexivity |].
    eapply fromhex_app_some; [lazy; reflexivity |].
    eapply fromhex_app_some; [exact Ef |].
    eapply fromhex_app_some; [lazy; reflexivity |].
    eapply fromhex_app_some; [exact Et | lazy; reflexivity].
  - intros header cmd w0 p w1 Lh Hcmd Hsend Hdec.
    destruct (send_success _ _ _ _ _ _ Hsend) as (d0 & _ & Hv & Hp).
    unfold absence_mode_query. unfold bind at 1. unfold lift at 1.
    rewrite Hcmd. unfold bind at 1. rewrite Hsend.
    unfold bind at 1. unfold lift at 1.
    unfold decrypt. rewrite Hp at 1. rewrite (valid_reply_aligned _ Hv).
    cbn [Nat.eqb]. rewrite Hdec.
    do 8 (destruct header as [| ? header]; try discriminate Lh).
    do 5 (destruct fb as [| ? fb]; try discriminate Lf).
    do 5 (destruct tb as [| ? tb]; try discriminate Lt).
    cbn [app slice_from skipn].
    unfold bind at 1. unfold lift at 1. unfold index. cbn [nth_error].
    unfold slice. cbn [Nat.sub skipn firstn]. rewrite Vf, Vt.
    destruct active; reflexivity.
Qed.

(** A printed number followed by a blank either stops the parse or is a
    run of whole bytes. *)
Lemma digits_field (n : nat) (v : Z) (rest : string) :
  fromhex (digits_fixed 16 n v ++ String " " rest) = None
  \/ exists b, fromhex (digits_fixed 16 n v ++ String " " rest)
               = option_map (app b) (fromhex rest).
Proof.
  destruct (Nat.Even_or_Odd n) as [[k ->] | [k ->]].
  - right. destruct (digits_fixed_even k v) as (b & Hb & _).
    exists b. rewrite (fromhex_app _ _ _ Hb). reflexivity.
  - left. replace (2 * k + 1)%nat with (S (2 * k)) by lia.
    cbn [digits_fixed]. rewrite string_app_assoc. cbn [append].
    destruct (digits_fixed_even k (v / 16)) as (b & Hb & _).
    rewrite (fromhex_app _ _ _ Hb).
    cbn [fromhex]. rewrite digit_not_space.
    destruct (hexval (digit_char (v mod 16))); reflexivity.
Qed.

Lemma fromhex_minus (s : string) : fromhex (String "-" s) = None.
Proof. destruct s; reflexivity. Qed.

Lemma format_field (v : Z) (rest : string) :
  fromhex (format_int 16 8 v ++ String " " rest) = None
  \/ exists b, fromhex (format_int 16 8 v ++ String " " rest)
               = option_map (app b) (fromhex rest).
Proof.
  unfold format_int. destruct (v <? 0).
  - left. cbn [append]. apply fromhex_minus.
  - apply digits_field.
Qed.

Lemma format_negative (v : Z) (rest : string) :
  v < 0 -> fromhex (format_int 16 8 v ++ rest) = None.
Proof.
  intro H. unfold format_int. apply Z.ltb_lt in H. rewrite H.
  cbn [append]. apply fromhex_minus.
Qed.

(** Text that ends with a blank ends on a byte boundary: what follows is
    parsed on its own. *)
Lemma fromhex_blank_split (n : nat) :
  forall s r,
    (String.length s <= n)%nat ->
    fromhex (s ++ String " " r)
    = match fromhex (s ++ " ") with
      | Some b => option_map (app b) (fromhex r)
      | None => None
      end.
Proof.
  induction n as [| n IH]; intros s r Hlen.
  - destruct s; [| cbn in Hlen; lia].
    cbn. now destruct (fromhex r).
  - destruct s as [| c s].
    + cbn. now destruct (fromhex r).
    + cbn [String.length] in Hlen. cbn [append fromhex].
      destruct (is_space c); [apply IH; lia |].
      destruct s as [| d s].
      * cbn [append]. destruct (hexval c); reflexivity.
      * cbn [append]. cbn [String.length] in Hlen.
        destruct (hexval c); [| reflexivity].
        destruct (hexval d); [| reflexivity].
        destruct (byte_of_Z _); [| reflexivity].
        rewrite (IH s r) by lia.
        destruct (fromhex (s ++ " ")); [| reflexivity].
        now destruct (fromhex r).
Qed.

(** X13.  The [try] of [set_absence_mode] covers the parsing of the two
    dates only.  When both parse and one of the timestamps is negative, a
    date before 1970, the minus sign of the printed number makes
    [bytes.fromhex] fail inside [assemble_command]: the function raises
    [ValueError] instead of returning it, and no socket has been created. *)
Theorem set_absence_mode_before_epoch
        (enc : bytes -> bytes -> bytes -> bytes)
        (strptime : string -> result Z) (timestamp : Z -> result Z)
        (g : config) (mac ip : string) (active : bool) (from_ to_ : string)
        (f t : Z) (w : world) :
  parse_window strptime timestamp from_ to_ = Ok (f, t) ->
  f < 0 \/ t < 0 ->
  set_absence_mode enc strptime timestamp g (mac, ip) active from_ to_ w
  = (Raise ValueError, w).
Proof.
  intros Hparse Hneg.
  unfold set_absence_mode. rewrite Hparse.
  unfold bind, lift, assemble_command.
  set (flag := if active then "80" else "00").
  assert (Hhex : fromhex (CMD_HEADER (packet g) (device g)
                          ++ CMD_SET_AM flag f t) = None).
  { assert (Hbody : fromhex (CMD_SET_AM flag f t) = None).
    { unfold CMD_SET_AM.
      assert (Hflag : fromhex flag = Some [if active then x80 else x00])
        by (unfold flag; destruct active; reflexivity).
      rewrite (fromhex_app "09 " _ [x09] eq_refl).
      rewrite (fromhex_app flag _ _ Hflag).
      rewrite (fromhex_app " " _ [] eq_refl).
      destruct Hneg as [Hf | Ht].
      - rewrite (format_negative f _ Hf). reflexivity.
      - change (" " ++ format_int 16 8 t
                ++ " 1E " ++ "0E 0E 0E 0E 0E 0E 0E 0E 0E 0E 0E 0E 0E 0E")
          with (String " " (format_int 16 8 t
                ++ " 1E " ++ "0E 0E 0E 0E 0E 0E 0E 0E 0E 0E 0E 0E 0E 0E")).
        destruct (format_field f
                    (format_int 16 8 t
                     ++ " 1E " ++ "0E 0E 0E 0E 0E 0E 0E 0E 0E 0E 0E 0E 0E 0E"))
          as [-> | [b ->]]; [reflexivity |].
        rewrite (format_negative t _ Ht). reflexivity. }
    unfold CMD_HEADER.
    assert (E : ("00 " ++ packet g ++ " " ++ device g ++ " ")
                ++ CMD_SET_AM flag f t
                = ("00 " ++ packet g ++ " " ++ device g)
                  ++ String " " (CMD_SET_AM flag f t)).
    { rewrite !string_app_assoc. reflexivity. }
    rewrite E, (fromhex_blank_split _ _ _ (Nat.le_refl _)), Hbody.
    match goal with |- match ?x with _ => _ end = _ => destruct x end;
      reflexivity. }
  rewrite Hhex. reflexivity.
Qed.

Lemma absence_window_round_trip_witness :
  exists bodyb w1,
    set_absence_mode plain_cbc sample_strptime sample_timestamp defaults
                     sample_socket true "20.01.2023 22:00" "22.01.2023 06:00"
                     quiet
    = run_receipt plain_cbc defaults "AC CF 23 00 00 01" "192.168.0.15"
                  (CMD_SET_AM "80" 1674248400 1674363600) quiet
    /\ fromhex (CMD_SET_AM "80" 1674248400 1674363600) = Some bodyb
    /\ absence_mode_query plain_cbc plain_cbc sample_strftime defaults
                          sample_socket
                          (with_inbox [RecvData (reply_frame window_payload)])
       = (Ok (VAbsence true (Some "20.01.2023 22:00")
                       (Some "22.01.2023 06:00")), w1).
Proof.
  destruct (absence_window_round_trip
              plain_cbc plain_cbc sample_strptime sample_timestamp
              sample_strftime defaults "AC CF 23 00 00 01" "192.168.0.15"
              true "20.01.2023 22:00" "22.01.2023 06:00"
              1674248400 1674363600 quiet
              ltac:(reflexivity) ltac:(lia) ltac:(lia))
    as (bodyb & Hset & Hhex & Hquery).
  exists bodyb.
  exists (snd (send defaults "192.168.0.15" am_query_command
                    (with_inbox [RecvData (reply_frame window_payload)]))).
  split; [exact Hset |]. split; [exact Hhex |].
  assert (Hb : bodyb = skipn 7 window_payload).
  { vm_compute in Hhex. injection Hhex as <-. reflexivity. }
  exact (Hquery (firstn 7 window_payload) am_query_command
                (with_inbox [RecvData (reply_frame window_payload)])
                window_payload _
                ltac:(reflexivity) ltac:(vm_compute; reflexivity)
                ltac:(vm_compute; reflexivity)
                ltac:(rewrite Hb; reflexivity)).
Defined.

Lemma set_absence_mode_before_epoch_witness :
  set_absence_mode plain_cbc sample_strptime sample_timestamp defaults
                   sample_socket true "31.12.1969 22:00" "22.01.2023 06:00"
                   quiet
  = (Raise ValueError, quiet).
Proof.
  apply (set_absence_mode_before_epoch
           plain_cbc sample_strptime sample_timestamp defaults
           "AC CF 23 00 00 01" "192.168.0.15" true
           "31.12.1969 22:00" "22.01.2023 06:00" (-10800) 1674363600 quiet).
  - reflexivity.
  - left. lia.
Defined.

(* ------------------------------------------------------------------ *)
(** ** The password broadcast *)

Lemma fromhex_05 (n : nat) :
  fromhex (str_times n "05") = Some (List.repeat x05 n).
Proof.
  induction n as [| n IH]; [reflexivity |].
  cbn [str_times List.repeat].
  rewrite (fromhex_app "05" _ [x05] eq_refl), IH. reflexivity.
Qed.

Lemma send_05_emits (s n : nat) (pause : Z) (w : world) :
  sends_all_pass w ->
  exists w',
    send_05 s n pause w = (Ok tt, w')
    /\ emitted w w' [length_datagram n] pause.
Proof.
  unfold sends_all_pass. intro H.
  unfold send_05, bind, lift. rewrite fromhex_05. cbn [of_option].
  unfold sendto.
  destruct (send_errors w) as [| x l] eqn:E.
  - eexists. split; [reflexivity |].
    unfold emitted, sends_all_pass. cbn. repeat split. constructor.
  - inversion H; subst.
    eexists. split; [reflexivity |].
    unfold emitted, sends_all_pass. cbn. repeat split. assumption.
Qed.

Lemma emitted_trans (w w1 w2 : world) (d1 d2 : list (bytes * (string * Z)))
      (m1 m2 : Z) :
  emitted w w1 d1 m1 -> emitted w1 w2 d2 m2 ->
  emitted w w2 (d1 ++ d2) (m1 + m2).
Proof.
  intros (S1 & Z1 & O1 & _) (S2 & Z2 & O2 & P2).
  unfold emitted. rewrite S2, S1, Z2, Z1, O2, O1, app_assoc.
  repeat split; [lia | assumption].
Qed.

(** Sequencing two steps that emit. *)
Lemma seq_emits (m1 m2 : M unit) (d1 d2 : list (bytes * (string * Z)))
      (p1 p2 : Z) (w : world) :
  (exists w1, m1 w = (Ok tt, w1) /\ emitted w w1 d1 p1) ->
  (forall w1, sends_all_pass w1 ->
              exists w2, m2 w1 = (Ok tt, w2) /\ emitted w1 w2 d2 p2) ->
  exists w2, (m1 ;;; m2) w = (Ok tt, w2) /\ emitted w w2 (d1 ++ d2) (p1 + p2).
Proof.
  intros (w1 & E1 & H1) H2.
  destruct (H2 w1) as (w2 & E2 & H2'); [apply H1 |].
  exists w2. unfold bind. rewrite E1. split; [exact E2 |].
  exact (emitted_trans _ _ _ _ _ _ _ H1 H2').
Qed.

Lemma for_each_emits {A} (body : A -> M unit)
      (D : A -> list (bytes * (string * Z))) (P : A -> Z) (l : list A) :
  (forall x w, sends_all_pass w ->
               exists w', body x w = (Ok tt, w') /\ emitted w w' (D x) (P x)) ->
  forall w, sends_all_pass w ->
    exists w',
      for_each l body w = (Ok tt, w')
      /\ emitted w w' (flat_map D l) (fold_right (fun x acc => P x + acc) 0 l).
Proof.
  intro Hbody. induction l as [| x l IH]; intros w Hw.
  - exists w. split; [reflexivity |].
    unfold emitted. cbn. rewrite app_nil_r. repeat split; [lia | assumption].
  - cbn [for_each flat_map fold_right].
    apply seq_emits; [apply Hbody; assumption | exact IH].
Qed.

Lemma flat_map_const {A B} (d : list B) (l : list A) :
  flat_map (fun _ => d) l = List.concat (List.repeat d (List.length l)).
Proof. induction l as [| x l IH]; cbn; [reflexivity | now rewrite IH]. Qed.

Lemma sum_const {A} (p : Z) (l : list A) :
  fold_right (fun _ acc => p + acc) 0 l = p * Z.of_nat (List.length l).
Proof.
  induction l as [| x l IH]; [cbn; lia |].
  cbn [fold_right List.length]. rewrite IH. lia.
Qed.

Lemma concat_singletons {B} (d : B) (n : nat) :
  List.concat (List.repeat [d] n) = List.repeat d n.
Proof. induction n as [| n IH]; cbn; [reflexivity | now rewrite IH]. Qed.

Lemma length_list_ascii (s : string) :
  List.length (list_ascii_of_string s) = String.length s.
Proof. induction s as [| c s IH]; cbn; [reflexivity | now rewrite IH]. Qed.

Lemma flat_map_single {A B} (f : A -> B) (l : list A) :
  flat_map (fun x => [f x]) l = map f l.
Proof.
  induction l as [| x l IH]; cbn [flat_map map app];
    [reflexivity | now rewrite IH].
Qed.

(** One transfer: start marker, letters, end marker, length. *)
Lemma transfer_emits (s : nat) (password : string) (w : world) :
  sends_all_pass w ->
  exists w',
    (send_05 s 89 50 ;;;
     send_05 s 89 50 ;;;
     send_05 s 89 100 ;;;
     for_each (list_ascii_of_string password)
       (fun letter => send_05 s (nat_of_ascii letter + 76) 100) ;;;
     send_05 s 86 50 ;;;
     send_05 s 86 50 ;;;
     send_05 s 86 200 ;;;
     send_05 s (String.length password + 256 + 76) 50 ;;;
     send_05 s (String.length password + 256 + 76) 50 ;;;
     send_05 s (String.length password + 256 + 76) 500) w = (Ok tt, w')
    /\ emitted w w' (transfer_datagrams password)
               (1100 + 100 * Z.of_nat (String.length password)).
Proof.
  intro Hw.
  pose proof (for_each_emits
                (fun letter => send_05 s (nat_of_ascii letter + 76) 100)
                (fun letter => [length_datagram (nat_of_ascii letter + 76)])
                (fun _ => 100) (list_ascii_of_string password)
                (fun x w0 H0 => send_05_emits s _ 100 w0 H0)) as Hletters.
  cbv beta in Hletters. rewrite sum_const, length_list_ascii in Hletters.
  rewrite flat_map_single in Hletters.
  replace (1100 + 100 * Z.of_nat (String.length password))
    with (50 + (50 + (100 + (100 * Z.of_nat (String.length password)
          + (50 + (50 + (200 + (50 + (50 + 500))))))))) by lia.
  unfold transfer_datagrams.
  change (List.repeat (length_datagram 89) 3)
    with ([length_datagram 89] ++ [length_datagram 89]
          ++ [length_datagram 89])%list.
  change (List.repeat (length_datagram 86) 3)
    with ([length_datagram 86] ++ [length_datagram 86]
          ++ [length_datagram 86])%list.
  change (List.repeat (length_datagram (String.length password + 256 + 76)) 3)
    with ([length_datagram (String.length password + 256 + 76)]
          ++ [length_datagram (String.length password + 256 + 76)]
          ++ [length_datagram (String.length password + 256 + 76)])%list.
  rewrite <- !app_assoc.
  repeat (apply seq_emits;
          [ first [ apply send_05_emits; assumption
                  | apply Hletters; assumption ]
          | clear dependent w; intros w Hw ]).
  apply send_05_emits. assumption.
Qed.

(** One turn of the loop. *)
Lemma password_round_emits (s : nat) (password : string) (w : world) :
  sends_all_pass w ->
  exists w',
    password_round s password w = (Ok tt, w')
    /\ emitted w w' (round_datagrams password)
               (6100 + 500 * Z.of_nat (String.length password)).
Proof.
  intro Hw. unfold password_round, round_datagrams.
  replace (6100 + 500 * Z.of_nat (String.length password))
    with (10 * Z.of_nat (List.length (seq 0 60))
          + (1100 + 100 * Z.of_nat (String.length password))
            * Z.of_nat (List.length (seq 0 5)))
    by (cbn [List.length seq]; lia).
  apply seq_emits.
  - pose proof (for_each_emits
                  (fun _ : nat => send_05 s 76 10)
                  (fun _ => [length_datagram 76]) (fun _ => 10) (seq 0 60)
                  (fun _ w0 H0 => send_05_emits s 76 10 w0 H0) w Hw) as H.
    cbv beta in H. rewrite sum_const, flat_map_const, concat_singletons in H.
    exact H.
  - clear dependent w. intros w Hw.
    pose proof (for_each_emits
                  _ (fun _ : nat => transfer_datagrams password)
                  (fun _ => 1100 + 100 * Z.of_nat (String.length password))
                  (seq 0 5)
                  (fun _ w0 H0 => transfer_emits s password w0 H0) w Hw) as H.
    cbv beta in H. rewrite sum_const, flat_map_const in H.
    exact H.
Qed.

Section ClockFacts.

Variable time : Type.
Variable time_add : time -> time -> time.
Variable time_lt : time -> time -> bool.

(** The loop makes one turn per reading before the deadline and stops at
    the first reading that has reached it. *)
Lemma password_loop_rounds (deadline : time) (s : nat) (password : string)
      (last : time) (rest : list time) (early : list time) :
  Forall (fun t => time_lt t deadline = true) early ->
  time_lt last deadline = false ->
  forall w,
    sends_all_pass w ->
    exists w',
      password_loop time time_lt (early ++ last :: rest) deadline s password w
      = Some (Ok VNone, w')
      /\ emitted w w'
                 (List.concat (List.repeat (round_datagrams password)
                                           (List.length early)))
                 ((6100 + 500 * Z.of_nat (String.length password))
                  * Z.of_nat (List.length early)).
Proof.
  intros Hearly Hlast.
  induction Hearly as [| t early Ht _ IH]; intros w Hw.
  - exists w. cbn [app password_loop]. rewrite Hlast.
    split; [reflexivity |].
    unfold emitted. cbn. rewrite app_nil_r.
    repeat split; [lia | assumption].
  - cbn [app password_loop]. rewrite Ht.
    destruct (password_round_emits s password w Hw) as (w1 & E1 & H1).
    rewrite E1.
    destruct (IH w1 ltac:(apply H1)) as (w2 & E2 & H2).
    exists w2. split; [exact E2 |].
    cbn [List.length List.repeat List.concat].
    replace ((6100 + 500 * Z.of_nat (String.length password))
             * Z.of_nat (S (List.length early)))
      with ((6100 + 500 * Z.of_nat (String.length password))
            + (6100 + 500 * Z.of_nat (String.length password))
              * Z.of_nat (List.length early)) by lia.
    exact (emitted_trans _ _ _ _ _ _ _ H1 H2).
Qed.

End ClockFacts.

(** X14.  What [send_password] does where [create_socket('None', ...)]
    returns a socket, that is on a host for which the name ['None']
    resolves and the port binds, when the sends all go through and the
    clock reads [now], then [k] times a value before [now + time_], then one
    that has reached it.  The call returns after [k] turns; each turn
    broadcasts to port 49999 sixty datagrams of 76 bytes and five times the
    transfer: three of 89 bytes, one of [ord(c) + 76] bytes per letter [c],
    three of 86 bytes and three of [len(password) + 332] bytes, every byte
    0x05; the call sleeps [6100 + 500 * len(password)] milliseconds per
    turn; and the socket it created is still open when it returns. *)
Theorem send_password_rounds
        (time : Type) (time_add : time -> time -> time)
        (time_lt : time -> time -> bool) (g : config)
        (password : string) (time_ now last : time)
        (early rest : list time) (w : world) :
  socket_error g (Some "None") w = None ->
  sends_all_pass w ->
  Forall (fun t => time_lt t (time_add now time_) = true) early ->
  time_lt last (time_add now time_) = false ->
  exists w',
    send_password time time_add time_lt g password time_
                  (now :: early ++ last :: rest) w
    = Some (Ok VNone, w')
    /\ sent w'
       = (sent w ++ List.concat (List.repeat (round_datagrams password)
                                             (List.length early)))%list
    /\ slept w'
       = slept w + (6100 + 500 * Z.of_nat (String.length password))
                   * Z.of_nat (List.length early)
    /\ In (next_socket w) (open_sockets w').
Proof.
  intros Hbind Hsends Hearly Hlast.
  unfold send_password, create_socket. rewrite Hbind.
  set (w0 := set_sockets (next_socket w :: open_sockets w)
                         (S (next_socket w)) w).
  destruct (password_loop_rounds time time_lt (time_add now time_)
              (next_socket w) password last rest early Hearly Hlast w0 Hsends)
    as (w' & E & S1 & Z1 & O1 & _).
  exists w'. split; [exact E |].
  rewrite S1, Z1, O1. repeat split. left. reflexivity.
Qed.

Lemma send_password_rounds_witness :
  exists w',
    send_password Z Z.add Z.ltb defaults "ab" 10000 [0; 1; 7105; 14212]
                  none_resolves
    = Some (Ok VNone, w')
    /\ List.length (sent w') = 230%nat
    /\ map (fun d => List.length (fst d))
           (firstn 11 (skipn 60 (sent w')))
       = [89; 89; 89; 173; 174; 86; 86; 86; 334; 334; 334]%nat
    /\ slept w' = 14200
    /\ In 0%nat (open_sockets w').
Proof.
  destruct (send_password_rounds Z Z.add Z.ltb defaults "ab" 10000 0 14212
              [1; 7105] [] none_resolves)
    as (w' & E & S1 & Z1 & O1).
  - reflexivity.
  - constructor.
  - repeat constructor.
  - reflexivity.
  - exists w'. split; [exact E |].
    rewrite S1, Z1.
    split; [vm_compute; reflexivity |].
    split; [vm_compute; reflexivity |].
    split; [reflexivity | exact O1].
Defined.

(** X17.  On a host for which the lookup of the name ['None'] fails,
    whatever the password, the duration and the clock: [send_password]
    raises the [socket.gaierror] of the lookup out of
    [create_socket('None', broadcast=True)]; no datagram has been sent, no
    sleep has taken place, and the socket object created is left open. *)
Theorem send_password_unresolved
        (time : Type) (time_add : time -> time -> time)
        (time_lt : time -> time -> bool) (g : config)
        (password : string) (time_ : time) (readings : list time)
        (w : world) (text : string) :
  0 <= timeout g <= max_seconds ->
  - 2 ^ 31 <= udp_port g < 2 ^ 31 ->
  resolve_error w "None" = Some (NetError text) ->
  exists w',
    send_password time time_add time_lt g password time_ readings w
    = Some (Raise (OSError text), w')
    /\ sent w' = sent w
    /\ slept w' = slept w
    /\ In (next_socket w) (open_sockets w').
Proof.
  intros Ht Hp Hr.
  assert (E : socket_error g (Some "None") w = Some (OSError text)).
  { unfold socket_error. rewrite Hr.
    replace (timeout g <? - max_seconds) with false
      by (symmetry; apply Z.ltb_ge; unfold max_seconds in *; lia).
    replace (max_seconds <? timeout g) with false
      by (symmetry; apply Z.ltb_ge; lia).
    replace (timeout g <? 0) with false by (symmetry; apply Z.ltb_ge; lia).
    replace (udp_port g <? - 2 ^ 31) with false
      by (symmetry; apply Z.ltb_ge; lia).
    replace (2 ^ 31 <=? udp_port g) with false
      by (symmetry; apply Z.leb_gt; lia).
    reflexivity. }
  unfold send_password, create_socket. rewrite E.
  eexists. split; [reflexivity |].
  cbn. repeat split. now left.
Qed.

Lemma send_password_unresolved_witness :
  exists w',
    send_password Z Z.add Z.ltb defaults "ab" 30000 [0; 1; 7105] quiet
    = Some (Raise (OSError "Name or service not known"), w')
    /\ sent w' = []
    /\ slept w' = 0
    /\ In 0%nat (open_sockets w').
Proof.
  exact (send_password_unresolved Z Z.add Z.ltb defaults "ab" 30000
           [0; 1; 7105] quiet "Name or service not known"
           ltac:(vm_compute; split; discriminate)
           ltac:(vm_compute; split; [discriminate | reflexivity])
           eq_refl).
Defined.

(* ------------------------------------------------------------------ *)
(** ** The countdown *)

(** X15.  [set_timer] for the countdown, named by [11] or by
    ['Countdown'].  Whatever [active] and the repeat mask are, the frame
    carries slot 0x0b and the packed byte 0x80; its hour and minute are
    those of the clock of the host moved forward by the hh:mm given and by
    the adjustment, that is the moment at which the countdown ends and not
    its length. *)
Theorem set_timer_countdown
        (enc : bytes -> bytes -> bytes -> bytes) (g : config)
        (mac ip : string) (timer : atom) (active : bool)
        (mask time_ switch : string) (h mi : Z) (delta_time : option Z)
        (w : world) :
  timer = AInt 11 \/ timer = AStr "Countdown" ->
  is_mask mask = true ->
  parse_hh_mm time_ = Ok (h, mi) ->
  0 <= now w + (3600 * h + 60 * mi) < datetime_end ->
  0 <= now w + (3600 * h + 60 * mi) + effective_delta delta_time w
  < datetime_end ->
  exists hour minute,
    set_timer enc g (mac, ip) timer active mask time_ switch delta_time w
    = run_receipt enc g mac ip
        (CMD_SET_TIMER "0b" "80" (hex [hour]) (hex [minute])
                       (switch_pattern switch)) w
    /\ byte_val hour
       = dt_hour (now w + (3600 * h + 60 * mi) + effective_delta delta_time w)
    /\ byte_val minute
       = dt_minute (now w + (3600 * h + 60 * mi)
                    + effective_delta delta_time w).
Proof.
  intros Htimer Hmask Hparse Hnow Hadj.
  destruct (encode_repeat_byte active mask Hmask) as (v & Hv & Ev).
  set (T := now w + (3600 * h + 60 * mi) + effective_delta delta_time w) in *.
  pose proof (dt_hour_range T) as RH. pose proof (dt_minute_range T) as RM.
  destruct (format_02x_hex (dt_hour T) ltac:(lia)) as (hour & NH & TH).
  destruct (format_02x_hex (dt_minute T) ltac:(lia)) as (minute & NM & TM).
  exists hour, minute. split; [| now split].
  rewrite <- TH, <- TM.
  unfold set_timer. unfold bind at 1. unfold lift at 1. rewrite Ev.
  unfold bind at 1. unfold lift at 1. rewrite Hparse. cbn [fst snd].
  assert (E : atom_eqb timer (AInt 11) || atom_eqb timer (AStr "Countdown")
              = true) by (destruct Htimer as [-> | ->]; reflexivity).
  rewrite E.
  unfold bind at 1. unfold bind at 1. unfold datetime_now at 1.
  unfold bind at 1. unfold lift at 1.
  rewrite datetime_add_ok by assumption.
  unfold ret at 1.
  unfold bind at 1. rewrite default_delta_effective.
  unfold bind at 1. unfold lift at 1. rewrite datetime_add_ok by assumption.
  fold T.
  unfold bind at 1. unfold lift at 1.
  rewrite split_two_fields by lia.
  unfold bind at 1. unfold lift at 1. cbn [fst snd]. reflexivity.
Qed.

(** A query for the countdown goes past the records of the regular
    slots. *)
Lemma timer_loop_reads (m : bytes) (d : Z) (n : nat) (rest : list nat)
      (data : list item) (w : world) :
  (n < 80)%nat -> readable m d n ->
  timer_loop (n :: rest) m (AStr "Countdown") d data w
  = timer_loop rest m (AStr "Countdown") d data w.
Proof.
  intros Hn (number & packed & hour & minute & pattern & Hrec & Htime).
  destruct (slot_record_bytes _ _ _ _ _ _ _ Hrec) as (H0 & H1 & H2 & H3 & _).
  cbn [timer_loop]. apply Nat.ltb_lt in Hn. rewrite Hn.
  unfold bind, lift, ret. rewrite H0, H1, H2.
  destruct Htime as [H255 | Hclock].
  - rewrite H255. reflexivity.
  - destruct (stored_clock _ _ _ Hclock) as (E255 & Est & Edt & Eadd).
    rewrite E255, H3, Est. cbn [fst snd]. rewrite Edt, Eadd.
    reflexivity.
Qed.

Lemma timer_loop_reads_all (m : bytes) (d : Z) (rest : list nat)
      (data : list item) (w : world) (pre : list nat) :
  Forall (fun n => (n < 80)%nat /\ readable m d n) pre ->
  timer_loop (pre ++ rest) m (AStr "Countdown") d data w
  = timer_loop rest m (AStr "Countdown") d data w.
Proof.
  induction 1 as [| n pre [Hn Hr] _ IH]; [reflexivity |].
  cbn [app]. rewrite timer_loop_reads by assumption. exact IH.
Qed.

(** X16.  [timer_query] asked for ['Countdown'], on a payload whose ten
    regular records are empty or hold a clock time and whose eleventh record
    holds a clock time.  The stored time less the adjustment is reduced by
    the hours and minutes of the clock of the host: the result is the time
    that remains, printed hh:mm.  When that subtraction leaves the range of
    [datetime], before 0001-01-01, the query raises [OverflowError]. *)
Theorem timer_query_countdown
        (enc dec : bytes -> bytes -> bytes -> bytes) (g : config)
        (mac ip cmd : string) (delta_time : option Z) (w : world)
        (p : bytes) (w1 : world)
        (number packed hour minute : byte) (pattern : bytes) :
  assemble_command enc g mac CMD_TIMER_QUERY = Ok cmd ->
  send g ip cmd w = (Ok (Success p), w1) ->
  (forall j, (j < 10)%nat ->
             readable (slice_from (dec PASSKEY INITIALIZATION_VECTOR p) 9)
                      (effective_delta delta_time w1) (8 * j)) ->
  slot_record (slice_from (dec PASSKEY INITIALIZATION_VECTOR p) 9) 80
              number packed hour minute pattern ->
  clock_bytes hour minute (effective_delta delta_time w1) ->
  timer_query enc dec g (mac, ip) (AStr "Countdown") delta_time w
  = (if 0 <=? 86400 + 3600 * byte_val hour + 60 * byte_val minute
              - effective_delta delta_time w1 - clock_part (now w1)
     then Ok (VItem (ITimer
            (mkTimer (AStr "Countdown")
                     (Some (decode_active (byte_val packed)))
                     (decode_repeat (byte_val packed))
                     (clock_text (86400 + 3600 * byte_val hour
                                  + 60 * byte_val minute
                                  - effective_delta delta_time w1
                                  - clock_part (now w1)))
                     (switch_text pattern))))
     else Raise OverflowError, w1).
Proof.
  intros Hcmd Hsend Hpre Hrec Hclock.
  destruct (send_success _ _ _ _ _ _ Hsend) as (d0 & _ & Hv & Hp).
  unfold timer_query, bind, lift. rewrite Hcmd, Hsend.
  unfold decrypt. rewrite Hp at 1. rewrite (valid_reply_aligned _ Hv).
  cbn [Nat.eqb]. rewrite default_delta_effective.
  set (d := effective_delta delta_time w1) in *.
  rewrite (timer_offsets_split 10) by lia.
  rewrite timer_loop_reads_all.
  2: { apply Forall_forall. intros n Hn. apply in_map_iff in Hn.
       destruct Hn as (j & <- & Hj). apply in_seq in Hj.
       split; [lia | apply Hpre; lia]. }
  destruct (slot_record_bytes _ _ _ _ _ _ _ Hrec) as (H0 & H1 & H2 & H3 & H4).
  change (8 * 10)%nat with 80%nat.
  cbn [timer_loop]. change (80 <? 80)%nat with false.
  unfold bind, lift, ret. rewrite H1, H2.
  destruct (stored_clock _ _ _ Hclock) as (E255 & Est & Edt & Eadd).
  rewrite E255, H3, Est. cbn [fst snd]. rewrite Edt, Eadd, H4.
  change (atom_eqb (AStr "Countdown") (AStr "Countdown")) with true.
  cbv iota. unfold datetime_now, datetime_add. cbv zeta.
  fold (clock_part (now w1)).
  set (R := 86400 + 3600 * byte_val hour + 60 * byte_val minute - d).
  replace (R + - clock_part (now w1)) with (R - clock_part (now w1)) by lia.
  assert (Hup : (R - clock_part (now w1) <? datetime_end) = true).
  { apply Z.ltb_lt. destruct Hclock as (_ & _ & Ht). fold R in Ht.
    unfold clock_part.
    pose proof (dt_hour_range (now w1)). pose proof (dt_minute_range (now w1)).
    lia. }
  rewrite Hup, andb_true_r.
  destruct (0 <=? R - clock_part (now w1)); reflexivity.
Qed.

Lemma set_timer_countdown_witness :
  set_timer plain_cbc defaults sample_socket (AStr "Countdown") false
            "1111111" "01:30" "on" None quiet
  = run_receipt plain_cbc defaults "AC CF 23 00 00 01" "192.168.0.15"
      (CMD_SET_TIMER "0b" "80" "0c" "2d" "00 00 FF FF") quiet.
Proof.
  destruct (set_timer_countdown
              plain_cbc defaults "AC CF 23 00 00 01" "192.168.0.15"
              (AStr "Countdown") false "1111111" "01:30" "on" 1 30 None quiet)
    as (hour & minute & E & Hh & Hm).
  - right. reflexivity.
  - reflexivity.
  - reflexivity.
  - vm_compute. split; [discriminate | reflexivity].
  - vm_compute. split; [discriminate | reflexivity].
  - assert (hour = x0c) as -> by (apply byte_val_inj; rewrite Hh; reflexivity).
    assert (minute = x2d) as ->
        by (apply byte_val_inj; rewrite Hm; reflexivity).
    exact E.
Defined.

Lemma timer_query_countdown_witness :
  exists w1,
    timer_query plain_cbc plain_cbc defaults sample_socket (AStr "Countdown")
                None (with_inbox [RecvData (reply_frame timers_payload)])
    = (Ok (VItem (ITimer (mkTimer (AStr "Countdown") (Some true) "0000000"
                                  "00:45" "on"))), w1).
Proof.
  pose (W := with_inbox [RecvData (reply_frame timers_payload)]).
  pose (w1 := snd (send defaults "192.168.0.15" timer_query_command W)).
  assert (H1 : assemble_command plain_cbc defaults "AC CF 23 00 00 01"
                 CMD_TIMER_QUERY = Ok timer_query_command)
    by (vm_compute; reflexivity).
  assert (H2 : send defaults "192.168.0.15" timer_query_command W
               = (Ok (Success timers_payload), w1))
    by (vm_compute; reflexivity).
  exists w1.
  exact (timer_query_countdown
           plain_cbc plain_cbc defaults "AC CF 23 00 00 01" "192.168.0.15"
           timer_query_command None W timers_payload w1
           x0b x80 x0c x00 [x00; x00; xff; xff]
           H1 H2
           ltac:(intros j Hj;
                 do 10 (destruct j as [| j];
                        [ eexists _, _, _, _, _;
                          split; [reflexivity |];
                          first [ left; reflexivity
                                | right; vm_compute; repeat split;
                                  discriminate ] |]);
                 lia)
           ltac:(reflexivity)
           ltac:(vm_compute; repeat split; discriminate)).
Defined.

(* ------------------------------------------------------------------ *)
(** ** The time adjustment *)






(** In a zone one hour east of UTC, a timer set for 07:30 with
    [delta_time=0] goes on the wire as 06:30. *)
Example zero_delta_shifts :
  nth_error (sent (snd (set_timer plain_cbc defaults sample_socket (AInt 3)
                                  true "1111100" "07:30" "on" (Some 0) quiet)))
            0
  = option_map (fun b => (b, ("192.168.0.15", 8530)))
      (fromhex ("01 40 AC CF 23 00 00 01 20 00 FF FF C1 11 71 50 "
                ++ "03 00 03 9F 06 1E 00 00 FF FF "
                ++ "0F 0F 0F 0F 0F 0F 0F 0F 0F 0F 0F 0F 0F 0F 0F")).
Proof. vm_compute. reflexivity. Qed.
